(** * Bastion: an identity-routing SSH bastion

    A shallow embedding of the authentication, routing and relay code of
    the bastion ([bastion/auth.py], [bastion/router.py], [bastion/db.py],
    [bastion/models.py], [bastion/logging.py], [bastion/proxy.py]) and the
    properties proved about it.

    Python code that logs, touches the catalog or raises is embedded in a
    state-and-exception monad over a [World]; pure code is embedded as
    plain functions. *)

From Stdlib Require Import ZArith List String Ascii Bool Lia.
From Stdlib.Strings Require Import Byte.
From stdpp Require Import base option list strings gmap pretty.

Import ListNotations.
Open Scope string_scope.
Open Scope Z_scope.

(* ===================================================================== *)
(** * hashlib.sha256 (FIPS 180-4)                                         *)
(* ===================================================================== *)

Module Hashlib.

(** 32-bit words are [Z] values reduced modulo 2^32. *)
Definition w32 (x : Z) : Z := x mod 2 ^ 32.
Definition add32 (x y : Z) : Z := w32 (x + y).
Definition not32 (x : Z) : Z := Z.lxor x 0xffffffff.
Definition rotr (n x : Z) : Z :=
  Z.lor (Z.shiftr x n) (w32 (Z.shiftl x (32 - n))).

Definition Ch (x y z : Z) : Z := Z.lxor (Z.land x y) (Z.land (not32 x) z).
Definition Maj (x y z : Z) : Z :=
  Z.lxor (Z.lxor (Z.land x y) (Z.land x z)) (Z.land y z).
Definition Sigma0 (x : Z) : Z := Z.lxor (Z.lxor (rotr 2 x) (rotr 13 x)) (rotr 22 x).
Definition Sigma1 (x : Z) : Z := Z.lxor (Z.lxor (rotr 6 x) (rotr 11 x)) (rotr 25 x).
Definition sigma0 (x : Z) : Z := Z.lxor (Z.lxor (rotr 7 x) (rotr 18 x)) (Z.shiftr x 3).
Definition sigma1 (x : Z) : Z := Z.lxor (Z.lxor (rotr 17 x) (rotr 19 x)) (Z.shiftr x 10).

(** The round constants, in the eight rows of the standard. *)
Definition K : list Z :=
  List.concat
  [[0x428a2f98; 0x71374491; 0xb5c0fbcf; 0xe9b5dba5;
    0x3956c25b; 0x59f111f1; 0x923f82a4; 0xab1c5ed5];
   [0xd807aa98; 0x12835b01; 0x243185be; 0x550c7dc3;
    0x72be5d74; 0x80deb1fe; 0x9bdc06a7; 0xc19bf174];
   [0xe49b69c1; 0xefbe4786; 0x0fc19dc6; 0x240ca1cc;
    0x2de92c6f; 0x4a7484aa; 0x5cb0a9dc; 0x76f988da];
   [0x983e5152; 0xa831c66d; 0xb00327c8; 0xbf597fc7;
    0xc6e00bf3; 0xd5a79147; 0x06ca6351; 0x14292967];
   [0x27b70a85; 0x2e1b2138; 0x4d2c6dfc; 0x53380d13;
    0x650a7354; 0x766a0abb; 0x81c2c92e; 0x92722c85];
   [0xa2bfe8a1; 0xa81a664b; 0xc24b8b70; 0xc76c51a3;
    0xd192e819; 0xd6990624; 0xf40e3585; 0x106aa070];
   [0x19a4c116; 0x1e376c08; 0x2748774c; 0x34b0bcb5;
    0x391c0cb3; 0x4ed8aa4a; 0x5b9cca4f; 0x682e6ff3];
   [0x748f82ee; 0x78a5636f; 0x84c87814; 0x8cc70208;
    0x90befffa; 0xa4506ceb; 0xbef9a3f7; 0xc67178f2]].

Definition H0 : list Z :=
  [0x6a09e667; 0xbb67ae85; 0x3c6ef372; 0xa54ff53a; 0x510e527f; 0x9b05688c;
   0x1f83d9ab; 0x5be0cd19].

Definition byte_to_Z (b : byte) : Z := Z.of_N (Byte.to_N b).
Definition byte_of_Z (z : Z) : byte :=
  match Byte.of_N (Z.to_N (z mod 256)) with
  | Some b => b
  | None => x00
  end.

(** Big-endian encoding of [x] on [n] bytes. *)
Fixpoint be_bytes (n : nat) (x : Z) : list Z :=
  match n with
  | O => []
  | S n' => be_bytes n' (Z.shiftr x 8) ++ [x mod 256]
  end.

(** Padding: a 1 bit, zeros up to 56 modulo 64, then the bit length on
    eight bytes. *)
Definition pad (msg : list Z) : list Z :=
  let len := Z.of_nat (length msg) in
  let zeros := Z.to_nat ((55 - len) mod 64) in
  msg ++ [0x80] ++ repeat 0 zeros ++ be_bytes 8 (8 * len).

Fixpoint be_words (fuel : nat) (bs : list Z) : list Z :=
  match fuel, bs with
  | S fuel', a :: b :: c :: d :: rest =>
      (Z.shiftl a 24 + Z.shiftl b 16 + Z.shiftl c 8 + d) :: be_words fuel' rest
  | _, _ => []
  end.

(** The message schedule, most recent word first: from the words
    W[t-1] .. W[t-16] compute W[t]. *)
Definition next_W (ws : list Z) : Z :=
  add32 (add32 (add32 (sigma1 (nth 1 ws 0)) (nth 6 ws 0)) (sigma0 (nth 14 ws 0)))
        (nth 15 ws 0).

Fixpoint extend_W (n : nat) (ws : list Z) : list Z :=
  match n with
  | O => ws
  | S n' => extend_W n' (next_W ws :: ws)
  end.

Definition schedule (block : list Z) : list Z :=
  rev (extend_W 48 (rev block)).

Definition round (st : list Z) (kw : Z * Z) : list Z :=
  match st with
  | [a; b; c; d; e; f; g; h] =>
      let T1 := add32 (add32 (add32 (add32 h (Sigma1 e)) (Ch e f g)) (fst kw)) (snd kw) in
      let T2 := add32 (Sigma0 a) (Maj a b c) in
      [add32 T1 T2; a; b; c; add32 d T1; e; f; g]
  | _ => st
  end.

Definition compress (H : list Z) (block : list Z) : list Z :=
  let st := fold_left round (combine K (schedule block)) H in
  map (fun p => add32 (fst p) (snd p)) (combine H st).

Fixpoint blocks (fuel : nat) (ws : list Z) : list (list Z) :=
  match fuel, ws with
  | O, _ => []
  | _, [] => []
  | S fuel', _ => firstn 16 ws :: blocks fuel' (skipn 16 ws)
  end.

Definition sha256 (msg : list byte) : list byte :=
  let padded := pad (map byte_to_Z msg) in
  let ws := be_words (length padded) padded in
  let H := fold_left compress (blocks (length ws) ws) H0 in
  map byte_of_Z (flat_map (be_bytes 4) H).

End Hashlib.

(* ===================================================================== *)
(** * base64.b64encode and str.rstrip                                     *)
(* ===================================================================== *)

Module Base64.

Definition alphabet : list ascii :=
  list_ascii_of_string
    "ABCDEFGHIJKLMNOPQRSTUVWXYZabcdefghijklmnopqrstuvwxyz0123456789+/".

Definition char (i : Z) : ascii := nth (Z.to_nat (i mod 64)) alphabet "A"%char.

Definition pad_char : ascii := "="%char.

(** The four sextets of a full three-byte group. *)
Definition s1 (a : Z) : Z := Z.shiftr a 2.
Definition s2 (a b : Z) : Z := Z.lor (Z.shiftl (Z.land a 3) 4) (Z.shiftr b 4).
Definition s3 (b c : Z) : Z := Z.lor (Z.shiftl (Z.land b 15) 2) (Z.shiftr c 6).
Definition s4 (c : Z) : Z := Z.land c 63.

(** [base64.b64encode]: three bytes give four characters; a last group
    of one or two bytes is padded with '='. *)
Fixpoint encode (bs : list Z) : string :=
  match bs with
  | [] => ""
  | [a] =>
      String (char (s1 a)) (String (char (s2 a 0))
        (String pad_char (String pad_char "")))
  | [a; b] =>
      String (char (s1 a)) (String (char (s2 a b))
        (String (char (s3 b 0)) (String pad_char "")))
  | a :: b :: c :: rest =>
      String (char (s1 a)) (String (char (s2 a b))
        (String (char (s3 b c)) (String (char (s4 c)) (encode rest))))
  end.

Definition b64encode (bs : list byte) : string :=
  encode (map Hashlib.byte_to_Z bs).

(** [s.rstrip(c)]: remove every trailing occurrence of [c]. *)
Fixpoint rstrip (c : ascii) (s : string) : string :=
  match s with
  | "" => ""
  | String a s' =>
      match rstrip c s' with
      | "" => if Ascii.eqb a c then "" else String a ""
      | r => String a r
      end
  end.

End Base64.

(* ===================================================================== *)
(** * Python values that the bastion manipulates                          *)
(* ===================================================================== *)

Module Py.

(** The exception classes that occur in the modelled code; each carries
    the text that [str(e)] gives. *)
Inductive Exn : Type :=
| ValueError (msg : string)
| AttributeError (msg : string)
| UnboundLocalError (msg : string)
| NotImplementedError (msg : string)
| OperationalError (msg : string)
| SocketError (msg : string).

Definition str (e : Exn) : string :=
  match e with
  | ValueError m | AttributeError m | UnboundLocalError m
  | NotImplementedError m | OperationalError m | SocketError m => m
  end.

(** The outcome of running a Python expression: a value or a raised
    exception. *)
Inductive result (A : Type) : Type :=
| Ok (a : A)
| Raise (e : Exn).
Arguments Ok {A} a.
Arguments Raise {A} e.

(** [s[:n]] *)
Definition slice_to (n : nat) (s : string) : string := substring 0 n s.

(** [not s] for a string *)
Definition is_empty (s : string) : bool :=
  match s with "" => true | _ => false end.

(** [s.split(sep)] for a one-character separator: never the empty
    list. *)
Fixpoint split (sep : ascii) (s : string) : list string :=
  match s with
  | "" => [""]
  | String c s' =>
      if Ascii.eqb c sep then "" :: split sep s'
      else match split sep s' with
           | [] => [String c ""]
           | hd :: tl => String c hd :: tl
           end
  end.

End Py.
Export Py(Exn, result, Ok, Raise).

(* ===================================================================== *)
(** * bastion/models.py                                                   *)
(* ===================================================================== *)

Module SSHKey.
Record t : Type := Build {
  id : option Z;
  fingerprint : string;
  username : string;
  target_host : string;
  target_port : Z;
  target_user : string;
  enabled : bool
}.

(** The dataclass constructor followed by [__post_init__]. *)
Definition init (id : option Z) (fingerprint username target_host : string)
    (target_port : Z) (target_user : string) (enabled : bool) : result t :=
  if Py.is_empty fingerprint then Raise (Py.ValueError "Fingerprint is required")
  else if Py.is_empty target_host then Raise (Py.ValueError "Target host is required")
  else if Py.is_empty target_user then Raise (Py.ValueError "Target user is required")
  else if (target_port <? 1) || (target_port >? 65535)
       then Raise (Py.ValueError "Invalid target port")
  else Ok (Build id fingerprint username target_host target_port target_user enabled).
End SSHKey.

Module Target.
Record t : Type := Build {
  host : string;
  port : Z;
  user : string
}.

Definition init (host : string) (port : Z) (user : string) : result t :=
  if Py.is_empty host then Raise (Py.ValueError "Target host is required")
  else if Py.is_empty user then Raise (Py.ValueError "Target user is required")
  else if (port <? 1) || (port >? 65535) then Raise (Py.ValueError "Invalid port")
  else Ok (Build host port user).
End Target.

Module ConnectionEvent.
Record t : Type := Build {
  fingerprint : string;
  source_ip : string;
  target_host : string;
  target_user : string;
  username : string;
  status : string;   (* 'success', 'denied', 'error' *)
  timestamp : option string;
  error_message : option string
}.
End ConnectionEvent.

(* ===================================================================== *)
(** * The world: the textual log and the catalog database                 *)
(* ===================================================================== *)

Inductive Level : Type := DEBUG | INFO | WARNING | ERROR.

(** What the logger receives.  The helpers of [bastion/logging.py] are
    kept apart by constructor, with the fields that they format (the
    fingerprint cut to sixteen characters); every other call is a level
    and its text. *)
Inductive LogRecord : Type :=
| ConnectionAttempt (source_ip fingerprint16 username : string)
| ConnectionSuccess (source_ip fingerprint16 username target_host : string)
| ConnectionDenied (source_ip fingerprint16 username reason : string)
| ConnectionError (source_ip fingerprint16 username error : string)
| ConnectionClosed (source_ip fingerprint16 target_host : string)
| Message (level : Level) (text : string).

(** A row of the table [ssh_keys], as SQLite stores it. *)
Record Row : Type := {
  row_id : Z;
  row_fingerprint : string;
  row_username : string;
  row_target_host : string;
  row_target_port : Z;
  row_target_user : string;
  row_enabled : Z
}.

Record Database : Type := {
  db_url : string;
  (** When set, opening a connection or executing a statement raises
      this exception (locked, missing or corrupt database file). *)
  db_fault : option Exn;
  ssh_keys : list Row;
  connection_logs : list ConnectionEvent.t
}.

(** External objects (channels, SSH clients) are known by identity. *)
Definition Handle : Type := nat.

(** A [paramiko.Channel], seen from the bastion. *)
Record Channel : Type := {
  closed : bool;
  (** received from the peer and not yet read *)
  in_buffer : list byte;
  eof_received : bool;
  (** when set, [recv] raises it *)
  recv_fault : option Exn;
  (** the room that the peer's window leaves to each coming call of
      [send]; with no entry left a call takes all it is given *)
  send_window : list nat;
  (** when set, [send] raises it *)
  send_fault : option Exn;
  (** the bytes that [send] has taken so far, in order *)
  sent : list byte
}.

(** The values stored in a connection-info dict. *)
#[local] Unset Elimination Schemes.
Inductive value : Type :=
| VChannel (h : Handle)
| VClient (h : Handle)
| VTarget (t : Target.t)
| VStr (s : string)
| VDict (items : list (string * value)).
#[local] Set Elimination Schemes.

Record World : Type := {
  logger : list LogRecord;
  database : Database;
  channels : gmap Handle Channel;
  (** handles whose [close()] raises, with the exception *)
  close_fault : gmap Handle Exn;
  (** the calls of [close()] made so far, in order *)
  close_calls : list Handle;
  (** [SSHProxy.active_connections] *)
  active_connections : gmap string (gmap string value)
}.

Definition set_logger (l : list LogRecord) (w : World) : World :=
  {| logger := l; database := database w; channels := channels w;
     close_fault := close_fault w; close_calls := close_calls w;
     active_connections := active_connections w |}.

Definition set_database (d : Database) (w : World) : World :=
  {| logger := logger w; database := d; channels := channels w;
     close_fault := close_fault w; close_calls := close_calls w;
     active_connections := active_connections w |}.

Definition set_channels (c : gmap Handle Channel) (w : World) : World :=
  {| logger := logger w; database := database w; channels := c;
     close_fault := close_fault w; close_calls := close_calls w;
     active_connections := active_connections w |}.

Definition set_close_calls (c : list Handle) (w : World) : World :=
  {| logger := logger w; database := database w; channels := channels w;
     close_fault := close_fault w; close_calls := c;
     active_connections := active_connections w |}.

Definition set_active_connections (a : gmap string (gmap string value)) (w : World)
  : World :=
  {| logger := logger w; database := database w; channels := channels w;
     close_fault := close_fault w; close_calls := close_calls w;
     active_connections := a |}.

(** Computations that read and write the world and may raise. *)
Definition M (A : Type) : Type := World -> result A * World.

Definition ret {A} (a : A) : M A := fun w => (Ok a, w).
Definition raise {A} (e : Exn) : M A := fun w => (Raise e, w).
Definition bind {A B} (m : M A) (k : A -> M B) : M B :=
  fun w => match m w with
           | (Ok a, w') => k a w'
           | (Raise e, w') => (Raise e, w')
           end.
Definition lift {A} (r : result A) : M A := fun w => (r, w).

(** [try: body except Exception as e: handler e] *)
Definition try_except {A} (body : M A) (handler : Exn -> M A) : M A :=
  fun w => match body w with
           | (Ok a, w') => (Ok a, w')
           | (Raise e, w') => handler e w'
           end.

Declare Scope py_scope.
Delimit Scope py_scope with py.
Notation "'let*' x ':=' m 'in' k" := (bind m (fun x => k))
  (at level 10, x name, m at level 100, k at level 200) : py_scope.
Notation "m ';;' k" := (bind m (fun _ => k))
  (at level 100, k at level 200, right associativity) : py_scope.
Open Scope py_scope.

Definition emit (r : LogRecord) : M unit :=
  fun w => (Ok tt, set_logger (logger w ++ [r]) w).

(** ** bastion/logging.py *)

Definition log_connection_attempt (source_ip fingerprint username : string) : M unit :=
  emit (ConnectionAttempt source_ip (Py.slice_to 16 fingerprint) username).

Definition log_connection_success (source_ip fingerprint username target_host : string)
  : M unit :=
  emit (ConnectionSuccess source_ip (Py.slice_to 16 fingerprint) username target_host).

Definition log_connection_denied (source_ip fingerprint username reason : string)
  : M unit :=
  emit (ConnectionDenied source_ip (Py.slice_to 16 fingerprint) username reason).

Definition log_connection_error (source_ip fingerprint username error : string)
  : M unit :=
  emit (ConnectionError source_ip (Py.slice_to 16 fingerprint) username error).

Definition log_connection_closed (source_ip fingerprint target_host : string) : M unit :=
  emit (ConnectionClosed source_ip (Py.slice_to 16 fingerprint) target_host).

Definition logger_debug (text : string) : M unit := emit (Message DEBUG text).
Definition logger_info (text : string) : M unit := emit (Message INFO text).
Definition logger_warning (text : string) : M unit := emit (Message WARNING text).
Definition logger_error (text : string) : M unit := emit (Message ERROR text).

(* ===================================================================== *)
(** * bastion/db.py                                                       *)
(* ===================================================================== *)

Module Db.

(** [_get_connection]: only SQLite URLs are served; the connection may
    fail to open. *)
Definition _get_connection : M Database :=
  fun w =>
    let db := database w in
    if String.prefix "sqlite" (db_url db) then
      match db_fault db with
      | Some e => (Raise e, w)
      | None => (Ok db, w)
      end
    else (Raise (Py.NotImplementedError "PostgreSQL support not yet implemented"), w).

(** [SELECT ... WHERE fingerprint = ? AND enabled = 1] then [fetchone]. *)
Definition select_key (fingerprint : string) (rows : list Row) : option Row :=
  List.find (fun r => String.eqb (row_fingerprint r) fingerprint && (row_enabled r =? 1))
            rows.

(** [bool(row['enabled'])] *)
Definition bool_of_int (z : Z) : bool := negb (z =? 0).

Definition find_ssh_key (fingerprint : string) : M (option SSHKey.t) :=
  try_except
    (let* conn := _get_connection in
     match select_key fingerprint (ssh_keys conn) with
     | Some row =>
         let* k := lift (SSHKey.init (Some (row_id row)) (row_fingerprint row)
                           (row_username row) (row_target_host row)
                           (row_target_port row) (row_target_user row)
                           (bool_of_int (row_enabled row))) in
         ret (Some k)
     | None => ret None
     end)
    (fun e => logger_error ("Error finding SSH key: " +:+ Py.str e) ;; ret None).

Definition insert_event (event : ConnectionEvent.t) : M unit :=
  fun w =>
    let db := database w in
    (Ok tt, set_database {| db_url := db_url db; db_fault := db_fault db;
                            ssh_keys := ssh_keys db;
                            connection_logs := connection_logs db ++ [event] |} w).

Definition log_connection_event (event : ConnectionEvent.t) : M bool :=
  try_except
    (let* conn := _get_connection in
     insert_event event ;;
     ret true)
    (fun e => logger_error ("Error logging connection event: " +:+ Py.str e) ;;
              ret false).

Definition get_target_for_key (fingerprint : string) : M (option Target.t) :=
  let* ssh_key := find_ssh_key fingerprint in
  match ssh_key with
  | Some k =>
      if SSHKey.enabled k then
        let* t := lift (Target.init (SSHKey.target_host k) (SSHKey.target_port k)
                          (SSHKey.target_user k)) in
        ret (Some t)
      else ret None
  | None => ret None
  end.

End Db.

(* ===================================================================== *)
(** * The [ipaddress] module, as the router uses it                       *)
(* ===================================================================== *)

Module Ipaddress.

(** An address object: its [_version] (4 or 6) and its integer [_ip]. *)
Record address : Type := { version : Z; ip : Z }.

(** A network object: version, [network_address] and [netmask] as
    integers. *)
Record network : Type := { net_version : Z; network_address : Z; netmask : Z }.

(** [address in network]: false across versions, otherwise the masked
    address is compared with the network address. *)
Definition contains (n : network) (a : address) : bool :=
  if negb (net_version n =? version a) then false
  else Z.land (ip a) (netmask n) =? network_address n.

(** The two parsers of the module: [ip_address(text)] and
    [ip_network(text, strict=False)], which raise [ValueError] on text
    that is no address or no network. *)
Class Parser : Type := {
  ip_address : string -> result address;
  ip_network : string -> result network
}.

(** ** The dotted-quad fragment

    IPv4 text [a.b.c.d] and networks [a.b.c.d] or [a.b.c.d/len] with a
    decimal prefix length.  IPv6 text and netmask-style suffixes are not
    covered by this instance; it serves to run the router on concrete
    hosts, the properties of the router are stated for every parser. *)

Definition digit (c : ascii) : option Z :=
  let n := Z.of_N (N_of_ascii c) in
  if (48 <=? n) && (n <=? 57) then Some (n - 48) else None.

Fixpoint decimal_from (acc : Z) (s : string) : option Z :=
  match s with
  | "" => Some acc
  | String c s' =>
      match digit c with
      | Some d => decimal_from (10 * acc + d) s'
      | None => None
      end
  end.

(** A non-empty run of decimal digits. *)
Definition decimal (s : string) : option Z :=
  match s with
  | "" => None
  | _ => decimal_from 0 s
  end.

(** One octet: at most three digits, no leading zero, at most 255. *)
Definition octet (s : string) : option Z :=
  match decimal s with
  | Some v =>
      if (Nat.ltb 3 (String.length s)) then None
      else if (Nat.ltb 1 (String.length s)) && String.prefix "0" s then None
      else if v >? 255 then None
      else Some v
  | None => None
  end.

Definition ipv4_int (s : string) : option Z :=
  match Py.split "."%char s with
  | [a; b; c; d] =>
      match octet a, octet b, octet c, octet d with
      | Some a, Some b, Some c, Some d =>
          Some (Z.shiftl a 24 + Z.shiftl b 16 + Z.shiftl c 8 + d)
      | _, _, _, _ => None
      end
  | _ => None
  end.

Definition ipv4_address (s : string) : result address :=
  match ipv4_int s with
  | Some v => Ok {| version := 4; ip := v |}
  | None =>
      Raise (Py.ValueError (s +:+ " does not appear to be an IPv4 or IPv6 address"))
  end.

Definition ipv4_mask (len : Z) : Z := Z.shiftl (2 ^ len - 1) (32 - len).

Definition ipv4_network (s : string) : result network :=
  let bad := Raise (Py.ValueError (s +:+ " does not appear to be an IPv4 or IPv6 network")) in
  let mk v len :=
    Ok {| net_version := 4;
          network_address := Z.land v (ipv4_mask len);
          netmask := ipv4_mask len |} in
  match Py.split "/"%char s with
  | [a] =>
      match ipv4_int a with
      | Some v => mk v 32
      | None => bad
      end
  | [a; l] =>
      match ipv4_int a, decimal l with
      | Some v, Some len => if len <=? 32 then mk v len else bad
      | _, _ => bad
      end
  | _ => bad
  end.

Definition ipv4 : Parser :=
  {| ip_address := ipv4_address; ip_network := ipv4_network |}.

End Ipaddress.

(* ===================================================================== *)
(** * bastion/config.py                                                   *)
(* ===================================================================== *)

Module Config.

Record t : Type := {
  RESTRICTED_NETWORKS : list string
}.

(** [os.getenv("RESTRICTED_NETWORKS", "10.10.254.0/24").split(",")] *)
Definition from_env (restricted_networks : option string) : t :=
  {| RESTRICTED_NETWORKS :=
       Py.split ","%char (default "10.10.254.0/24" restricted_networks) |}.

End Config.

(* ===================================================================== *)
(** * bastion/auth.py                                                     *)
(* ===================================================================== *)

(** A [paramiko.PKey]: [asbytes()] gives the key blob in wire format, or
    raises. *)
Record PKey : Type := { asbytes : result (list byte) }.

Module SSHKeyAuth.

Definition get_key_fingerprint (public_key : PKey) : M string :=
  try_except
    (let* key_bytes := lift (asbytes public_key) in
     let sha256_hash := Hashlib.sha256 key_bytes in
     let fingerprint :=
       "SHA256:" +:+ Base64.rstrip "="%char (Base64.b64encode sha256_hash) in
     ret fingerprint)
    (fun e => logger_error ("Error calculating key fingerprint: " +:+ Py.str e) ;;
              ret "").

(** The body of the [try] of [authenticate_key] once [fingerprint] is
    bound. *)
Definition authenticate_key_body (fingerprint username source_ip : string)
  : M (bool * option SSHKey.t) :=
  if Py.is_empty fingerprint then
    log_connection_denied source_ip "INVALID" username
      "Could not calculate key fingerprint" ;;
    ret (false, None)
  else
    log_connection_attempt source_ip fingerprint username ;;
    let* ssh_key := Db.find_ssh_key fingerprint in
    match ssh_key with
    | None =>
        log_connection_denied source_ip fingerprint username
          "SSH key not found in database" ;;
        ret (false, None)
    | Some k =>
        if negb (SSHKey.enabled k) then
          log_connection_denied source_ip fingerprint username
            "SSH key is disabled" ;;
          ret (false, None)
        else
          logger_info ("Authentication SUCCESS for " +:+ username +:+ " from "
                       +:+ source_ip +:+ " with fingerprint "
                       +:+ Py.slice_to 16 fingerprint +:+ "...") ;;
          ret (true, Some k)
    end.

(** The [except Exception as e] clause of [authenticate_key].  It reads
    the local [fingerprint], which is unbound when the exception came
    before its assignment. *)
Definition authenticate_key_except (fingerprint : option string)
    (username source_ip : string) (e : Exn) : M (bool * option SSHKey.t) :=
  logger_error ("Authentication error: " +:+ Py.str e) ;;
  match fingerprint with
  | None =>
      raise (Py.UnboundLocalError
               "cannot access local variable 'fingerprint' where it is not associated with a value")
  | Some fp =>
      log_connection_denied source_ip (if Py.is_empty fp then "UNKNOWN" else fp)
        username ("Authentication error: " +:+ Py.str e) ;;
      ret (false, None)
  end.

Definition authenticate_key (username : string) (public_key : PKey)
    (source_ip : string) : M (bool * option SSHKey.t) :=
  fun w =>
    match get_key_fingerprint public_key w with
    | (Raise e, w1) => authenticate_key_except None username source_ip e w1
    | (Ok fingerprint, w1) =>
        try_except (authenticate_key_body fingerprint username source_ip)
                   (authenticate_key_except (Some fingerprint) username source_ip) w1
    end.

Definition is_key_authorized (fingerprint : string) : M bool :=
  try_except
    (let* ssh_key := Db.find_ssh_key fingerprint in
     ret (match ssh_key with Some k => SSHKey.enabled k | None => false end))
    (fun e => logger_error ("Error checking key authorization: " +:+ Py.str e) ;;
              ret false).

End SSHKeyAuth.

(* ===================================================================== *)
(** * bastion/router.py                                                   *)
(* ===================================================================== *)

Module SSHRouter.
Section Router.

Context {parser : Ipaddress.Parser}.
Variable config : Config.t.

(** [for host in Config.RESTRICTED_NETWORKS: ...] inside
    [_validate_target]; the result is the function's return value. *)
Fixpoint restricted_networks_loop (target : Target.t) (hosts : list string)
  : M bool :=
  match hosts with
  | [] => ret true
  | host :: rest =>
      let* a := lift (Ipaddress.ip_address (Target.host target)) in
      let* n := lift (Ipaddress.ip_network host) in
      if Ipaddress.contains n a then
        logger_error ("Target host " +:+ Target.host target
                      +:+ " is in restricted network " +:+ host +:+ "!") ;;
        ret false
      else restricted_networks_loop target rest
  end.

Definition _validate_target (target : Target.t) : M bool :=
  try_except
    (if Py.is_empty (Target.host target) || Py.is_empty (Target.user target)
     then ret false
     else if (Target.port target <? 1) || (Target.port target >? 65535)
     then ret false
     else restricted_networks_loop target (Config.RESTRICTED_NETWORKS config))
    (fun e => logger_error ("Target validation error: " +:+ Py.str e) ;;
              ret false).

Definition _log_connection_event (ssh_key : option SSHKey.t)
    (username source_ip : string) (target : option Target.t) (status : string)
    (error_message : option string) : M unit :=
  try_except
    (let* fp :=
       match ssh_key with
       | Some k => ret (SSHKey.fingerprint k)
       | None => raise (Py.AttributeError
                          "'NoneType' object has no attribute 'fingerprint'")
       end in
     let event :=
       ConnectionEvent.Build fp source_ip
         (match target with Some t => Target.host t | None => "" end)
         (match target with Some t => Target.user t | None => "" end)
         username status None error_message in
     Db.log_connection_event event ;;
     ret tt)
    (fun e => logger_error ("Error logging connection event: " +:+ Py.str e)).

Definition get_target (ssh_key : option SSHKey.t) (username source_ip : string)
  : M (option Target.t) :=
  try_except
    (match ssh_key with
     | None =>
         log_connection_denied source_ip "UNKNOWN" username
           "SSH key not valid or disabled" ;;
         ret None
     | Some k =>
         if negb (SSHKey.enabled k) then
           log_connection_denied source_ip (SSHKey.fingerprint k) username
             "SSH key not valid or disabled" ;;
           ret None
         else
           let* target := lift (Target.init (SSHKey.target_host k)
                                  (SSHKey.target_port k) (SSHKey.target_user k)) in
           let* valid := _validate_target target in
           if negb valid then
             log_connection_denied source_ip (SSHKey.fingerprint k) username
               "Invalid target configuration" ;;
             ret None
           else
             log_connection_success source_ip (SSHKey.fingerprint k) username
               (Target.host target) ;;
             _log_connection_event ssh_key username source_ip (Some target)
               "success" None ;;
             logger_info ("Routing SUCCESS: " +:+ username +:+ "@" +:+ source_ip
                          +:+ " -> " +:+ Target.user target +:+ "@"
                          +:+ Target.host target +:+ ":"
                          +:+ pretty (Target.port target)) ;;
             ret (Some target)
     end)
    (fun e =>
       logger_error ("Routing error: " +:+ Py.str e) ;;
       _log_connection_event ssh_key username source_ip None "error"
         (Some (Py.str e)) ;;
       ret None).

Definition is_target_reachable (target : Target.t) : M bool :=
  try_except (_validate_target target)
    (fun e => logger_error ("Target reachability check error: " +:+ Py.str e) ;;
              ret false).

End Router.
End SSHRouter.

(* ===================================================================== *)
(** * bastion/proxy.py                                                    *)
(* ===================================================================== *)

Module SSHProxy.

(** ** Operations of the external objects *)

Definition set_channel (h : Handle) (c : Channel) : M unit :=
  fun w => (Ok tt, set_channels (<[h := c]> (channels w)) w).

Definition get_channel (h : Handle) : M Channel :=
  fun w => match channels w !! h with
           | Some c => (Ok c, w)
           | None => (Raise (Py.AttributeError "not a channel"), w)
           end.

(** [channel.closed] *)
Definition is_closed (h : Handle) : M bool :=
  let* c := get_channel h in ret (closed c).

(** [select.select([channel], [], [], 1.0)]: the channel is readable
    when it holds data or will give no more. *)
Definition select (h : Handle) : M bool :=
  let* c := get_channel h in
  ret (match in_buffer c with
       | [] => eof_received c || closed c
       | _ => true
       end).

(** [channel.recv(nbytes)] on a readable channel: at most [nbytes]
    bytes from the front of the buffer; the empty string at end of
    stream. *)
Definition recv (h : Handle) (nbytes : nat) : M (list byte) :=
  let* c := get_channel h in
  match recv_fault c with
  | Some e => raise e
  | None =>
      set_channel h {| closed := closed c; in_buffer := skipn nbytes (in_buffer c);
                       eof_received := eof_received c; recv_fault := recv_fault c;
                       send_window := send_window c; send_fault := send_fault c;
                       sent := sent c |} ;;
      ret (firstn nbytes (in_buffer c))
  end.

(** [channel.send(data)]: takes as many bytes as the window allows and
    returns their number; raises on a closed channel. *)
Definition send (h : Handle) (data : list byte) : M nat :=
  let* c := get_channel h in
  if closed c then raise (Py.SocketError "Socket is closed")
  else match send_fault c with
       | Some e => raise e
       | None =>
           let n := match send_window c with
                    | [] => length data
                    | room :: _ => Nat.min room (length data)
                    end in
           set_channel h {| closed := closed c; in_buffer := in_buffer c;
                            eof_received := eof_received c;
                            recv_fault := recv_fault c;
                            send_window := tail (send_window c);
                            send_fault := send_fault c;
                            sent := sent c ++ firstn n data |} ;;
           ret n
       end.

(** [obj.close()] on a channel or an SSH client. *)
Definition close_handle (h : Handle) : M unit :=
  fun w =>
    let w1 := set_close_calls (close_calls w ++ [h]) w in
    match close_fault w !! h with
    | Some e => (Raise e, w1)
    | None =>
        match channels w !! h with
        | Some c =>
            (Ok tt, set_channels
                      (<[h := {| closed := true; in_buffer := in_buffer c;
                                 eof_received := eof_received c;
                                 recv_fault := recv_fault c;
                                 send_window := send_window c;
                                 send_fault := send_fault c;
                                 sent := sent c |}]> (channels w)) w1)
        | None => (Ok tt, w1)
        end
    end.

(** [v.close()] for a stored value. *)
Definition value_close (v : value) : M unit :=
  match v with
  | VChannel h | VClient h => close_handle h
  | VTarget _ => raise (Py.AttributeError "'Target' object has no attribute 'close'")
  | VStr _ => raise (Py.AttributeError "'str' object has no attribute 'close'")
  | VDict _ => raise (Py.AttributeError "'dict' object has no attribute 'close'")
  end.

Fixpoint assoc (key : string) (items : list (string * value)) : option value :=
  match items with
  | [] => None
  | (k, v) :: rest => if String.eqb k key then Some v else assoc key rest
  end.

(** [v.get(key, dflt)]: a dict method; the dataclass [Target] and the
    other values have none. *)
Definition value_get (v : value) (key : string) (dflt : value) : result value :=
  match v with
  | VDict items => Ok (default dflt (assoc key items))
  | VTarget _ => Raise (Py.AttributeError "'Target' object has no attribute 'get'")
  | VStr _ => Raise (Py.AttributeError "'str' object has no attribute 'get'")
  | VChannel _ => Raise (Py.AttributeError "'Channel' object has no attribute 'get'")
  | VClient _ => Raise (Py.AttributeError "'SSHClient' object has no attribute 'get'")
  end.

(** [v[:n]], as the logging helpers apply it to a fingerprint: only a
    string can be sliced. *)
Definition value_slice (v : value) : result string :=
  match v with
  | VStr s => Ok s
  | _ => Raise (Py.AttributeError "object is not subscriptable")
  end.

(** [f"{v}"] *)
Definition value_format (v : value) : string :=
  match v with
  | VStr s => s
  | VChannel _ => "<paramiko.Channel>"
  | VClient _ => "<paramiko.client.SSHClient>"
  | VTarget t =>
      "Target(host='" +:+ Target.host t +:+ "', port=" +:+ pretty (Target.port t)
      +:+ ", user='" +:+ Target.user t +:+ "')"
  | VDict _ => "{...}"
  end.

(** ** The relay *)

Definition buffer_size : nat := 4096.

(** What one turn of the [while True] loop decides. *)
Inductive turn : Type := Break | Continue.

Definition relay_turn (source_channel dest_channel : Handle) (relay_id : string)
  : M turn :=
  let* sc := is_closed source_channel in
  let* dc := is_closed dest_channel in
  if sc || dc then ret Break
  else
    let* ready := select source_channel in
    if ready then
      try_except
        (let* data := recv source_channel buffer_size in
         match data with
         | [] => ret Break
         | _ => send dest_channel data ;; ret Continue
         end)
        (fun e => logger_debug ("Relay " +:+ relay_id +:+ " data transfer error: "
                                +:+ Py.str e) ;;
                  ret Break)
    else ret Continue.

(** [fuel] turns of the loop; [None] when the loop has not left by
    then. *)
Fixpoint relay_loop (fuel : nat) (source_channel dest_channel : Handle)
    (relay_id : string) : M (option unit) :=
  match fuel with
  | O => ret None
  | S fuel' =>
      let* t := relay_turn source_channel dest_channel relay_id in
      match t with
      | Break => ret (Some tt)
      | Continue => relay_loop fuel' source_channel dest_channel relay_id
      end
  end.

Definition _relay_data (fuel : nat) (source_channel dest_channel : Handle)
    (relay_id : string) : M (option unit) :=
  let* r := try_except (relay_loop fuel source_channel dest_channel relay_id)
              (fun e => logger_error ("Relay " +:+ relay_id +:+ " error: " +:+ Py.str e) ;;
                        ret (Some tt)) in
  match r with
  | Some _ => logger_debug ("Relay " +:+ relay_id +:+ " terminated") ;; ret r
  | None => ret None
  end.

(** ** The registry and the teardown *)

(** The dict that [setup_proxy_session] stores. *)
Definition conn_info (client_channel target_ssh target_channel : Handle)
    (target : Target.t) (source_ip fingerprint : string) : gmap string value :=
  <["client_channel" := VChannel client_channel]>
    (<["target_ssh" := VClient target_ssh]>
      (<["target_channel" := VChannel target_channel]>
        (<["target" := VTarget target]>
          (<["source_ip" := VStr source_ip]>
            (<["fingerprint" := VStr fingerprint]> ∅))))).

(** [f"{source_ip}:{fingerprint[:8]}"] *)
Definition connection_id (source_ip fingerprint : string) : string :=
  source_ip +:+ ":" +:+ Py.slice_to 8 fingerprint.

(** The registration step of [setup_proxy_session], once the outbound
    client and its channel exist. *)
Definition register (client_channel target_ssh target_channel : Handle)
    (target : Target.t) (source_ip fingerprint : string) : M string :=
  fun w =>
    let cid := connection_id source_ip fingerprint in
    (Ok cid,
     set_active_connections
       (<[cid := conn_info client_channel target_ssh target_channel target
                   source_ip fingerprint]> (active_connections w)) w).

(** [try: if key in conn_info: conn_info[key].close() except: pass] *)
Definition close_entry (info : gmap string value) (key : string) : M unit :=
  try_except
    (match info !! key with
     | Some v => value_close v
     | None => ret tt
     end)
    (fun _ => ret tt).

Definition delete_connection (connection_id : string) : M unit :=
  fun w => (Ok tt, set_active_connections (delete connection_id (active_connections w)) w).

Definition _cleanup_connection (connection_id : string) : M unit :=
  try_except
    (fun w =>
       match active_connections w !! connection_id with
       | Some info =>
           (close_entry info "client_channel" ;;
            close_entry info "target_channel" ;;
            close_entry info "target_ssh" ;;
            let source_ip := default (VStr "unknown") (info !! "source_ip") in
            let fingerprint := default (VStr "unknown") (info !! "fingerprint") in
            let* host :=
              lift (value_get (default (VDict []) (info !! "target")) "host"
                      (VStr "unknown")) in
            let* fingerprint := lift (value_slice fingerprint) in
            log_connection_closed (value_format source_ip) fingerprint
              (value_format host) ;;
            delete_connection connection_id ;;
            logger_info ("Connection " +:+ connection_id +:+ " cleaned up")) w
       | None => (Ok tt, w)
       end)
    (fun e => logger_error ("Error cleaning up connection " +:+ connection_id
                            +:+ ": " +:+ Py.str e)).

(** [_monitor_connection]: [alive] gives what the successive polls of
    the two workers see; the teardown runs when a poll sees one of them
    gone.  [None] when every poll saw both alive. *)
Fixpoint _monitor_connection (connection_id : string) (alive : list (bool * bool))
  : M (option unit) :=
  match alive with
  | [] => ret None
  | (a1, a2) :: rest =>
      if a1 && a2 then _monitor_connection connection_id rest
      else _cleanup_connection connection_id ;; ret (Some tt)
  end.

End SSHProxy.

(* ===================================================================== *)
(** * bastion/server.py                                                   *)
(* ===================================================================== *)

Module BastionSSHServer.
Section Server.

Context {parser : Ipaddress.Parser}.
Variable config : Config.t.

(** The steps of [_handle_connection] between the handshake and the
    proxy session: given what the server interface recorded, the target
    that a [ProxySession] is started for, or [None] when the handler
    returns before starting one. *)
Definition session_target (authenticated_key : option SSHKey.t)
    (username source_ip : string) : M (option Target.t) :=
  match authenticated_key with
  | None =>
      logger_warning ("Authentication failed for " +:+ source_ip) ;;
      ret None
  | Some k =>
      let* target := SSHRouter.get_target config (Some k) username source_ip in
      match target with
      | None =>
          logger_warning ("No target found for " +:+ source_ip) ;;
          ret None
      | Some t => ret (Some t)
      end
  end.

End Server.
End BastionSSHServer.

(* ===================================================================== *)
(** * Reference definitions used in the statements                        *)
(* ===================================================================== *)

Module Spec.

(** Base64 without padding: the characters of the encoding alone. *)
Fixpoint base64_unpadded (bs : list Z) : string :=
  match bs with
  | [] => ""
  | [a] =>
      String (Base64.char (Base64.s1 a)) (String (Base64.char (Base64.s2 a 0)) "")
  | [a; b] =>
      String (Base64.char (Base64.s1 a)) (String (Base64.char (Base64.s2 a b))
        (String (Base64.char (Base64.s3 b 0)) ""))
  | a :: b :: c :: rest =>
      String (Base64.char (Base64.s1 a)) (String (Base64.char (Base64.s2 a b))
        (String (Base64.char (Base64.s3 b c)) (String (Base64.char (Base64.s4 c))
          (base64_unpadded rest))))
  end.

(** ["SHA256:" + base64_unpadded(sha256(key_blob))] *)
Definition fingerprint (key_blob : list byte) : string :=
  "SHA256:" +:+ base64_unpadded (map Hashlib.byte_to_Z (Hashlib.sha256 key_blob)).

(** What a catalog lookup yields, as a function of the database. *)
Definition find (fp : string) (db : Database) : option SSHKey.t :=
  if String.prefix "sqlite" (db_url db) then
    match db_fault db with
    | Some _ => None
    | None =>
        match Db.select_key fp (ssh_keys db) with
        | Some row =>
            match SSHKey.init (Some (row_id row)) (row_fingerprint row)
                    (row_username row) (row_target_host row) (row_target_port row)
                    (row_target_user row) (Db.bool_of_int (row_enabled row)) with
            | Ok k => Some k
            | Raise _ => None
            end
        | None => None
        end
    end
  else None.

(** The authenticator's decision, as a function of the key and the
    database. *)
Definition decision (public_key : PKey) (db : Database) : bool * option SSHKey.t :=
  match asbytes public_key with
  | Raise _ => (false, None)
  | Ok blob =>
      match find (fingerprint blob) db with
      | Some k => if SSHKey.enabled k then (true, Some k) else (false, None)
      | None => (false, None)
      end
  end.

(** The internal errors of an authentication: the key's bytes cannot
    be read, the catalog cannot be opened, or the row found does not
    make a valid binding. *)
Definition internal_error (public_key : PKey) (w : World) : Prop :=
  (exists e, asbytes public_key = Raise e) \/
  (exists e, fst (Db._get_connection w) = Raise e) \/
  (exists blob row e,
      asbytes public_key = Ok blob /\
      Db.select_key (fingerprint blob) (ssh_keys (database w)) = Some row /\
      SSHKey.init (Some (row_id row)) (row_fingerprint row) (row_username row)
        (row_target_host row) (row_target_port row) (row_target_user row)
        (Db.bool_of_int (row_enabled row)) = Raise e).

End Spec.

(* ===================================================================== *)
(** * Worlds and inputs used in the examples                              *)
(* ===================================================================== *)

Module Examples.

Definition empty_database : Database :=
  {| db_url := "sqlite:///bastion.db"; db_fault := None;
     ssh_keys := []; connection_logs := [] |}.

Definition world_of (db : Database) : World :=
  {| logger := []; database := db; channels := ∅; close_fault := ∅;
     close_calls := []; active_connections := ∅ |}.

Definition client_ip : string := "198.51.100.7".

(** A key whose blob is the three bytes "abc". *)
Definition key_abc : PKey := {| asbytes := Ok ["a"%byte; "b"%byte; "c"%byte] |}.
Definition fp_abc : string := "SHA256:ungWv48Bz+pBQUDeXa4iI7ADYaOWF3qctBD/YfIAFa0".

(** A key with an empty blob, and the fingerprint of the empty blob. *)
Definition key_empty : PKey := {| asbytes := Ok [] |}.
Definition fp_empty : string := "SHA256:47DEQpj8HBSa+/TImW+5JCeuQeRkm5NMpJWZG3hSuFU".

(** A key object whose [asbytes()] raises. *)
Definition key_broken : PKey := {| asbytes := Raise (Py.ValueError "no key data") |}.

Definition row (fp host : string) (enabled : Z) : Row :=
  {| row_id := 1; row_fingerprint := fp; row_username := "alice";
     row_target_host := host; row_target_port := 22; row_target_user := "ubuntu";
     row_enabled := enabled |}.

Definition database_of (rows : list Row) : Database :=
  {| db_url := "sqlite:///bastion.db"; db_fault := None;
     ssh_keys := rows; connection_logs := [] |}.

Definition binding (fp host : string) : SSHKey.t :=
  SSHKey.Build (Some 1) fp "alice" host 22 "ubuntu" true.

(** The configuration read from an environment that does not set
    [RESTRICTED_NETWORKS]. *)
Definition default_config : Config.t := Config.from_env None.

End Examples.

(* ===================================================================== *)
(** * bastion/db.py: adding a key                                         *)
(* ===================================================================== *)

Module DbOps.

(** The [id] that [AUTOINCREMENT] gives to a new row: one more than the
    largest one in the table (the code never deletes a row). *)
Definition next_id (rows : list Row) : Z :=
  1 + fold_right Z.max 0 (map row_id rows).

(** How SQLite stores a Python [bool]. *)
Definition int_of_bool (b : bool) : Z := if b then 1 else 0.

Definition row_of (id : Z) (ssh_key : SSHKey.t) : Row :=
  {| row_id := id;
     row_fingerprint := SSHKey.fingerprint ssh_key;
     row_username := SSHKey.username ssh_key;
     row_target_host := SSHKey.target_host ssh_key;
     row_target_port := SSHKey.target_port ssh_key;
     row_target_user := SSHKey.target_user ssh_key;
     row_enabled := int_of_bool (SSHKey.enabled ssh_key) |}.

(** [INSERT INTO ssh_keys (...) VALUES (...)] and [commit].  The column
    [fingerprint] is [UNIQUE]: a second row with the same fingerprint
    raises (sqlite3.IntegrityError; only its text is observed, through
    [except Exception] and [str(e)]). *)
Definition insert_key (ssh_key : SSHKey.t) : M unit :=
  fun w =>
    let db := database w in
    if existsb (fun r => String.eqb (row_fingerprint r) (SSHKey.fingerprint ssh_key))
               (ssh_keys db)
    then (Raise (Py.OperationalError "UNIQUE constraint failed: ssh_keys.fingerprint"), w)
    else (Ok tt,
          set_database {| db_url := db_url db; db_fault := db_fault db;
                          ssh_keys := ssh_keys db ++ [row_of (next_id (ssh_keys db)) ssh_key];
                          connection_logs := connection_logs db |} w).

Definition add_ssh_key (ssh_key : SSHKey.t) : M bool :=
  try_except
    (let* conn := Db._get_connection in
     insert_key ssh_key ;;
     ret true)
    (fun e => logger_error ("Error adding SSH key: " +:+ Py.str e) ;; ret false).

(** [Database()]: [_init_database] opens the file when the URL is an
    SQLite one ([CREATE ... IF NOT EXISTS] changes nothing in a catalog
    that has its tables) and does nothing otherwise. *)
Definition Database_init : M unit :=
  fun w =>
    if String.prefix "sqlite" (db_url (database w)) then
      match db_fault (database w) with
      | Some e => (Raise e, w)
      | None => (Ok tt, w)
      end
    else (Ok tt, w).

End DbOps.

(* ===================================================================== *)
(** * bastion/main.py: the add-key command                                *)
(* ===================================================================== *)

Module BastionMain.

Definition add_ssh_key (fingerprint username target_host target_user : string)
    (target_port : Z) : M bool :=
  try_except
    (DbOps.Database_init ;;
     let* ssh_key := lift (SSHKey.init None fingerprint username target_host
                             target_port target_user true) in
     let* added := DbOps.add_ssh_key ssh_key in
     if added then
       logger_info ("Successfully added SSH key: " +:+ Py.slice_to 16 fingerprint
                    +:+ "...") ;;
       ret true
     else
       logger_error "Failed to add SSH key" ;;
       ret false)
    (fun e => logger_error ("Error adding SSH key: " +:+ Py.str e) ;; ret false).

End BastionMain.

(* ===================================================================== *)
(** * bastion/router.py: lookup of a target by fingerprint                *)
(* ===================================================================== *)

Module RouterOps.

Definition get_target_by_fingerprint (fingerprint : string) : M (option Target.t) :=
  try_except (Db.get_target_for_key fingerprint)
    (fun e => logger_error ("Error getting target for fingerprint: " +:+ Py.str e) ;;
              ret None).

End RouterOps.

(* ===================================================================== *)
(** * bastion/auth.py: the server interface                               *)
(* ===================================================================== *)

Module BastionSSHServerInterface.

(** The constants of [paramiko.common] that the callbacks return. *)
Definition AUTH_SUCCESSFUL : Z := 0.
Definition AUTH_FAILED : Z := 2.
Definition OPEN_SUCCEEDED : Z := 0.
Definition OPEN_FAILED_ADMINISTRATIVELY_PROHIBITED : Z := 1.

(** The attributes of an interface object that the callbacks write. *)
Record t : Type := Build {
  source_ip : string;
  authenticated_key : option SSHKey.t;
  username : option string
}.

Definition init (source_ip : string) : t := Build source_ip None None.

(** [f"{x}"] for an attribute that may be [None]. *)
Definition format_opt (x : option string) : string := default "None" x.

Definition check_channel_request (self : t) (kind : string) (chanid : Z) : Z :=
  if String.eqb kind "session" then OPEN_SUCCEEDED
  else OPEN_FAILED_ADMINISTRATIVELY_PROHIBITED.

Definition check_auth_password (self : t) (username password : string) : M Z :=
  log_connection_denied (source_ip self) "N/A" username
    "Password authentication not allowed" ;;
  ret AUTH_FAILED.

(** The callback returns its code; the second component is the object
    after the call. *)
Definition check_auth_publickey (self : t) (username : string) (key : PKey)
  : M (Z * t) :=
  try_except
    (let* r := SSHKeyAuth.authenticate_key username key (source_ip self) in
     match r with
     | (true, Some ssh_key) =>
         ret (AUTH_SUCCESSFUL, Build (source_ip self) (Some ssh_key) (Some username))
     | _ => ret (AUTH_FAILED, self)
     end)
    (fun e => logger_error ("Public key authentication error: " +:+ Py.str e) ;;
              ret (AUTH_FAILED, self)).

Definition check_channel_shell_request (self : t) (channel : Handle) : M bool :=
  logger_warning ("Shell request denied for " +:+ format_opt (username self)
                  +:+ " from " +:+ source_ip self) ;;
  ret false.

Section Decode.

(** [command.decode('utf-8', errors='ignore')] *)
Variable decode : list byte -> string.

Definition check_channel_exec_request (self : t) (channel : Handle)
    (command : list byte) : M bool :=
  logger_warning ("Exec request denied for " +:+ format_opt (username self)
                  +:+ " from " +:+ source_ip self
                  +:+ " (command: " +:+ decode command +:+ ")") ;;
  ret false.

Definition check_channel_subsystem_request (self : t) (channel : Handle)
    (name : string) : M bool :=
  if String.eqb name "sftp" then ret true
  else
    logger_warning ("Subsystem request denied: " +:+ name +:+ " for "
                    +:+ format_opt (username self) +:+ " from " +:+ source_ip self) ;;
    ret false.

Definition check_port_forward_request (self : t) (address : string) (port : Z) : Z :=
  port.

Definition cancel_port_forward_request (self : t) (address : string) (port : Z)
  : unit := tt.

Definition get_allowed_auths (self : t) (username : string) : string := "publickey".

(** What a client can make the transport call on the interface. *)
Inductive request : Type :=
| AllowedAuths (username : string)
| AuthPassword (username password : string)
| AuthPublickey (username : string) (key : PKey)
| ChannelRequest (kind : string) (chanid : Z)
| ShellRequest (channel : Handle)
| ExecRequest (channel : Handle) (command : list byte)
| SubsystemRequest (channel : Handle) (name : string)
| PortForwardRequest (address : string) (port : Z)
| CancelPortForward (address : string) (port : Z).

(** One callback: the interface object after it. *)
Definition dispatch (self : t) (r : request) : M t :=
  match r with
  | AllowedAuths _ => ret self
  | AuthPassword u p => check_auth_password self u p ;; ret self
  | AuthPublickey u key =>
      let* res := check_auth_publickey self u key in ret (snd res)
  | ChannelRequest _ _ => ret self
  | ShellRequest c => check_channel_shell_request self c ;; ret self
  | ExecRequest c cmd => check_channel_exec_request self c cmd ;; ret self
  | SubsystemRequest c n => check_channel_subsystem_request self c n ;; ret self
  | PortForwardRequest _ _ => ret self
  | CancelPortForward _ _ => ret self
  end.

(** The callbacks of one connection, in the order of the requests. *)
Fixpoint serve (self : t) (rs : list request) : M t :=
  match rs with
  | [] => ret self
  | r :: rest => let* self' := dispatch self r in serve self' rest
  end.

End Decode.

End BastionSSHServerInterface.

(* ===================================================================== *)
(** * bastion/proxy.py: setting up a session                              *)
(* ===================================================================== *)

Module ProxyOps.

(** How the target side answers one outbound attempt. *)
Record Outbound : Type := {
  (** loading the host key and [ssh_client.connect(...)]: the client
      object, or the exception raised *)
  connect : result Handle;
  (** whether [get_transport()] gives a transport *)
  has_transport : bool;
  (** [open_channel('session')]: a channel, [None], or an exception *)
  open_channel : result (option Handle)
}.

Definition create_outbound_connection (out : Outbound) (target : Target.t)
  : M (option Handle) :=
  try_except
    (let* ssh_client := lift (connect out) in
     logger_info ("Outbound connection established to " +:+ Target.host target
                  +:+ ":" +:+ pretty (Target.port target)) ;;
     ret (Some ssh_client))
    (fun e => logger_error ("Failed to connect to target " +:+ Target.host target
                            +:+ ":" +:+ pretty (Target.port target) +:+ ": "
                            +:+ Py.str e) ;;
              ret None).

(** [_start_relay]: the three threads it starts are runs of
    [_relay_data] (one per direction) and of [_monitor_connection]; the
    call itself leaves the log line. *)
Definition _start_relay (client_channel target_channel : Handle)
    (connection_id : string) : M unit :=
  logger_info ("Proxy relay started for connection " +:+ connection_id).

Definition setup_proxy_session (out : Outbound) (client_channel : Handle)
    (target : Target.t) (source_ip fingerprint : string) : M bool :=
  try_except
    (let* target_ssh := create_outbound_connection out target in
     match target_ssh with
     | None => ret false
     | Some ssh =>
         if negb (has_transport out) then
           logger_error "Failed to get target transport" ;;
           SSHProxy.close_handle ssh ;;
           ret false
         else
           let* target_channel := lift (open_channel out) in
           match target_channel with
           | None =>
               logger_error "Failed to open target channel" ;;
               SSHProxy.close_handle ssh ;;
               ret false
           | Some tc =>
               let* cid := SSHProxy.register client_channel ssh tc target
                             source_ip fingerprint in
               _start_relay client_channel tc cid ;;
               ret true
           end
     end)
    (fun e =>
       logger_error ("Error setting up proxy session: " +:+ Py.str e) ;;
       log_connection_error source_ip fingerprint (Target.user target) (Py.str e) ;;
       ret false).

(** [ProxySession(...).start()]: the session makes a proxy object of its
    own, whose registry starts empty. *)
Definition ProxySession_start (out : Outbound) (client_channel : Handle)
    (target : Target.t) (source_ip fingerprint : string) : M bool :=
  (fun w => (Ok tt, set_active_connections ∅ w)) ;;
  try_except
    (setup_proxy_session out client_channel target source_ip fingerprint)
    (fun e => logger_error ("Error starting proxy session: " +:+ Py.str e) ;;
              ret false).

End ProxyOps.

(* ===================================================================== *)
(** * bastion/server.py: admitting and handling a connection              *)
(* ===================================================================== *)

Module ServerOps.

Definition _check_connection_limits (MAX_CONNECTIONS_PER_IP connection_count : Z)
    (source_ip : string) : M bool :=
  if connection_count >=? MAX_CONNECTIONS_PER_IP * 10 then
    logger_warning ("Connection limit exceeded, rejecting " +:+ source_ip) ;;
    ret false
  else ret true.

(** What the remote side does on one accepted connection. *)
Record Client : Type := {
  (** the requests that reach the server interface before the first
      channel is handed over *)
  requests : list BastionSSHServerInterface.request;
  (** [transport.start_server] raises *)
  handshake_fault : option Exn;
  (** [transport.accept(timeout=30)] *)
  channel : option Handle;
  (** the answer to the outbound attempt, if one is made *)
  outbound : ProxyOps.Outbound
}.

Section Handler.

Context {parser : Ipaddress.Parser}.
Variable config : Config.t.
Variable MAX_CONNECTIONS_PER_IP : Z.
Variable decode : list byte -> string.

(** [try: obj.close() except: pass] *)
Definition close_quietly (h : Handle) : M unit :=
  try_except (SSHProxy.close_handle h) (fun _ => ret tt).

(** The inner [try] of [_handle_connection], on a transport that
    exists.  The result tells whether a proxy session was started.  The
    loop that waits for the channel to close only reads; the model is of
    the runs in which it ends.  [username] is set together with
    [authenticated_key], so that it is a string whenever it is used. *)
Definition serve_transport (client : Client) (source_ip : string) : M bool :=
  match handshake_fault client with
  | Some e => raise e
  | None =>
      let* iface := BastionSSHServerInterface.serve decode
                      (BastionSSHServerInterface.init source_ip) (requests client) in
      match channel client with
      | None =>
          logger_warning ("No channel established for " +:+ source_ip) ;;
          ret false
      | Some ch =>
          let* target := BastionSSHServer.session_target config
                           (BastionSSHServerInterface.authenticated_key iface)
                           (BastionSSHServerInterface.format_opt
                              (BastionSSHServerInterface.username iface))
                           source_ip in
          match target, BastionSSHServerInterface.authenticated_key iface with
          | Some t, Some k =>
              let* started := ProxyOps.ProxySession_start (outbound client) ch t
                                source_ip (SSHKey.fingerprint k) in
              if started then ret true
              else
                logger_error ("Failed to start proxy session for " +:+ source_ip) ;;
                log_connection_error source_ip (SSHKey.fingerprint k)
                  (BastionSSHServerInterface.format_opt
                     (BastionSSHServerInterface.username iface))
                  "Failed to start proxy session" ;;
                ret false
          | _, _ => ret false
          end
      end
  end.

(** [_handle_connection]: the counter of live connections goes in and
    comes out; [client_socket] and [transport] are the handles that the
    handler closes. *)
Definition _handle_connection (connection_count : Z) (client_socket transport : Handle)
    (client : Client) (source_ip : string) : M (Z * bool) :=
  let count := connection_count + 1 in
  let* started :=
    try_except
      (logger_info ("New connection from " +:+ source_ip) ;;
       let* admitted := _check_connection_limits MAX_CONNECTIONS_PER_IP count source_ip in
       if negb admitted then
         SSHProxy.close_handle client_socket ;;
         ret false
       else
         let* started :=
           try_except (serve_transport client source_ip)
             (fun e => logger_error ("SSH transport error for " +:+ source_ip +:+ ": "
                                     +:+ Py.str e) ;;
                       ret false) in
         close_quietly transport ;;
         ret started)
      (fun e => logger_error ("Connection handling error for " +:+ source_ip +:+ ": "
                              +:+ Py.str e) ;;
                ret false) in
  close_quietly client_socket ;;
  logger_info ("Connection from " +:+ source_ip +:+ " closed") ;;
  ret (count - 1, started).

End Handler.

End ServerOps.

(* ===================================================================== *)
(** * Reference definitions for the further properties                    *)
(* ===================================================================== *)

Module SpecOps.

(** The catalog can be opened. *)
Definition available (db : Database) : bool :=
  String.prefix "sqlite" (db_url db) &&
  match db_fault db with Some _ => false | None => true end.

(** Some row of the table has this fingerprint. *)
Definition has_fingerprint (fp : string) (rows : list Row) : bool :=
  existsb (fun r => String.eqb (row_fingerprint r) fp) rows.

(** The routing fields of a binding. *)
Definition target_of (k : SSHKey.t) : Target.t :=
  Target.Build (SSHKey.target_host k) (SSHKey.target_port k) (SSHKey.target_user k).

(** The binding passes the checks of its constructor. *)
Definition well_formed (k : SSHKey.t) : Prop :=
  SSHKey.fingerprint k <> "" /\ SSHKey.target_host k <> "" /\
  SSHKey.target_user k <> "" /\ 1 <= SSHKey.target_port k <= 65535.

(** The host is an address that every entry of the list, read as a
    network, leaves out. *)
Definition clear_of `{Ipaddress.Parser} (host : string) (networks : list string) : Prop :=
  Forall (fun h => exists a n, Ipaddress.ip_address host = Ok a /\
                               Ipaddress.ip_network h = Ok n /\
                               Ipaddress.contains n a = false) networks.

(** The decision of the router's network check, as a function of the
    host and the list: every entry must parse, after the host has, and
    leave the host's address out. *)
Fixpoint clear `{Ipaddress.Parser} (host : string) (networks : list string) : bool :=
  match networks with
  | [] => true
  | h :: rest =>
      match Ipaddress.ip_address host, Ipaddress.ip_network h with
      | Ok a, Ok n => negb (Ipaddress.contains n a) && clear host rest
      | _, _ => false
      end
  end.

(** The answer of the router, as a function of the binding and the
    configuration. *)
Definition route `{Ipaddress.Parser} (config : Config.t) (ssh_key : option SSHKey.t)
  : option Target.t :=
  match ssh_key with
  | Some k =>
      if SSHKey.enabled k then
        match Target.init (SSHKey.target_host k) (SSHKey.target_port k)
                (SSHKey.target_user k) with
        | Ok t => if clear (Target.host t) (Config.RESTRICTED_NETWORKS config)
                  then Some t else None
        | Raise _ => None
        end
      else None
  | None => None
  end.

(** The database with one more audit event. *)
Definition record_event (db : Database) (event : ConnectionEvent.t) : Database :=
  {| db_url := db_url db; db_fault := db_fault db; ssh_keys := ssh_keys db;
     connection_logs := connection_logs db ++ [event] |}.

(** The event that the router records for an accepted route. *)
Definition success_event (k : SSHKey.t) (username source_ip : string)
  : ConnectionEvent.t :=
  ConnectionEvent.Build (SSHKey.fingerprint k) source_ip (SSHKey.target_host k)
    (SSHKey.target_user k) username "success" None None.

(** The second database holds the first one, with rows and events added
    at the end at most. *)
Definition extends (db db' : Database) : Prop :=
  db_url db' = db_url db /\ db_fault db' = db_fault db /\
  ssh_keys db `prefix_of` ssh_keys db' /\
  connection_logs db `prefix_of` connection_logs db'.

(** What a run of the relay relates: the bytes taken from the source
    and those handed to the destination. *)
Definition turn_relation (cs cd cs' cd' : Channel) (frame delivered : list byte)
  : Prop :=
  in_buffer cs = (frame ++ in_buffer cs')%list /\
  sent cd' = (sent cd ++ delivered)%list /\
  delivered `sublist_of` frame /\
  in_buffer cd' = in_buffer cd /\ sent cs' = sent cs.

(** A direction on which nothing goes wrong: both channels open, the
    source at its end of stream, no fault on reading or writing, and a
    destination window that takes every frame whole. *)
Definition clean_path (cs cd : Channel) : Prop :=
  closed cs = false /\ closed cd = false /\ eof_received cs = true /\
  recv_fault cs = None /\ send_fault cd = None /\ send_window cd = [].

(** The world with another log and another database, and the same
    channels, close calls and registry. *)
Definition with_log_db (l : list LogRecord) (db : Database) (w : World) : World :=
  set_logger l (set_database db w).

(** What a started session took: a channel, an accepted public key among
    the requests, a route for its binding and an outbound session; the
    registry of its proxy holds that session alone. *)
Definition session_evidence `{Ipaddress.Parser} (config : Config.t)
    (client : ServerOps.Client) (ip : string) (db : Database)
    (registry : gmap string (gmap string value)) : Prop :=
  ServerOps.handshake_fault client = None /\
  exists ch u key k t ssh tc,
    ServerOps.channel client = Some ch /\
    In (BastionSSHServerInterface.AuthPublickey u key) (ServerOps.requests client) /\
    Spec.decision key db = (true, Some k) /\
    route config (Some k) = Some t /\
    ProxyOps.connect (ServerOps.outbound client) = Ok ssh /\
    ProxyOps.has_transport (ServerOps.outbound client) = true /\
    ProxyOps.open_channel (ServerOps.outbound client) = Ok (Some tc) /\
    registry = <[SSHProxy.connection_id ip (SSHKey.fingerprint k) :=
                   SSHProxy.conn_info ch ssh tc t ip (SSHKey.fingerprint k)]> ∅.

(** [sep.join(parts)] *)
Fixpoint join (sep : ascii) (parts : list string) : string :=
  match parts with
  | [] => ""
  | [x] => x
  | x :: rest => x +:+ String sep (join sep rest)
  end.

(** The calls that the rest of the bastion makes on the catalog and on
    the components that hold it. *)
Inductive call : Type :=
| FindKey (fingerprint : string)
| AddKey (ssh_key : SSHKey.t)
| LogEvent (event : ConnectionEvent.t)
| TargetForKey (fingerprint : string)
| Authenticate (username : string) (key : PKey) (source_ip : string)
| Authorized (fingerprint : string)
| Route (ssh_key : option SSHKey.t) (username source_ip : string)
| AddKeyCommand (fingerprint username target_host target_user : string) (target_port : Z).

Definition run_call `{Ipaddress.Parser} (config : Config.t) (c : call) (w : World)
  : World :=
  match c with
  | FindKey fp => snd (Db.find_ssh_key fp w)
  | AddKey k => snd (DbOps.add_ssh_key k w)
  | LogEvent ev => snd (Db.log_connection_event ev w)
  | TargetForKey fp => snd (RouterOps.get_target_by_fingerprint fp w)
  | Authenticate u key ip => snd (SSHKeyAuth.authenticate_key u key ip w)
  | Authorized fp => snd (SSHKeyAuth.is_key_authorized fp w)
  | Route k u ip => snd (SSHRouter.get_target config k u ip w)
  | AddKeyCommand fp u h tu p => snd (BastionMain.add_ssh_key fp u h tu p w)
  end.

Definition run_calls `{Ipaddress.Parser} (config : Config.t) (cs : list call)
    (w : World) : World :=
  fold_left (fun w c => run_call config c w) cs w.

End SpecOps.

(* ===================================================================== *)
(** * Worlds used in the further examples                                 *)
(* ===================================================================== *)

Module Scenarios.

(** A channel that holds [buffer], at its end of stream. *)
Definition source_channel (is_closed : bool) (buffer : list byte) : Channel :=
  {| closed := is_closed; in_buffer := buffer; eof_received := true;
     recv_fault := None; send_window := []; send_fault := None; sent := [] |}.

(** A channel that has been sent [already] and whose window leaves
    [window] to the coming calls of [send]. *)
Definition dest_channel (window : list nat) (already : list byte) : Channel :=
  {| closed := false; in_buffer := []; eof_received := false;
     recv_fault := None; send_window := window; send_fault := None;
     sent := already |}.

(** The source is channel 1, the destination channel 2. *)
Definition relay_world (source dest : Channel) : World :=
  {| logger := []; database := Examples.empty_database;
     channels := <[1%nat := source]> (<[2%nat := dest]> ∅);
     close_fault := ∅; close_calls := []; active_connections := ∅ |}.

(** A client that presents the key "abc" and opens channel 7; the
    target side gives the client 8 and the channel 9. *)
Definition client_abc : ServerOps.Client :=
  {| ServerOps.requests :=
       [BastionSSHServerInterface.AllowedAuths "alice";
        BastionSSHServerInterface.AuthPublickey "alice" Examples.key_abc;
        BastionSSHServerInterface.ChannelRequest "session" 0];
     ServerOps.handshake_fault := None;
     ServerOps.channel := Some 7%nat;
     ServerOps.outbound :=
       {| ProxyOps.connect := Ok 8%nat; ProxyOps.has_transport := true;
          ProxyOps.open_channel := Ok (Some 9%nat) |} |}.

(** A catalog that binds the key "abc" to 10.0.0.5. *)
Definition world_abc : World :=
  Examples.world_of (Examples.database_of [Examples.row Examples.fp_abc "10.0.0.5" 1]).

(** The text of a command, for the scenarios: not decoded. *)
Definition no_decode (command : list byte) : string := "".

End Scenarios.

(* ===================================================================== *)
(** * Properties                                                          *)
(* ===================================================================== *)

Example sha256_empty :
  Base64.b64encode (Hashlib.sha256 []) = "47DEQpj8HBSa+/TImW+5JCeuQeRkm5NMpJWZG3hSuFU=".
Proof. vm_compute. reflexivity. Qed.

Example sha256_abc :
  Base64.b64encode (Hashlib.sha256 ["a"%byte; "b"%byte; "c"%byte])
  = "ungWv48Bz+pBQUDeXa4iI7ADYaOWF3qctBD/YfIAFa0=".
Proof. vm_compute. reflexivity. Qed.

(** A message of 120 bytes takes three blocks. *)
Example sha256_three_blocks :
  Base64.b64encode (Hashlib.sha256 (repeat "a"%byte 120))
  = "Lz0zVDLHC1gK8Ojhs2dKfAINaDql9zqq7f3FWvkEwhw=".
Proof. vm_compute. reflexivity. Qed.

Example b64encode_foob :
  Base64.b64encode ["f"%byte; "o"%byte; "o"%byte; "b"%byte] = "Zm9vYg==".
Proof. vm_compute. reflexivity. Qed.

Example split_default :
  Config.RESTRICTED_NETWORKS Examples.default_config = ["10.10.254.0/24"].
Proof. vm_compute. reflexivity. Qed.

Example ipv4_network_default :
  Ipaddress.ipv4_network "10.10.254.0/24"
  = Ok {| Ipaddress.net_version := 4; Ipaddress.network_address := 0x0a0afe00;
          Ipaddress.netmask := 0xffffff00 |}.
Proof. vm_compute. reflexivity. Qed.

Example ipv4_address_name :
  Ipaddress.ipv4_address "vm1.example.com"
  = Raise (Py.ValueError "vm1.example.com does not appear to be an IPv4 or IPv6 address").
Proof. vm_compute. reflexivity. Qed.

(** ** Base64 and [rstrip] *)

Section Base64Facts.

Lemma list_ind3 {A} (P : list A -> Prop) :
  P [] -> (forall a, P [a]) -> (forall a b, P [a; b]) ->
  (forall a b c l, P l -> P (a :: b :: c :: l)) ->
  forall l, P l.
Proof.
  intros H0 H1 H2 H3.
  fix IH 1. intros [|a [|b [|c l]]];
    [apply H0 | apply H1 | apply H2 | apply H3, IH].
Qed.

Lemma char_not_pad (i : Z) : Base64.char i <> Base64.pad_char.
Proof.
  unfold Base64.char.
  assert (Hlt : (Z.to_nat (i mod 64) < 64)%nat)
    by (pose proof (Z.mod_pos_bound i 64); lia).
  generalize dependent (Z.to_nat (i mod 64)). intros n Hlt.
  do 64 (destruct n as [|n]; [vm_compute; discriminate|]).
  lia.
Qed.

Lemma rstrip_cons_ne (c a : ascii) (s : string) :
  a <> c -> Base64.rstrip c (String a s) = String a (Base64.rstrip c s).
Proof.
  intros Hne. simpl. destruct (Base64.rstrip c s); [|reflexivity].
  destruct (Ascii.eqb_spec a c); [contradiction|reflexivity].
Qed.

Lemma rstrip_encode (bs : list Z) :
  Base64.rstrip Base64.pad_char (Base64.encode bs) = Spec.base64_unpadded bs.
Proof.
  induction bs as [|a|a b|a b c l IH] using list_ind3.
  - reflexivity.
  - cbn [Base64.encode Spec.base64_unpadded].
    rewrite !rstrip_cons_ne by apply char_not_pad. reflexivity.
  - cbn [Base64.encode Spec.base64_unpadded].
    rewrite !rstrip_cons_ne by apply char_not_pad. reflexivity.
  - cbn [Base64.encode Spec.base64_unpadded].
    rewrite !rstrip_cons_ne by apply char_not_pad. now rewrite IH.
Qed.

End Base64Facts.

(** ** The authenticator *)

Section AuthFacts.

Import SSHKeyAuth.

Lemma fingerprint_not_empty (blob : list byte) :
  Py.is_empty (Spec.fingerprint blob) = false.
Proof. reflexivity. Qed.

Lemma get_key_fingerprint_ok (key : PKey) (blob : list byte) (w : World) :
  asbytes key = Ok blob ->
  get_key_fingerprint key w = (Ok (Spec.fingerprint blob), w).
Proof.
  intros H. unfold get_key_fingerprint, try_except, bind, lift, ret.
  rewrite H. unfold Spec.fingerprint, Base64.b64encode.
  change "="%char with Base64.pad_char. now rewrite rstrip_encode.
Qed.

Lemma get_key_fingerprint_raise (key : PKey) (e : Exn) (w : World) :
  asbytes key = Raise e ->
  get_key_fingerprint key w
  = (Ok "", set_logger
              (logger w ++ [Message ERROR ("Error calculating key fingerprint: "
                                           +:+ Py.str e)]) w).
Proof.
  intros H. unfold get_key_fingerprint, try_except, bind, lift, ret.
  now rewrite H.
Qed.

(** A lookup never raises and only adds to the log. *)
Lemma find_ssh_key_spec (fp : string) (w : World) :
  exists l, Db.find_ssh_key fp w = (Ok (Spec.find fp (database w)), set_logger l w).
Proof.
  unfold Db.find_ssh_key, Spec.find, Db._get_connection, try_except, bind, lift, ret,
    logger_error, emit.
  destruct w as [lg db ch cf cc ac]; cbn [database logger].
  destruct (String.prefix "sqlite" (db_url db)); [|eexists; reflexivity].
  destruct (db_fault db); [eexists; reflexivity|].
  destruct (Db.select_key fp (ssh_keys db)) as [row|]; [|exists lg; reflexivity].
  destruct (SSHKey.init _ _ _ _ _ _ _); [exists lg|eexists]; reflexivity.
Qed.

Lemma set_logger_twice (l l' : list LogRecord) (w : World) :
  set_logger l (set_logger l' w) = set_logger l w.
Proof. reflexivity. Qed.

Lemma database_set_logger (l : list LogRecord) (w : World) :
  database (set_logger l w) = database w.
Proof. reflexivity. Qed.

(** The outcome of [authenticate_key] is [Spec.decision]; the world
    changes by its log only. *)
Lemma authenticate_key_decision (username : string) (key : PKey)
    (source_ip : string) (w : World) :
  exists l, authenticate_key username key source_ip w
            = (Ok (Spec.decision key (database w)), set_logger l w).
Proof.
  unfold authenticate_key, Spec.decision.
  destruct (asbytes key) as [blob|e] eqn:Hk.
  - rewrite (get_key_fingerprint_ok _ _ _ Hk).
    unfold try_except, authenticate_key_body.
    rewrite fingerprint_not_empty.
    unfold bind at 1. unfold log_connection_attempt, emit.
    unfold bind at 1.
    destruct (find_ssh_key_spec (Spec.fingerprint blob)
                (set_logger (logger w ++ [ConnectionAttempt source_ip
                   (Py.slice_to 16 (Spec.fingerprint blob)) username]) w))
      as [l Hl].
    rewrite Hl, database_set_logger, set_logger_twice.
    destruct (Spec.find (Spec.fingerprint blob) (database w)) as [k|].
    + destruct (SSHKey.enabled k); eexists; reflexivity.
    + eexists; reflexivity.
  - rewrite (get_key_fingerprint_raise _ _ _ Hk).
    eexists; reflexivity.
Qed.

Lemma find_fingerprint (fp : string) (db : Database) (k : SSHKey.t) :
  Spec.find fp db = Some k -> SSHKey.fingerprint k = fp.
Proof.
  unfold Spec.find, Db.select_key.
  destruct (String.prefix _ _); [|discriminate].
  destruct (db_fault db); [discriminate|].
  destruct (List.find _ _) as [row|] eqn:Hf; [|discriminate].
  apply List.find_some in Hf as [_ Hm].
  apply andb_prop in Hm as [Hm _]. apply String.eqb_eq in Hm.
  unfold SSHKey.init.
  repeat match goal with |- context [if ?c then _ else _] => destruct c end;
    try discriminate.
  intros [= <-]. exact Hm.
Qed.

End AuthFacts.

Section AuthTheorems.

Import SSHKeyAuth.

(** C3.  For a presented key whose wire blob is [blob], the computed
    fingerprint is ["SHA256:"] followed by the unpadded base64 of the
    SHA-256 digest of [blob]; authentication runs its lookup on that
    string, and an accepted binding carries it as its fingerprint. *)
Theorem fingerprint_keys_catalog_lookup (username : string) (key : PKey)
    (source_ip : string) (w : World) (blob : list byte) :
  asbytes key = Ok blob ->
  fst (get_key_fingerprint key w) = Ok (Spec.fingerprint blob) /\
  authenticate_key username key source_ip w
  = try_except
      (authenticate_key_body (Spec.fingerprint blob) username source_ip)
      (authenticate_key_except (Some (Spec.fingerprint blob)) username source_ip) w /\
  fst (authenticate_key username key source_ip w)
  = Ok (match Spec.find (Spec.fingerprint blob) (database w) with
        | Some k => if SSHKey.enabled k then (true, Some k) else (false, None)
        | None => (false, None)
        end) /\
  (forall k w', authenticate_key username key source_ip w = (Ok (true, Some k), w') ->
                SSHKey.fingerprint k = Spec.fingerprint blob).
Proof.
  intros Hk. split; [|split; [|split]].
  - now rewrite (get_key_fingerprint_ok _ _ _ Hk).
  - unfold authenticate_key. now rewrite (get_key_fingerprint_ok _ _ _ Hk).
  - destruct (authenticate_key_decision username key source_ip w) as [l ->].
    unfold Spec.decision. now rewrite Hk.
  - intros k w' Hauth.
    destruct (authenticate_key_decision username key source_ip w) as [l Hd].
    rewrite Hd in Hauth. unfold Spec.decision in Hauth. rewrite Hk in Hauth.
    destruct (Spec.find (Spec.fingerprint blob) (database w)) as [k'|] eqn:Hf;
      [|discriminate].
    destruct (SSHKey.enabled k'); [|discriminate].
    injection Hauth as <- _. now apply find_fingerprint in Hf.
Qed.

Lemma fingerprint_keys_catalog_lookup_abc :
  fst (get_key_fingerprint Examples.key_abc (Examples.world_of Examples.empty_database))
  = Ok (Spec.fingerprint ["a"%byte; "b"%byte; "c"%byte]).
Proof.
  apply (fingerprint_keys_catalog_lookup "alice" Examples.key_abc Examples.client_ip
           (Examples.world_of Examples.empty_database) ["a"%byte; "b"%byte; "c"%byte]).
  reflexivity.
Defined.

Example fingerprint_abc :
  Spec.fingerprint ["a"%byte; "b"%byte; "c"%byte] = Examples.fp_abc.
Proof. vm_compute. reflexivity. Qed.

(** C7.  A catalog row whose fingerprint matches the presented key and
    whose enabled flag is 0: authentication is rejected, and the denial
    logged is the one of an unknown key, "SSH key not found in
    database"; the log is the same as with an empty catalog. *)
Theorem disabled_key_denied_as_not_found :
  let disabled := Examples.world_of
                    (Examples.database_of [Examples.row Examples.fp_abc "10.0.0.5" 0]) in
  let unknown := Examples.world_of Examples.empty_database in
  authenticate_key "alice" Examples.key_abc Examples.client_ip disabled
  = (Ok (false, None),
     set_logger
       [ConnectionAttempt Examples.client_ip "SHA256:ungWv48Bz" "alice";
        ConnectionDenied Examples.client_ip "SHA256:ungWv48Bz" "alice"
          "SSH key not found in database"] disabled) /\
  logger (snd (authenticate_key "alice" Examples.key_abc Examples.client_ip disabled))
  = logger (snd (authenticate_key "alice" Examples.key_abc Examples.client_ip unknown)).
Proof. vm_compute. split; reflexivity. Qed.

(** The lookup does not see a row that is not enabled, whatever else
    the catalog holds. *)
Lemma select_key_skips_disabled (fp : string) (rows : list Row) :
  (forall r, In r rows -> row_fingerprint r = fp -> row_enabled r <> 1) ->
  Db.select_key fp rows = None.
Proof.
  intros H. unfold Db.select_key.
  destruct (List.find _ rows) as [r|] eqn:Hf; [|reflexivity].
  apply List.find_some in Hf as [Hin Hm].
  apply andb_prop in Hm as [Hfp Hen].
  apply String.eqb_eq in Hfp. apply Z.eqb_eq in Hen.
  now destruct (H r Hin Hfp).
Qed.

(** C8.  For a fixed key, catalog and source address, two presented
    usernames give the same decision and the same binding. *)
Theorem username_is_not_an_authorization_input (username1 username2 : string)
    (key : PKey) (source_ip : string) (w : World) :
  fst (authenticate_key username1 key source_ip w)
  = fst (authenticate_key username2 key source_ip w).
Proof.
  destruct (authenticate_key_decision username1 key source_ip w) as [l1 ->].
  destruct (authenticate_key_decision username2 key source_ip w) as [l2 ->].
  reflexivity.
Qed.

(** C9, as the code has it.  The computed fingerprint is the empty
    string exactly when the key's bytes cannot be read, and then
    authentication is rejected; the empty blob has the fingerprint of
    the digest of no bytes, which is not empty. *)
Theorem empty_fingerprint_iff_asbytes_raises (username : string) (key : PKey)
    (source_ip : string) (w : World) :
  (fst (get_key_fingerprint key w) = Ok "" <-> exists e, asbytes key = Raise e) /\
  (fst (get_key_fingerprint key w) = Ok "" ->
   fst (authenticate_key username key source_ip w) = Ok (false, None)) /\
  fst (get_key_fingerprint Examples.key_empty w) = Ok Examples.fp_empty.
Proof.
  assert (Hiff : fst (get_key_fingerprint key w) = Ok ""
                 <-> exists e, asbytes key = Raise e).
  { destruct (asbytes key) as [blob|e] eqn:Hk.
    - rewrite (get_key_fingerprint_ok _ _ _ Hk). cbn [fst]. split.
      + intros [=].
      + intros [e [=]].
    - rewrite (get_key_fingerprint_raise _ _ _ Hk). cbn [fst]. split; eauto. }
  split; [exact Hiff|split].
  - intros H. apply Hiff in H as [e He].
    destruct (authenticate_key_decision username key source_ip w) as [l ->].
    unfold Spec.decision. now rewrite He.
  - rewrite (get_key_fingerprint_ok Examples.key_empty [] w eq_refl).
    vm_compute. reflexivity.
Qed.

(** A key object whose bytes cannot be read: the fingerprint is empty
    and the denial names it. *)
Example unreadable_key_is_denied :
  authenticate_key "alice" Examples.key_broken Examples.client_ip
    (Examples.world_of Examples.empty_database)
  = (Ok (false, None),
     set_logger
       [Message ERROR "Error calculating key fingerprint: no key data";
        ConnectionDenied Examples.client_ip "INVALID" "alice"
          "Could not calculate key fingerprint"]
       (Examples.world_of Examples.empty_database)).
Proof. vm_compute. reflexivity. Qed.

(** C9, as stated, fails: the empty blob has a non-empty fingerprint, and
    a catalog that binds this fingerprint accepts the key. *)
Lemma empty_blob_has_a_fingerprint_and_can_be_accepted :
  let w := Examples.world_of
             (Examples.database_of [Examples.row Examples.fp_empty "10.0.0.5" 1]) in
  fst (get_key_fingerprint Examples.key_empty w) = Ok Examples.fp_empty /\
  Py.is_empty Examples.fp_empty = false /\
  fst (authenticate_key "alice" Examples.key_empty Examples.client_ip w)
  = Ok (true, Some (Examples.binding Examples.fp_empty "10.0.0.5")).
Proof. vm_compute. repeat split; reflexivity. Qed.

(** C10.  [authenticate_key] returns a pair on every input and never
    raises; an internal error gives [(False, None)]; when the first
    component is true the second is a binding that is enabled. *)
Theorem authenticate_key_total (username : string) (key : PKey)
    (source_ip : string) (w : World) :
  exists (b : bool) (k : option SSHKey.t) (w' : World),
    authenticate_key username key source_ip w = (Ok (b, k), w') /\
    (Spec.internal_error key w -> (b, k) = (false, None)) /\
    (b = true -> exists binding, k = Some binding /\ SSHKey.enabled binding = true) /\
    (b = false -> k = None).
Proof.
  destruct (authenticate_key_decision username key source_ip w) as [l Hd].
  exists (fst (Spec.decision key (database w))),
         (snd (Spec.decision key (database w))), (set_logger l w).
  split; [now rewrite Hd, <- surjective_pairing|].
  unfold Spec.decision, Spec.internal_error, Spec.find, Db._get_connection.
  destruct (asbytes key) as [blob|e] eqn:Hk.
  - destruct (String.prefix "sqlite" (db_url (database w))) eqn:Hurl.
    + destruct (db_fault (database w)) as [e|] eqn:Hfault.
      * cbn. repeat split; intros; try discriminate; reflexivity.
      * destruct (Db.select_key _ _) as [row|] eqn:Hsel.
        -- destruct (SSHKey.init _ _ _ _ _ _ _) as [binding|e] eqn:Hinit.
           ++ destruct (SSHKey.enabled binding) eqn:Hen; cbn [fst snd].
              ** split; [|split; [eauto|discriminate]].
                 intros [[e [=]]|[[e [=]]|(blob' & row' & e & [= <-] & Hs & Hi)]].
                 rewrite Hsel in Hs. injection Hs as <-. congruence.
              ** repeat split; intros; try discriminate; reflexivity.
           ++ cbn. repeat split; intros; try discriminate; reflexivity.
        -- cbn. repeat split; intros; try discriminate; reflexivity.
    + cbn. repeat split; intros; try discriminate; reflexivity.
  - cbn. repeat split; intros; try discriminate; reflexivity.
Qed.

End AuthTheorems.

(** ** The router *)

Section RouterFacts.

Import SSHRouter.
Context {parser : Ipaddress.Parser}.
Variable config : Config.t.

Lemma Target_init_ok (host : string) (port : Z) (user : string) (t : Target.t) :
  Target.init host port user = Ok t -> t = Target.Build host port user.
Proof.
  unfold Target.init. repeat case_match; congruence.
Qed.

(** Recording an event never raises. *)
Lemma _log_connection_event_ok (ssh_key : option SSHKey.t) (username source_ip : string)
    (target : option Target.t) (status : string) (msg : option string) (w : World) :
  exists w', _log_connection_event ssh_key username source_ip target status msg w
             = (Ok tt, w').
Proof.
  unfold _log_connection_event, Db.log_connection_event, Db._get_connection,
    Db.insert_event, try_except, bind, ret, raise, lift, logger_error, emit.
  repeat case_match; simplify_eq; eauto.
Qed.

(** With a restricted network that holds the target's address in the
    list, the loop reports the match or stops on an exception before
    it. *)
Lemma restricted_networks_loop_rejects (target : Target.t) (a : Ipaddress.address)
    (host : string) (n : Ipaddress.network) (hosts : list string) (w : World) :
  Ipaddress.ip_address (Target.host target) = Ok a ->
  In host hosts ->
  Ipaddress.ip_network host = Ok n ->
  Ipaddress.contains n a = true ->
  exists w', restricted_networks_loop target hosts w = (Ok false, w') \/
             exists e, restricted_networks_loop target hosts w = (Raise e, w').
Proof.
  intros Ha Hin Hn Hc. revert w. induction hosts as [|h rest IH]; [destruct Hin|].
  intros w. cbn [restricted_networks_loop].
  unfold bind, lift, ret, logger_error, emit. rewrite Ha.
  destruct (Ipaddress.ip_network h) as [n'|e] eqn:Hh; [|eauto].
  destruct (Ipaddress.contains n' a) eqn:Hc'; [eauto|].
  destruct Hin as [->|Hin]; [congruence|]. apply (IH Hin).
Qed.

Lemma _validate_target_rejects (target : Target.t) (a : Ipaddress.address)
    (host : string) (n : Ipaddress.network) (w : World) :
  Ipaddress.ip_address (Target.host target) = Ok a ->
  In host (Config.RESTRICTED_NETWORKS config) ->
  Ipaddress.ip_network host = Ok n ->
  Ipaddress.contains n a = true ->
  exists w', _validate_target config target w = (Ok false, w').
Proof.
  intros Ha Hin Hn Hc. unfold _validate_target, try_except.
  destruct (Py.is_empty _ || Py.is_empty _); [eexists; reflexivity|].
  destruct ((_ <? 1) || (_ >? 65535)); [eexists; reflexivity|].
  destruct (restricted_networks_loop_rejects target a host n
              (Config.RESTRICTED_NETWORKS config) w Ha Hin Hn Hc)
    as [w' [-> | [e ->]]]; eexists; reflexivity.
Qed.

(** A rejected validation makes [get_target] return [None]. *)
Lemma get_target_of_rejected (k : SSHKey.t) (username source_ip : string) (w : World) :
  (forall t w1, Target.host t = SSHKey.target_host k ->
                exists w2, _validate_target config t w1 = (Ok false, w2)) ->
  fst (get_target config (Some k) username source_ip w) = Ok None.
Proof.
  intros Hv. unfold get_target, try_except.
  destruct (SSHKey.enabled k); cbn [negb]; [|reflexivity].
  unfold bind at 1. unfold lift at 1.
  destruct (Target.init _ _ _) as [t|e] eqn:Ht.
  - apply Target_init_ok in Ht. subst t.
    unfold bind at 1.
    destruct (Hv (Target.Build (SSHKey.target_host k) (SSHKey.target_port k)
                    (SSHKey.target_user k)) w eq_refl) as [w2 ->].
    reflexivity.
  - unfold bind at 1. unfold logger_error at 1, emit at 1.
    unfold bind at 1.
    destruct (_log_connection_event_ok (Some k) username source_ip None "error"
                (Some (Py.str e))
                (set_logger (logger w ++ [Message ERROR ("Routing error: " +:+ Py.str e)]) w))
      as [w' ->].
    reflexivity.
Qed.

End RouterFacts.

Section RouterTheorems.

Import SSHRouter.

(** C1.  A binding whose target host is an IP literal that lies inside
    one of the configured restricted networks: the validation of its
    target fails, [get_target] returns [None], and the connection handler
    starts no proxy session. *)
Theorem restricted_target_is_rejected {parser : Ipaddress.Parser} (config : Config.t)
    (k : SSHKey.t) (username source_ip : string) (w : World)
    (a : Ipaddress.address) (host : string) (n : Ipaddress.network) :
  Ipaddress.ip_address (SSHKey.target_host k) = Ok a ->
  In host (Config.RESTRICTED_NETWORKS config) ->
  Ipaddress.ip_network host = Ok n ->
  Ipaddress.contains n a = true ->
  fst (_validate_target config
         (Target.Build (SSHKey.target_host k) (SSHKey.target_port k)
            (SSHKey.target_user k)) w) = Ok false /\
  fst (get_target config (Some k) username source_ip w) = Ok None /\
  fst (BastionSSHServer.session_target config (Some k) username source_ip w) = Ok None.
Proof.
  intros Ha Hin Hn Hc.
  assert (Hroute : fst (get_target config (Some k) username source_ip w) = Ok None).
  { apply get_target_of_rejected. intros t w1 Hhost.
    apply (_validate_target_rejects config t a host n w1); [now rewrite Hhost|auto..]. }
  split; [|split; [exact Hroute|]].
  - destruct (_validate_target_rejects config
                (Target.Build (SSHKey.target_host k) (SSHKey.target_port k)
                   (SSHKey.target_user k)) a host n w Ha Hin Hn Hc) as [w' ->].
    reflexivity.
  - unfold BastionSSHServer.session_target, bind at 1.
    destruct (get_target config (Some k) username source_ip w) as [r w'].
    cbn [fst] in Hroute. now subst r.
Qed.

Lemma restricted_target_is_rejected_scenario :
  fst (@BastionSSHServer.session_target Ipaddress.ipv4 Examples.default_config
         (Some (Examples.binding Examples.fp_abc "10.10.254.42")) "alice"
         Examples.client_ip (Examples.world_of Examples.empty_database)) = Ok None.
Proof.
  apply (@restricted_target_is_rejected Ipaddress.ipv4 Examples.default_config
           (Examples.binding Examples.fp_abc "10.10.254.42") "alice" Examples.client_ip
           (Examples.world_of Examples.empty_database)
           {| Ipaddress.version := 4; Ipaddress.ip := 0x0a0afe2a |}
           "10.10.254.0/24"
           {| Ipaddress.net_version := 4; Ipaddress.network_address := 0x0a0afe00;
              Ipaddress.netmask := 0xffffff00 |}).
  - vm_compute. reflexivity.
  - vm_compute. left. reflexivity.
  - vm_compute. reflexivity.
  - vm_compute. reflexivity.
Defined.

End RouterTheorems.

Section RouterLog.

Import SSHRouter.
Context {parser : Ipaddress.Parser}.
Variable config : Config.t.

Lemma set_logger_id (w : World) : set_logger (logger w) w = w.
Proof. now destruct w. Qed.

(** The validation only writes to the log. *)
Lemma restricted_networks_loop_world (target : Target.t) (hosts : list string)
    (w : World) :
  exists r l, restricted_networks_loop target hosts w = (r, set_logger l w).
Proof.
  revert w. induction hosts as [|h rest IH]; intros w.
  - exists (Ok true), (logger w). cbn. unfold ret. now rewrite set_logger_id.
  - cbn [restricted_networks_loop]. unfold bind, lift, ret, logger_error, emit.
    destruct (Ipaddress.ip_address _); [|eexists _, (logger w); now rewrite set_logger_id].
    destruct (Ipaddress.ip_network h); [|eexists _, (logger w); now rewrite set_logger_id].
    destruct (Ipaddress.contains _ _); [eexists _, _; reflexivity|apply IH].
Qed.

Lemma _validate_target_world (target : Target.t) (w : World) :
  exists b l, _validate_target config target w = (Ok b, set_logger l w).
Proof.
  unfold _validate_target, try_except.
  destruct (Py.is_empty _ || Py.is_empty _);
    [exists false, (logger w); unfold ret; now rewrite set_logger_id|].
  destruct ((_ <? 1) || (_ >? 65535));
    [exists false, (logger w); unfold ret; now rewrite set_logger_id|].
  destruct (restricted_networks_loop_world target (Config.RESTRICTED_NETWORKS config) w)
    as ([b|e] & l & ->).
  - eauto.
  - eexists _, _. unfold bind, logger_error, emit, ret. cbn. reflexivity.
Qed.

(** Recording an event adds at most that event to [connection_logs]. *)
Lemma _log_connection_event_logs (k : SSHKey.t) (username source_ip : string)
    (target : option Target.t) (status : string) (msg : option string) (w : World) :
  exists w' new,
    _log_connection_event (Some k) username source_ip target status msg w = (Ok tt, w') /\
    connection_logs (database w') = (connection_logs (database w) ++ new)%list /\
    Forall (fun ev => ConnectionEvent.status ev = status) new.
Proof.
  unfold _log_connection_event, Db.log_connection_event, Db._get_connection,
    Db.insert_event, try_except, bind, ret, raise, lift, logger_error, emit.
  destruct (String.prefix "sqlite" (db_url (database w)));
    [destruct (db_fault (database w))|].
  - eexists _, []. cbn. rewrite app_nil_r. repeat split. constructor.
  - eexists _, [_]. cbn. repeat split. repeat constructor.
  - eexists _, []. cbn. rewrite app_nil_r. repeat split. constructor.
Qed.

(** The events that [get_target] adds to [connection_logs] have the
    status "success" or "error": none has the status "denied". *)
Lemma get_target_events (ssh_key : option SSHKey.t) (username source_ip : string)
    (w : World) :
  exists new,
    connection_logs (database (snd (get_target config ssh_key username source_ip w)))
    = (connection_logs (database w) ++ new)%list /\
    Forall (fun ev => ConnectionEvent.status ev = "success" \/
                      ConnectionEvent.status ev = "error") new.
Proof.
  unfold get_target, try_except.
  destruct ssh_key as [k|]; [|exists []; cbn; now rewrite app_nil_r].
  destruct (SSHKey.enabled k); cbn [negb]; [|exists []; cbn; now rewrite app_nil_r].
  unfold bind at 1. unfold lift at 1.
  destruct (Target.init _ _ _) as [t|e].
  - unfold bind at 1.
    destruct (_validate_target_world t w) as (b & l & ->).
    destruct b; cbn [negb]; [|exists []; cbn; now rewrite app_nil_r].
    unfold bind at 1. unfold log_connection_success at 1, emit at 1.
    unfold bind at 1.
    match goal with
    | |- context [_log_connection_event ?a ?b ?c ?d ?e ?f ?g] =>
        destruct (_log_connection_event_logs k b c d e f g) as (w' & new & -> & Hl & Hs)
    end.
    exists new. unfold bind, logger_info, emit, ret. cbn [snd database set_logger].
    rewrite Hl. split; [reflexivity|].
    eapply Forall_impl; [exact Hs|]. cbn. auto.
  - unfold bind at 1. unfold logger_error at 1, emit at 1.
    unfold bind at 1.
    match goal with
    | |- context [_log_connection_event ?a ?b ?c ?d ?e ?f ?g] =>
        destruct (_log_connection_event_logs k b c d e f g) as (w' & new & -> & Hl & Hs)
    end.
    exists new. unfold ret. cbn [snd database set_logger].
    rewrite Hl. split; [reflexivity|].
    eapply Forall_impl; [exact Hs|]. cbn. auto.
Qed.

(** A host that is no IP literal fails the validation as soon as one
    network is configured. *)
Lemma _validate_target_name (target : Target.t) (e : Exn) (w : World) :
  Ipaddress.ip_address (Target.host target) = Raise e ->
  Config.RESTRICTED_NETWORKS config <> [] ->
  exists w', _validate_target config target w = (Ok false, w').
Proof.
  intros Ha Hne. unfold _validate_target, try_except.
  destruct (Py.is_empty _ || Py.is_empty _); [eexists; reflexivity|].
  destruct ((_ <? 1) || (_ >? 65535)); [eexists; reflexivity|].
  destruct (Config.RESTRICTED_NETWORKS config) as [|h rest]; [contradiction|].
  cbn [restricted_networks_loop]. unfold bind at 1. unfold lift at 1.
  rewrite Ha. eexists; reflexivity.
Qed.

End RouterLog.

Lemma split_not_nil (sep : ascii) (s : string) : Py.split sep s <> [].
Proof.
  destruct s as [|c s]; [discriminate|]. cbn.
  destruct (Ascii.eqb c sep); [discriminate|].
  destruct (Py.split sep s); discriminate.
Qed.

(** The list of restricted networks read from the environment is never
    empty: with it, no host name passes the router. *)
Lemma name_target_rejected_from_env {parser : Ipaddress.Parser} (env : option string)
    (k : SSHKey.t) (username source_ip : string) (w : World) (e : Exn) :
  Ipaddress.ip_address (SSHKey.target_host k) = Raise e ->
  fst (SSHRouter.get_target (Config.from_env env) (Some k) username source_ip w) = Ok None.
Proof.
  intros Ha. apply get_target_of_rejected. intros t w1 Hhost.
  apply (_validate_target_name _ t e w1); [now rewrite Hhost|].
  apply split_not_nil.
Qed.

Section RouterScenarios.

Import SSHRouter.

(** C2.  An enabled binding to the host name "vm1.example.com", with a
    user and port 22, under the default list of restricted networks:
    [ip_address] raises on the name inside the validation, the
    validation fails and [get_target] returns [None]. *)
Theorem name_target_is_rejected :
  let w := Examples.world_of Examples.empty_database in
  @get_target Ipaddress.ipv4 Examples.default_config
    (Some (Examples.binding Examples.fp_abc "vm1.example.com")) "alice"
    Examples.client_ip w
  = (Ok None,
     set_logger
       [Message ERROR
          "Target validation error: vm1.example.com does not appear to be an IPv4 or IPv6 address";
        ConnectionDenied Examples.client_ip "SHA256:ungWv48Bz" "alice"
          "Invalid target configuration"] w).
Proof. vm_compute. reflexivity. Qed.

(** C6.  A binding to 10.10.254.42 under the default restricted
    network 10.10.254.0/24 is rejected with a line in the textual log;
    the table of connection events stays empty.  The accepted binding
    to 10.0.0.5 does get its event, with the status "success". *)
Theorem routing_rejection_records_no_connection_event :
  let w := Examples.world_of Examples.empty_database in
  let rejected :=
    @get_target Ipaddress.ipv4 Examples.default_config
      (Some (Examples.binding Examples.fp_abc "10.10.254.42")) "alice"
      Examples.client_ip w in
  let accepted :=
    @get_target Ipaddress.ipv4 Examples.default_config
      (Some (Examples.binding Examples.fp_abc "10.0.0.5")) "alice"
      Examples.client_ip w in
  fst rejected = Ok None /\
  logger (snd rejected)
  = [Message ERROR "Target host 10.10.254.42 is in restricted network 10.10.254.0/24!";
     ConnectionDenied Examples.client_ip "SHA256:ungWv48Bz" "alice"
       "Invalid target configuration"] /\
  connection_logs (database (snd rejected)) = [] /\
  fst accepted = Ok (Some (Target.Build "10.0.0.5" 22 "ubuntu")) /\
  connection_logs (database (snd accepted))
  = [ConnectionEvent.Build Examples.fp_abc Examples.client_ip "10.0.0.5" "ubuntu"
       "alice" "success" None None].
Proof. vm_compute. repeat split; reflexivity. Qed.

(** An exception inside [get_target] (here a binding whose port was set
    to 0 after its construction) gets an event with the status
    "error". *)
Example routing_exception_records_error_event :
  let w := Examples.world_of Examples.empty_database in
  let k := SSHKey.Build (Some 1) Examples.fp_abc "alice" "10.0.0.5" 0 "ubuntu" true in
  connection_logs
    (database (snd (@get_target Ipaddress.ipv4 Examples.default_config (Some k)
                      "alice" Examples.client_ip w)))
  = [ConnectionEvent.Build Examples.fp_abc Examples.client_ip "" "" "alice" "error"
       None (Some "Invalid port")].
Proof. vm_compute. reflexivity. Qed.

End RouterScenarios.

(** ** The relay engine *)

Section ProxyFacts.

Import SSHProxy.

(** A close wrapped in its own [try] never raises and records the
    call. *)
Lemma close_entry_channel (info : gmap string value) (key : string) (h : Handle)
    (w : World) :
  info !! key = Some (VChannel h) \/ info !! key = Some (VClient h) ->
  exists w', close_entry info key w = (Ok tt, w') /\
             close_calls w' = (close_calls w ++ [h])%list /\
             active_connections w' = active_connections w /\
             logger w' = logger w.
Proof.
  intros Hk. unfold close_entry, try_except.
  assert (Hv : match info !! key with
               | Some v => value_close v
               | None => ret tt
               end = close_handle h)
    by (destruct Hk as [-> | ->]; reflexivity).
  rewrite Hv. unfold close_handle, ret.
  destruct (close_fault w !! h); [eexists; repeat split|].
  destruct (channels w !! h); eexists; repeat split.
Qed.

Lemma conn_info_lookups (cc ts tc : Handle) (target : Target.t)
    (source_ip fingerprint : string) :
  let info := conn_info cc ts tc target source_ip fingerprint in
  info !! "client_channel" = Some (VChannel cc) /\
  info !! "target_channel" = Some (VChannel tc) /\
  info !! "target_ssh" = Some (VClient ts) /\
  info !! "target" = Some (VTarget target) /\
  info !! "source_ip" = Some (VStr source_ip) /\
  info !! "fingerprint" = Some (VStr fingerprint).
Proof. unfold conn_info. repeat split; by simplify_map_eq. Qed.

(** The teardown of an entry that [setup_proxy_session] stored. *)
Lemma _cleanup_connection_registered (cc ts tc : Handle) (target : Target.t)
    (source_ip fingerprint cid : string) (w : World) :
  active_connections w !! cid = Some (conn_info cc ts tc target source_ip fingerprint) ->
  exists w', _cleanup_connection cid w = (Ok tt, w') /\
             close_calls w' = (close_calls w ++ [cc; tc; ts])%list /\
             active_connections w' = active_connections w /\
             logger w'
             = (logger w ++ [Message ERROR ("Error cleaning up connection " +:+ cid
                   +:+ ": 'Target' object has no attribute 'get'")])%list.
Proof.
  intros Hreg.
  destruct (conn_info_lookups cc ts tc target source_ip fingerprint)
    as (Hcc & Htc & Hts & Ht & Hip & Hfp).
  unfold _cleanup_connection, try_except. rewrite Hreg.
  unfold bind at 1.
  destruct (close_entry_channel _ "client_channel" cc w (or_introl Hcc))
    as (wa & -> & Hca & Haa & Hla).
  unfold bind at 1.
  destruct (close_entry_channel _ "target_channel" tc wa (or_introl Htc))
    as (wb & -> & Hcb & Hab & Hlb).
  unfold bind at 1.
  destruct (close_entry_channel _ "target_ssh" ts wb (or_intror Hts))
    as (wc & -> & Hcc' & Hac & Hlc).
  rewrite Ht. cbn.
  eexists. split; [reflexivity|]. cbn.
  rewrite Hcc', Hcb, Hca, Hac, Hab, Haa, Hlc, Hlb, Hla.
  rewrite <- !app_assoc. repeat split.
Qed.

End ProxyFacts.

Section ProxyTheorems.

Import SSHProxy.

(** C4.  The teardown of a session that [setup_proxy_session]
    registered calls [close()] on the client channel, the target
    channel and the outbound client, in that order and whether or not
    any of the calls raises.  Reading the target's host for the log line
    then raises, the handler of the teardown logs it, and the entry is
    still in the registry afterwards. *)
Theorem teardown_closes_in_order_and_keeps_the_entry
    (client_channel target_ssh target_channel : Handle) (target : Target.t)
    (source_ip fingerprint : string) (w : World) :
  let cid := connection_id source_ip fingerprint in
  let w1 := snd (register client_channel target_ssh target_channel target
                   source_ip fingerprint w) in
  let w2 := snd (_monitor_connection cid [(true, true); (false, true)] w1) in
  close_calls w2 = (close_calls w ++ [client_channel; target_channel; target_ssh])%list /\
  active_connections w2 !! cid
  = Some (conn_info client_channel target_ssh target_channel target source_ip
            fingerprint) /\
  logger w2
  = (logger w ++ [Message ERROR ("Error cleaning up connection " +:+ cid
                                 +:+ ": 'Target' object has no attribute 'get'")])%list.
Proof.
  intros cid w1 w2.
  assert (Hreg : active_connections w1 !! cid
                 = Some (conn_info client_channel target_ssh target_channel target
                           source_ip fingerprint))
    by (subst w1 cid; unfold register; cbn; apply lookup_insert_eq).
  destruct (_cleanup_connection_registered _ _ _ _ _ _ _ _ Hreg)
    as (w' & Hc & Hcalls & Hac & Hlog).
  assert (Hw2 : w2 = w').
  { subst w2. cbn [_monitor_connection andb]. unfold bind. now rewrite Hc. }
  rewrite Hw2, Hcalls, Hac, Hlog. repeat split. exact Hreg.
Qed.

(** The scenario of the specification: client 198.51.100.7 with the
    target 10.0.0.5:22; the outbound client fails to close. *)
Example teardown_scenario :
  let target := Target.Build "10.0.0.5" 22 "ubuntu" in
  let w := {| logger := []; database := Examples.empty_database; channels := ∅;
              close_fault := {[ 2%nat := Py.SocketError "Socket is closed" ]};
              close_calls := []; active_connections := ∅ |} in
  let w1 := snd (register 1%nat 2%nat 3%nat target Examples.client_ip Examples.fp_abc w) in
  let w2 := snd (_cleanup_connection "198.51.100.7:SHA256:u" w1) in
  close_calls w2 = [1%nat; 3%nat; 2%nat] /\
  size (active_connections w2) = 1%nat.
Proof. vm_compute. split; reflexivity. Qed.

(** C5.  A source that holds the frame 01 02 03 followed by end of
    stream, and a destination whose window takes two bytes of the next
    [send]: the relay reads the three bytes, hands them to [send] once,
    and leaves at the end of stream without any error; the destination
    has received 01 02 only. *)
Theorem relay_partial_send_loses_bytes :
  let source := {| closed := false; in_buffer := [x01; x02; x03]; eof_received := true;
                   recv_fault := None; send_window := []; send_fault := None;
                   sent := [] |} in
  let dest := {| closed := false; in_buffer := []; eof_received := false;
                 recv_fault := None; send_window := [2%nat]; send_fault := None;
                 sent := [] |} in
  let w := {| logger := []; database := Examples.empty_database;
              channels := <[1%nat := source]> (<[2%nat := dest]> ∅);
              close_fault := ∅; close_calls := []; active_connections := ∅ |} in
  let r := _relay_data 3 1%nat 2%nat "c2t" w in
  fst r = Ok (Some tt) /\
  logger (snd r) = [Message DEBUG "Relay c2t terminated"] /\
  in_buffer <$> (channels (snd r) !! 1%nat) = Some [] /\
  sent <$> (channels (snd r) !! 2%nat) = Some [x01; x02].
Proof. vm_compute. repeat split; reflexivity. Qed.

(** With a window that takes the whole frame the same run delivers the
    three bytes. *)
Example relay_full_send_delivers :
  let source := {| closed := false; in_buffer := [x01; x02; x03]; eof_received := true;
                   recv_fault := None; send_window := []; send_fault := None;
                   sent := [] |} in
  let dest := {| closed := false; in_buffer := []; eof_received := false;
                 recv_fault := None; send_window := []; send_fault := None;
                 sent := [] |} in
  let w := {| logger := []; database := Examples.empty_database;
              channels := <[1%nat := source]> (<[2%nat := dest]> ∅);
              close_fault := ∅; close_calls := []; active_connections := ∅ |} in
  sent <$> (channels (snd (_relay_data 3 1%nat 2%nat "c2t" w)) !! 2%nat)
  = Some [x01; x02; x03].
Proof. vm_compute. reflexivity. Qed.

End ProxyTheorems.

(* ===================================================================== *)
(** * Further properties: the catalog                                     *)
(* ===================================================================== *)

Section CatalogFacts.

Lemma is_empty_false (s : string) : Py.is_empty s = false <-> s <> "".
Proof. destruct s; cbn; split; congruence. Qed.

Lemma get_connection_available (w : World) :
  SpecOps.available (database w) = true ->
  Db._get_connection w = (Ok (database w), w).
Proof.
  unfold SpecOps.available, Db._get_connection. intros H.
  apply andb_prop in H as [-> H]. now destruct (db_fault (database w)).
Qed.

Lemma get_connection_unavailable (w : World) :
  SpecOps.available (database w) = false ->
  exists e, Db._get_connection w = (Raise e, w).
Proof.
  unfold SpecOps.available, Db._get_connection. intros H.
  destruct (String.prefix _ _); [|eauto].
  destruct (db_fault (database w)); [eauto|discriminate].
Qed.

(** What [add_ssh_key] does, by cases. *)
Lemma add_ssh_key_cases (k : SSHKey.t) (w : World) :
  let db := database w in
  if SpecOps.available db && negb (SpecOps.has_fingerprint (SSHKey.fingerprint k) (ssh_keys db))
  then DbOps.add_ssh_key k w
       = (Ok true,
          set_database {| db_url := db_url db; db_fault := db_fault db;
                          ssh_keys := ssh_keys db
                                      ++ [DbOps.row_of (DbOps.next_id (ssh_keys db)) k];
                          connection_logs := connection_logs db |} w)
  else exists l, DbOps.add_ssh_key k w = (Ok false, set_logger l w).
Proof.
  cbn zeta. unfold DbOps.add_ssh_key, try_except, bind.
  destruct (SpecOps.available (database w)) eqn:Ha; cbn [andb].
  - rewrite (get_connection_available _ Ha). unfold DbOps.insert_key.
    fold (SpecOps.has_fingerprint (SSHKey.fingerprint k) (ssh_keys (database w))).
    destruct (SpecOps.has_fingerprint _ _); cbn [negb]; [|reflexivity].
    eexists. reflexivity.
  - destruct (get_connection_unavailable _ Ha) as [e ->]. eexists. reflexivity.
Qed.

Lemma select_key_app_new (fp : string) (rows : list Row) (r : Row) :
  SpecOps.has_fingerprint fp rows = false ->
  Db.select_key fp (rows ++ [r]) = Db.select_key fp [r].
Proof.
  unfold SpecOps.has_fingerprint, Db.select_key. intros H.
  induction rows as [|x rows IH]; [reflexivity|].
  cbn in H |- *. apply orb_false_elim in H as [-> H]. cbn. now apply IH.
Qed.

Lemma select_key_app_other (fp : string) (rows : list Row) (r : Row) :
  row_fingerprint r <> fp ->
  Db.select_key fp (rows ++ [r]) = Db.select_key fp rows.
Proof.
  unfold Db.select_key. intros H.
  induction rows as [|x rows IH]; cbn.
  - destruct (String.eqb_spec (row_fingerprint r) fp); [contradiction|reflexivity].
  - destruct (_ && _); [reflexivity|exact IH].
Qed.

Lemma select_key_app_found (fp : string) (rows : list Row) (r x : Row) :
  Db.select_key fp rows = Some x -> Db.select_key fp (rows ++ [r]) = Some x.
Proof.
  unfold Db.select_key. induction rows as [|y rows IH]; cbn; [discriminate|].
  destruct (_ && _); [auto|exact IH].
Qed.

Lemma find_fst (fp : string) (w : World) :
  fst (Db.find_ssh_key fp w) = Ok (Spec.find fp (database w)).
Proof. destruct (find_ssh_key_spec fp w) as [l ->]. reflexivity. Qed.

Lemma init_well_formed (id : option Z) (fp u h : string) (p : Z) (tu : string)
    (en : bool) (k : SSHKey.t) :
  SSHKey.init id fp u h p tu en = Ok k <->
  k = SSHKey.Build id fp u h p tu en /\ fp <> "" /\ h <> "" /\ tu <> "" /\ 1 <= p <= 65535.
Proof.
  unfold SSHKey.init.
  destruct fp as [|c1 s1], h as [|c2 s2], tu as [|c3 s3]; cbn;
    try (split; [discriminate|intros (_ & ? & ? & ? & _); congruence]).
  destruct (p <? 1) eqn:H1; cbn.
  - apply Z.ltb_lt in H1. split; [discriminate|intros (_ & _ & _ & _ & ?); lia].
  - apply Z.ltb_ge in H1. destruct (p >? 65535) eqn:H2.
    + rewrite Z.gtb_ltb in H2. apply Z.ltb_lt in H2.
      split; [discriminate|intros (_ & _ & _ & _ & ?); lia].
    + rewrite Z.gtb_ltb in H2. apply Z.ltb_ge in H2.
      split; [intros [= <-]; repeat split; (discriminate || lia)|].
      intros (-> & _); reflexivity.
Qed.

(** The lookup of a binding that has just been stored. *)
Lemma find_after_add (k : SSHKey.t) (w w1 : World) :
  SpecOps.well_formed k ->
  DbOps.add_ssh_key k w = (Ok true, w1) ->
  Spec.find (SSHKey.fingerprint k) (database w1)
  = if SSHKey.enabled k
    then Some (SSHKey.Build (Some (DbOps.next_id (ssh_keys (database w))))
                 (SSHKey.fingerprint k) (SSHKey.username k) (SSHKey.target_host k)
                 (SSHKey.target_port k) (SSHKey.target_user k) true)
    else None.
Proof.
  intros (Hfp & Hh & Hu & Hp) Hadd.
  pose proof (add_ssh_key_cases k w) as Hc. cbn zeta in Hc.
  destruct (SpecOps.available (database w)) eqn:Ha; cbn [andb] in Hc;
    [|destruct Hc as [l Hc]; congruence].
  destruct (SpecOps.has_fingerprint _ _) eqn:Hdup; cbn [negb] in Hc;
    [destruct Hc as [l Hc]; congruence|].
  rewrite Hc in Hadd. injection Hadd as <-.
  unfold Spec.find. cbn [database set_database db_url db_fault ssh_keys].
  unfold SpecOps.available in Ha. apply andb_prop in Ha as [-> Ha].
  destruct (db_fault (database w)); [discriminate|].
  rewrite (select_key_app_new _ _ _ Hdup).
  unfold Db.select_key, DbOps.row_of. cbn [List.find row_fingerprint row_enabled].
  rewrite String.eqb_refl. cbn [andb].
  destruct (SSHKey.enabled k); cbn; [|reflexivity].
  destruct (SSHKey.init _ _ _ _ _ _ _) as [k'|e] eqn:Hi.
  - apply init_well_formed in Hi as [-> _]. reflexivity.
  - assert (Hok : SSHKey.init (Some (DbOps.next_id (ssh_keys (database w))))
                    (SSHKey.fingerprint k) (SSHKey.username k) (SSHKey.target_host k)
                    (SSHKey.target_port k) (SSHKey.target_user k) true
                  = Ok (SSHKey.Build (Some (DbOps.next_id (ssh_keys (database w))))
                          (SSHKey.fingerprint k) (SSHKey.username k)
                          (SSHKey.target_host k) (SSHKey.target_port k)
                          (SSHKey.target_user k) true))
      by (apply init_well_formed; auto).
    cbn in Hi. congruence.
Qed.

End CatalogFacts.

Section CatalogTheorems.

(** X1.  A well-formed binding that [add_ssh_key] has stored is what
    [find_ssh_key] returns for its fingerprint afterwards, equal in every
    field but the id that the table gave it, when it is enabled; a binding
    stored as disabled is not found. *)
Theorem add_then_find_round_trip (k : SSHKey.t) (w w1 : World) :
  SpecOps.well_formed k ->
  DbOps.add_ssh_key k w = (Ok true, w1) ->
  exists id : Z,
    fst (Db.find_ssh_key (SSHKey.fingerprint k) w1)
    = Ok (if SSHKey.enabled k
          then Some (SSHKey.Build (Some id) (SSHKey.fingerprint k) (SSHKey.username k)
                       (SSHKey.target_host k) (SSHKey.target_port k)
                       (SSHKey.target_user k) true)
          else None).
Proof.
  intros Hwf Hadd. exists (DbOps.next_id (ssh_keys (database w))).
  rewrite find_fst. f_equal. now apply find_after_add.
Qed.

Lemma add_then_find_round_trip_abc :
  let k := Examples.binding Examples.fp_abc "10.0.0.5" in
  exists id : Z,
    fst (Db.find_ssh_key (SSHKey.fingerprint k)
           (snd (DbOps.add_ssh_key k (Examples.world_of Examples.empty_database))))
    = Ok (if SSHKey.enabled k
          then Some (SSHKey.Build (Some id) (SSHKey.fingerprint k) (SSHKey.username k)
                       (SSHKey.target_host k) (SSHKey.target_port k)
                       (SSHKey.target_user k) true)
          else None).
Proof.
  apply (add_then_find_round_trip (Examples.binding Examples.fp_abc "10.0.0.5")
           (Examples.world_of Examples.empty_database)).
  - repeat split; (discriminate || (cbn; lia)).
  - vm_compute. reflexivity.
Defined.


(** X3.  Adding a key does not disturb the other bindings: a lookup of
    another fingerprint gives what it gave before, and a lookup that found
    a binding still finds the same one. *)
Theorem add_ssh_key_keeps_lookups (k : SSHKey.t) (fp : string) (w : World) :
  let w' := snd (DbOps.add_ssh_key k w) in
  (fp <> SSHKey.fingerprint k ->
   fst (Db.find_ssh_key fp w') = fst (Db.find_ssh_key fp w)) /\
  (forall found, fst (Db.find_ssh_key fp w) = Ok (Some found) ->
                 fst (Db.find_ssh_key fp w') = Ok (Some found)).
Proof.
  cbn zeta. rewrite !find_fst.
  pose proof (add_ssh_key_cases k w) as Hc. cbn zeta in Hc.
  destruct (SpecOps.available (database w) && _) eqn:Hcase.
  - rewrite Hc. cbn [snd database set_database]. unfold Spec.find.
    cbn [db_url db_fault ssh_keys].
    destruct (String.prefix _ _); [|split; [reflexivity|intros ? [=]]].
    destruct (db_fault (database w)); [split; [reflexivity|intros ? [=]]|].
    split.
    + intros Hne. rewrite select_key_app_other; [reflexivity|].
      cbn. congruence.
    + intros found.
      destruct (Db.select_key fp (ssh_keys (database w))) as [x|] eqn:Hs; [|intros [=]].
      now rewrite (select_key_app_found _ _ _ _ Hs).
  - destruct Hc as [l ->]. cbn [snd]. rewrite database_set_logger. auto.
Qed.


End CatalogTheorems.

(** ** What the calls do to the database *)

Lemma find_well_formed (fp : string) (db : Database) (k : SSHKey.t) :
  Spec.find fp db = Some k ->
  SpecOps.well_formed k /\ SSHKey.enabled k = true /\ SSHKey.fingerprint k = fp.
Proof.
  intros Hf. pose proof (find_fingerprint _ _ _ Hf) as Hfp.
  unfold Spec.find, Db.select_key in Hf.
  destruct (String.prefix _ _); [|discriminate].
  destruct (db_fault db); [discriminate|].
  destruct (List.find _ _) as [row|] eqn:Hs; [|discriminate].
  apply List.find_some in Hs as [_ Hm]. apply andb_prop in Hm as [_ Hen].
  apply Z.eqb_eq in Hen.
  destruct (SSHKey.init _ _ _ _ _ _ _) as [k'|] eqn:Hi; [|discriminate].
  injection Hf as ->. apply init_well_formed in Hi as (-> & H1 & H2 & H3 & H4).
  unfold SpecOps.well_formed. cbn. rewrite Hen. cbn in Hfp. repeat split; auto; lia.
Qed.

Lemma Target_init_well_formed (k : SSHKey.t) :
  SpecOps.well_formed k ->
  Target.init (SSHKey.target_host k) (SSHKey.target_port k) (SSHKey.target_user k)
  = Ok (SpecOps.target_of k).
Proof.
  intros (_ & Hh & Hu & Hp). unfold Target.init.
  apply is_empty_false in Hh, Hu. rewrite Hh, Hu.
  assert (H1 : (SSHKey.target_port k <? 1) = false) by (apply Z.ltb_ge; lia).
  assert (H2 : (SSHKey.target_port k >? 65535) = false)
    by (rewrite Z.gtb_ltb; apply Z.ltb_ge; lia).
  now rewrite H1, H2.
Qed.

Lemma get_target_for_key_spec (fp : string) (w : World) :
  exists l, Db.get_target_for_key fp w
            = (Ok (SpecOps.target_of <$> Spec.find fp (database w)), set_logger l w).
Proof.
  unfold Db.get_target_for_key, bind.
  destruct (find_ssh_key_spec fp w) as [l ->].
  destruct (Spec.find fp (database w)) as [k|] eqn:Hf; [|exists l; reflexivity].
  apply find_well_formed in Hf as (Hwf & -> & _).
  unfold lift. rewrite (Target_init_well_formed _ Hwf). exists l. reflexivity.
Qed.

Lemma extends_refl (db : Database) : SpecOps.extends db db.
Proof. repeat split; reflexivity. Qed.

(** Closes a goal [extends (database w) (database w')] where [w'] is [w]
    with another log. *)
Ltac ext_log := cbn [database set_logger snd]; apply extends_refl.

Lemma extends_trans (a b c : Database) :
  SpecOps.extends a b -> SpecOps.extends b c -> SpecOps.extends a c.
Proof.
  intros (H1 & H2 & H3 & H4) (H5 & H6 & H7 & H8).
  repeat split; [congruence|congruence|etrans; eauto|etrans; eauto].
Qed.

Lemma add_ssh_key_extends (k : SSHKey.t) (w : World) :
  SpecOps.extends (database w) (database (snd (DbOps.add_ssh_key k w))).
Proof.
  pose proof (add_ssh_key_cases k w) as Hc. cbn zeta in Hc.
  destruct (_ && _).
  - rewrite Hc. cbn. repeat split; [by apply prefix_app_r|reflexivity].
  - destruct Hc as [l ->]. ext_log.
Qed.

Lemma log_connection_event_extends (event : ConnectionEvent.t) (w : World) :
  exists b l db', Db.log_connection_event event w = (Ok b, SpecOps.with_log_db l db' w) /\
                  SpecOps.extends (database w) db'.
Proof.
  unfold Db.log_connection_event, try_except, bind.
  destruct (SpecOps.available (database w)) eqn:Ha.
  - rewrite (get_connection_available _ Ha).
    eexists _, (logger w), _. split; [reflexivity|].
    cbn. repeat split; [reflexivity|by apply prefix_app_r].
  - destruct (get_connection_unavailable _ Ha) as [e ->].
    eexists _, _, (database w). split; [reflexivity|apply extends_refl].
Qed.

Section Route.

Context {parser : Ipaddress.Parser}.
Variable config : Config.t.

Lemma _log_connection_event_extends (ssh_key : option SSHKey.t)
    (username source_ip : string) (target : option Target.t) (status : string)
    (msg : option string) (w : World) :
  exists l db',
    SSHRouter._log_connection_event ssh_key username source_ip target status msg w
    = (Ok tt, SpecOps.with_log_db l db' w) /\
    SpecOps.extends (database w) db'.
Proof.
  unfold SSHRouter._log_connection_event, try_except.
  destruct ssh_key as [k|].
  - unfold bind at 1. unfold ret at 1. unfold bind at 1.
    match goal with |- context [Db.log_connection_event ?ev w] =>
      destruct (log_connection_event_extends ev w) as (b & l & db' & -> & He) end.
    exists l, db'. split; [reflexivity|exact He].
  - eexists _, (database w). split; [reflexivity|apply extends_refl].
Qed.

(** [get_target] never raises; it changes the log and, by appending, the
    database, and nothing else in the world. *)
Lemma get_target_extends (ssh_key : option SSHKey.t) (username source_ip : string)
    (w : World) :
  exists r l db',
    SSHRouter.get_target config ssh_key username source_ip w
    = (Ok r, SpecOps.with_log_db l db' w) /\
    SpecOps.extends (database w) db'.
Proof.
  unfold SSHRouter.get_target, try_except.
  destruct ssh_key as [k|];
    [|eexists _, _, (database w); split; [reflexivity|apply extends_refl]].
  destruct (SSHKey.enabled k); cbn [negb];
    [|eexists _, _, (database w); split; [reflexivity|apply extends_refl]].
  unfold bind at 1. unfold lift at 1.
  destruct (Target.init _ _ _) as [t|e].
  - unfold bind at 1.
    destruct (_validate_target_world config t w) as (b & l & ->).
    destruct b; cbn [negb];
      [|eexists _, _, (database w); split; [reflexivity|apply extends_refl]].
    unfold bind at 1. unfold log_connection_success at 1, emit at 1.
    unfold bind at 1.
    match goal with
    | |- context [SSHRouter._log_connection_event ?a ?b ?c ?d ?e ?f ?g] =>
        destruct (_log_connection_event_extends a b c d e f g) as (l' & db' & -> & He)
    end.
    eexists _, _, db'. split; [reflexivity|]. exact He.
  - unfold bind at 1. unfold logger_error at 1, emit at 1.
    unfold bind at 1.
    match goal with
    | |- context [SSHRouter._log_connection_event ?a ?b ?c ?d ?e ?f ?g] =>
        destruct (_log_connection_event_extends a b c d e f g) as (l' & db' & -> & He)
    end.
    eexists _, _, db'. split; [reflexivity|]. exact He.
Qed.

End Route.

Lemma is_key_authorized_spec (fp : string) (w : World) :
  exists l, SSHKeyAuth.is_key_authorized fp w
            = (Ok (match Spec.find fp (database w) with
                   | Some k => SSHKey.enabled k
                   | None => false
                   end), set_logger l w).
Proof.
  unfold SSHKeyAuth.is_key_authorized, try_except, bind.
  destruct (find_ssh_key_spec fp w) as [l ->]. exists l. reflexivity.
Qed.

Lemma main_add_ssh_key_extends (fp u h tu : string) (p : Z) (w : World) :
  exists b w', BastionMain.add_ssh_key fp u h tu p w = (Ok b, w') /\
               SpecOps.extends (database w) (database w').
Proof.
  unfold BastionMain.add_ssh_key, try_except.
  unfold bind at 1. unfold DbOps.Database_init.
  destruct (String.prefix _ _);
    [destruct (db_fault (database w));
     [eexists _, _; split; [reflexivity|ext_log]|]|].
  all: unfold bind at 1; unfold lift at 1;
    (destruct (SSHKey.init _ _ _ _ _ _ _) as [k|e];
     [|eexists _, _; split; [reflexivity|ext_log]]);
    unfold bind at 1;
    pose proof (add_ssh_key_extends k w) as He;
    pose proof (add_ssh_key_cases k w) as Hc; cbn zeta in Hc;
    (destruct (_ && _); [rewrite Hc in He |- *|destruct Hc as [l Hc]; rewrite Hc in He |- *]);
    eexists _, _; (split; [reflexivity|exact He]).
Qed.

Section CatalogMoreTheorems.

(** X5.  [get_target_for_key] and the router's
    [get_target_by_fingerprint] never raise, and return the routing
    fields of the binding that [find_ssh_key] returns for the fingerprint,
    or [None] when it returns none. *)
Theorem target_for_key_is_find_projected (fp : string) (w : World) :
  exists found : option SSHKey.t,
    fst (Db.find_ssh_key fp w) = Ok found /\
    fst (Db.get_target_for_key fp w) = Ok (SpecOps.target_of <$> found) /\
    fst (RouterOps.get_target_by_fingerprint fp w) = Ok (SpecOps.target_of <$> found).
Proof.
  exists (Spec.find fp (database w)). split; [apply find_fst|].
  unfold RouterOps.get_target_by_fingerprint, try_except.
  destruct (get_target_for_key_spec fp w) as [l ->]. split; reflexivity.
Qed.

(** X6.  No call on the catalog or on the components that hold it
    removes or rewrites a row of keys or an audit event: after any
    sequence of lookups, insertions, event records, authentications and
    routings, the old rows and the old events are a prefix of the new
    ones, and the location of the catalog is unchanged. *)
Theorem catalog_is_append_only {parser : Ipaddress.Parser} (config : Config.t)
    (calls : list SpecOps.call) (w : World) :
  SpecOps.extends (database w) (database (SpecOps.run_calls config calls w)).
Proof.
  unfold SpecOps.run_calls. revert w.
  induction calls as [|c calls IH]; intros w; [apply extends_refl|].
  cbn [fold_left]. eapply extends_trans; [|apply IH].
  destruct c as [fp|k|ev|fp|u key ip|fp|k u ip|fp u h tu p]; cbn [SpecOps.run_call].
  - destruct (find_ssh_key_spec fp w) as [l ->]. ext_log.
  - apply add_ssh_key_extends.
  - destruct (log_connection_event_extends ev w) as (b & l & db' & -> & He). exact He.
  - unfold RouterOps.get_target_by_fingerprint, try_except.
    destruct (get_target_for_key_spec fp w) as [l ->]. ext_log.
  - destruct (authenticate_key_decision u key ip w) as [l ->]. ext_log.
  - destruct (is_key_authorized_spec fp w) as [l ->]. ext_log.
  - destruct (get_target_extends config k u ip w) as (r & l & db' & -> & He). exact He.
  - destruct (main_add_ssh_key_extends fp u h tu p w) as (b & w' & -> & He). exact He.
Qed.

End CatalogMoreTheorems.

(* ===================================================================== *)
(** * Further properties: the authenticator and the server interface      *)
(* ===================================================================== *)

Lemma authenticate_key_fst (username : string) (key : PKey) (source_ip : string)
    (w : World) :
  fst (SSHKeyAuth.authenticate_key username key source_ip w)
  = Ok (Spec.decision key (database w)).
Proof.
  destruct (authenticate_key_decision username key source_ip w) as [l ->]. reflexivity.
Qed.

Lemma find_empty_fingerprint (db : Database) : Spec.find "" db = None.
Proof.
  destruct (Spec.find "" db) as [k|] eqn:Hf; [|reflexivity].
  apply find_well_formed in Hf as ((Hne & _) & _ & Hfp). contradiction.
Qed.

Lemma decision_accepts (key : PKey) (db : Database) (k : SSHKey.t) :
  Spec.decision key db = (true, Some k) <->
  exists blob, asbytes key = Ok blob /\ Spec.find (Spec.fingerprint blob) db = Some k.
Proof.
  unfold Spec.decision. destruct (asbytes key) as [blob|e].
  - destruct (Spec.find (Spec.fingerprint blob) db) as [k'|] eqn:Hf.
    + pose proof (find_well_formed _ _ _ Hf) as (_ & -> & _). split.
      * intros [= ->]. eauto.
      * intros (blob' & [= <-] & Hf'). congruence.
    + split; [discriminate|]. intros (blob' & [= <-] & Hf'). congruence.
  - split; [discriminate|]. intros (blob' & [=] & _).
Qed.

Lemma decision_cases (key : PKey) (db : Database) :
  (exists k, Spec.decision key db = (true, Some k)) \/
  Spec.decision key db = (false, None).
Proof.
  unfold Spec.decision. destruct (asbytes key); [|auto].
  destruct (Spec.find _ _) as [k|]; [|auto].
  destruct (SSHKey.enabled k); eauto.
Qed.

Section InterfaceFacts.

Import BastionSSHServerInterface.
Variable decode : list byte -> string.

Lemma check_auth_publickey_spec (self : t) (u : string) (key : PKey) (w : World) :
  exists l,
    check_auth_publickey self u key w
    = (Ok (match Spec.decision key (database w) with
           | (true, Some k) => (AUTH_SUCCESSFUL, Build (source_ip self) (Some k) (Some u))
           | _ => (AUTH_FAILED, self)
           end), set_logger l w).
Proof.
  unfold check_auth_publickey, try_except, bind.
  destruct (authenticate_key_decision u key (source_ip self) w) as [l ->].
  exists l. destruct (Spec.decision key (database w)) as [[|] [k|]]; reflexivity.
Qed.

(** One callback leaves the object as it is, unless it is a public key
    that the authenticator accepts. *)
Lemma dispatch_spec (self : t) (r : request) (w : World) :
  exists self' l,
    dispatch decode self r w = (Ok self', set_logger l w) /\
    (self' = self \/
     exists u key k, r = AuthPublickey u key /\
                     Spec.decision key (database w) = (true, Some k) /\
                     self' = Build (source_ip self) (Some k) (Some u)).
Proof.
  destruct r as [u|u p|u key|kind cid|c|c cmd|c n|a p|a p]; cbn [dispatch];
    try (exists self, (logger w); unfold ret; rewrite set_logger_id; auto; fail);
    try (eexists self, _; split; [reflexivity|auto]; fail).
  - unfold bind. destruct (check_auth_publickey_spec self u key w) as [l ->].
    destruct (decision_cases key (database w)) as [[k Hd]|Hd]; rewrite Hd.
    + eexists _, l. split; [reflexivity|]. right. eauto 6.
    + eexists _, l. split; [reflexivity|]. auto.
  - unfold check_channel_subsystem_request.
    destruct (String.eqb n "sftp").
    + exists self, (logger w). unfold bind, ret. rewrite set_logger_id. auto.
    + eexists self, _. split; [reflexivity|auto].
Qed.

Lemma serve_spec (rs : list request) (self : t) (w : World) :
  exists self' l,
    serve decode self rs w = (Ok self', set_logger l w) /\
    (self' = self \/
     exists u key k, In (AuthPublickey u key) rs /\
                     Spec.decision key (database w) = (true, Some k) /\
                     self' = Build (source_ip self) (Some k) (Some u)).
Proof.
  revert self w. induction rs as [|r rs IH]; intros self w.
  - exists self, (logger w). cbn. unfold ret. rewrite set_logger_id. auto.
  - cbn [serve]. unfold bind.
    destruct (dispatch_spec self r w) as (s1 & l1 & -> & H1).
    destruct (IH s1 (set_logger l1 w)) as (s2 & l2 & -> & H2).
    rewrite set_logger_twice, database_set_logger in *.
    exists s2, l2. split; [reflexivity|].
    destruct H2 as [->|(u & key & k & Hin & Hd & ->)].
    + destruct H1 as [->|(u & key & k & -> & Hd & ->)]; [auto|].
      right. exists u, key, k. repeat split; auto. now left.
    + right. exists u, key, k. repeat split; [now right|exact Hd|].
      destruct H1 as [->|(u' & key' & k' & _ & _ & ->)]; reflexivity.
Qed.

End InterfaceFacts.

Section InterfaceTheorems.

Import BastionSSHServerInterface.

(** X7.  [is_key_authorized], asked about the fingerprint that
    [get_key_fingerprint] computes for a key, answers what
    [authenticate_key] decides for that key; this includes the key whose
    bytes cannot be read. *)
Theorem is_key_authorized_agrees_with_authenticate_key (username : string) (key : PKey)
    (source_ip : string) (w : World) :
  exists (fp : string) (accepted : bool) (binding : option SSHKey.t),
    fst (SSHKeyAuth.get_key_fingerprint key w) = Ok fp /\
    fst (SSHKeyAuth.authenticate_key username key source_ip w) = Ok (accepted, binding) /\
    fst (SSHKeyAuth.is_key_authorized fp w) = Ok accepted.
Proof.
  rewrite authenticate_key_fst. unfold Spec.decision.
  destruct (asbytes key) as [blob|e] eqn:Hk.
  - exists (Spec.fingerprint blob).
    rewrite (get_key_fingerprint_ok _ _ _ Hk).
    destruct (is_key_authorized_spec (Spec.fingerprint blob) w) as [l ->].
    destruct (Spec.find _ _) as [k|]; [|eexists _, _; repeat split].
    destruct (SSHKey.enabled k); eexists _, _; repeat split.
  - exists "". rewrite (get_key_fingerprint_raise _ _ _ Hk).
    destruct (is_key_authorized_spec "" w) as [l ->].
    rewrite find_empty_fingerprint. eexists _, _; repeat split.
Qed.

(** X8.  The public-key callback answers [AUTH_SUCCESSFUL] exactly when
    the authenticator accepts the key, and then records the binding and
    the presented username on the interface object; on [AUTH_FAILED] the
    object is left as it was, so that a failed attempt does not erase an
    earlier acceptance. *)
Theorem publickey_callback_records_accepted_binding (self : t) (username : string)
    (key : PKey) (w : World) :
  exists (code : Z) (self' : t) (w' : World),
    check_auth_publickey self username key w = (Ok (code, self'), w') /\
    ((code = AUTH_SUCCESSFUL /\
      exists k, fst (SSHKeyAuth.authenticate_key username key (source_ip self) w)
                = Ok (true, Some k) /\
                self' = Build (source_ip self) (Some k) (Some username))
     \/
     (code = AUTH_FAILED /\ self' = self /\
      fst (SSHKeyAuth.authenticate_key username key (source_ip self) w)
      = Ok (false, None))).
Proof.
  destruct (check_auth_publickey_spec self username key w) as [l ->].
  rewrite authenticate_key_fst.
  destruct (decision_cases key (database w)) as [[k Hd]|Hd]; rewrite Hd.
  - eexists _, _, _. split; [reflexivity|]. left. eauto.
  - eexists _, _, _. split; [reflexivity|]. right. auto.
Qed.

(** X9.  Whatever requests a client sends on a connection, the callbacks
    never raise and leave the database alone, and the interface object
    ends with a recorded binding only if one of the public keys presented
    on this connection is accepted by the authenticator; that binding and
    the username presented with the key are what is recorded.  Password
    attempts and channel requests never set it. *)
Theorem interface_records_only_accepted_keys (decode : list byte -> string)
    (ip : string) (rs : list request) (w : World) :
  exists (self : t) (w' : World),
    serve decode (init ip) rs w = (Ok self, w') /\
    database w' = database w /\
    source_ip self = ip /\
    match authenticated_key self with
    | None => username self = None
    | Some k =>
        exists u key,
          In (AuthPublickey u key) rs /\
          username self = Some u /\
          fst (SSHKeyAuth.authenticate_key u key ip w) = Ok (true, Some k)
    end.
Proof.
  destruct (serve_spec decode rs (init ip) w) as (self & l & -> & H).
  exists self, (set_logger l w). split; [reflexivity|split; [reflexivity|]].
  destruct H as [->|(u & key & k & Hin & Hd & ->)]; cbn.
  - auto.
  - split; [reflexivity|]. exists u, key. rewrite authenticate_key_fst, Hd. auto.
Qed.

End InterfaceTheorems.

(* ===================================================================== *)
(** * Further properties: the router                                      *)
(* ===================================================================== *)

Section RouteFacts.

Context {parser : Ipaddress.Parser}.
Variable config : Config.t.

Lemma clear_iff (host : string) (networks : list string) :
  SpecOps.clear host networks = true <-> SpecOps.clear_of host networks.
Proof.
  unfold SpecOps.clear_of. induction networks as [|h rest IH]; cbn.
  - split; [constructor|reflexivity].
  - destruct (Ipaddress.ip_address host) as [a|e] eqn:Ha.
    + destruct (Ipaddress.ip_network h) as [n|e] eqn:Hn.
      * destruct (Ipaddress.contains n a) eqn:Hc; cbn.
        -- split; [discriminate|]. intros HF. inversion HF as [|? ? (a' & n' & H1 & H2 & H3)].
           congruence.
        -- rewrite IH. split.
           ++ intros HF. constructor; [eauto|exact HF].
           ++ intros HF. now inversion HF.
      * split; [discriminate|]. intros HF. inversion HF as [|? ? (a' & n' & H1 & H2 & H3)].
        congruence.
    + split; [discriminate|]. intros HF. inversion HF as [|? ? (a' & n' & H1 & H2 & H3)].
      congruence.
Qed.

Lemma restricted_networks_loop_spec (target : Target.t) (hosts : list string)
    (w : World) :
  exists r l,
    SSHRouter.restricted_networks_loop target hosts w = (r, set_logger l w) /\
    match r with
    | Ok b => b = SpecOps.clear (Target.host target) hosts
    | Raise _ => SpecOps.clear (Target.host target) hosts = false
    end.
Proof.
  revert w. induction hosts as [|h rest IH]; intros w.
  - exists (Ok true), (logger w). cbn. unfold ret. now rewrite set_logger_id.
  - cbn [SSHRouter.restricted_networks_loop SpecOps.clear].
    unfold bind, lift, ret, logger_error, emit.
    destruct (Ipaddress.ip_address _);
      [|eexists _, (logger w); now rewrite set_logger_id].
    destruct (Ipaddress.ip_network h);
      [|eexists _, (logger w); now rewrite set_logger_id].
    destruct (Ipaddress.contains _ _); cbn [negb andb]; [eexists _, _; split; reflexivity|].
    apply IH.
Qed.

Lemma Target_init_iff (h : string) (p : Z) (u : string) (t : Target.t) :
  Target.init h p u = Ok t <->
  t = Target.Build h p u /\ h <> "" /\ u <> "" /\ 1 <= p <= 65535.
Proof.
  unfold Target.init.
  destruct h as [|c1 s1], u as [|c2 s2]; cbn;
    try (split; [discriminate|intros (_ & ? & ? & _); congruence]).
  destruct (p <? 1) eqn:H1; cbn.
  - apply Z.ltb_lt in H1. split; [discriminate|intros (_ & _ & _ & ?); lia].
  - apply Z.ltb_ge in H1. destruct (p >? 65535) eqn:H2; rewrite Z.gtb_ltb in H2.
    + apply Z.ltb_lt in H2. split; [discriminate|intros (_ & _ & _ & ?); lia].
    + apply Z.ltb_ge in H2.
      split; [intros [= <-]; repeat split; (discriminate || lia)|].
      intros (-> & _); reflexivity.
Qed.

(** The answer of [get_target] is [SpecOps.route]; it never raises. *)
Lemma get_target_route (ssh_key : option SSHKey.t) (username source_ip : string)
    (w : World) :
  fst (SSHRouter.get_target config ssh_key username source_ip w)
  = Ok (SpecOps.route config ssh_key).
Proof.
  unfold SSHRouter.get_target, SpecOps.route, try_except.
  destruct ssh_key as [k|]; [|reflexivity].
  destruct (SSHKey.enabled k); cbn [negb]; [|reflexivity].
  unfold bind at 1. unfold lift at 1.
  destruct (Target.init _ _ _) as [t|e] eqn:Ht.
  - unfold bind at 1.
    destruct (_validate_target_world config t w) as (b & l & Hv).
    assert (Hb : b = SpecOps.clear (Target.host t) (Config.RESTRICTED_NETWORKS config)).
    { pose proof (Target_init_ok _ _ _ _ Ht) as ->.
      revert Ht Hv. unfold Target.init, SSHRouter._validate_target, try_except.
      cbn [Target.host Target.user Target.port].
      destruct (Py.is_empty (SSHKey.target_host k)); [discriminate|].
      destruct (Py.is_empty (SSHKey.target_user k)); [discriminate|].
      cbn [orb].
      destruct ((SSHKey.target_port k <? 1) || (SSHKey.target_port k >? 65535));
        [discriminate|].
      intros _.
      destruct (restricted_networks_loop_spec
                  (Target.Build (SSHKey.target_host k) (SSHKey.target_port k)
                     (SSHKey.target_user k))
                  (Config.RESTRICTED_NETWORKS config) w) as ([b'|e] & l' & -> & Hr);
        cbn [Target.host] in Hr |- *.
      - intros [= -> _]. exact Hr.
      - unfold bind, logger_error, emit, ret. intros [= <- _]. now rewrite Hr. }
    rewrite Hv, <- Hb. destruct b; cbn [negb]; [|reflexivity].
    unfold bind at 1. unfold log_connection_success at 1, emit at 1.
    unfold bind at 1.
    match goal with
    | |- context [SSHRouter._log_connection_event ?a ?b ?c ?d ?e ?f ?g] =>
        destruct (_log_connection_event_ok a b c d e f g) as (w' & ->)
    end.
    reflexivity.
  - unfold bind at 1. unfold logger_error at 1, emit at 1.
    unfold bind at 1.
    match goal with
    | |- context [SSHRouter._log_connection_event ?a ?b ?c ?d ?e ?f ?g] =>
        destruct (_log_connection_event_ok a b c d e f g) as (w' & ->)
    end.
    reflexivity.
Qed.

Lemma _validate_target_clear (h : string) (p : Z) (u : string) (t : Target.t)
    (w : World) :
  Target.init h p u = Ok t ->
  exists l, SSHRouter._validate_target config t w
            = (Ok (SpecOps.clear h (Config.RESTRICTED_NETWORKS config)), set_logger l w).
Proof.
  intros Ht. apply Target_init_iff in Ht as (-> & Hh & Hu & Hp).
  unfold SSHRouter._validate_target, try_except.
  apply is_empty_false in Hh, Hu. cbn [Target.host Target.user Target.port].
  rewrite Hh, Hu. cbn [orb].
  assert (H1 : (p <? 1) = false) by (apply Z.ltb_ge; lia).
  assert (H2 : (p >? 65535) = false) by (rewrite Z.gtb_ltb; apply Z.ltb_ge; lia).
  rewrite H1, H2. cbn [orb].
  destruct (restricted_networks_loop_spec (Target.Build h p u)
              (Config.RESTRICTED_NETWORKS config) w) as ([b|e] & l & -> & Hr);
    cbn [Target.host] in Hr.
  - subst b. eauto.
  - rewrite Hr. eexists. reflexivity.
Qed.

Lemma log_connection_event_world (event : ConnectionEvent.t) (w : World) :
  exists w', Db.log_connection_event event w = (Ok (SpecOps.available (database w)), w') /\
             database w' = if SpecOps.available (database w)
                           then SpecOps.record_event (database w) event
                           else database w.
Proof.
  unfold Db.log_connection_event, try_except, bind.
  destruct (SpecOps.available (database w)) eqn:Ha.
  - rewrite (get_connection_available _ Ha). eexists. split; reflexivity.
  - destruct (get_connection_unavailable _ Ha) as [e ->]. eexists. split; reflexivity.
Qed.

(** The world after [get_target] on an enabled binding with well-formed
    routing fields: the answer is the network check's, and the only
    change to the database is the event of an accepted route. *)
Lemma get_target_world (k : SSHKey.t) (username source_ip : string) (w : World) :
  SSHKey.enabled k = true ->
  SSHKey.target_host k <> "" -> SSHKey.target_user k <> "" ->
  1 <= SSHKey.target_port k <= 65535 ->
  let ok := SpecOps.clear (SSHKey.target_host k) (Config.RESTRICTED_NETWORKS config) in
  exists w',
    SSHRouter.get_target config (Some k) username source_ip w
    = (Ok (if ok then Some (SpecOps.target_of k) else None), w') /\
    database w' = if ok && SpecOps.available (database w)
                  then SpecOps.record_event (database w)
                         (SpecOps.success_event k username source_ip)
                  else database w.
Proof.
  intros Hen Hh Hu Hp ok. subst ok.
  assert (Ht : Target.init (SSHKey.target_host k) (SSHKey.target_port k)
                 (SSHKey.target_user k) = Ok (SpecOps.target_of k))
    by (apply Target_init_iff; repeat split; auto; lia).
  unfold SSHRouter.get_target, try_except. rewrite Hen. cbn [negb].
  unfold bind at 1. unfold lift at 1. rewrite Ht.
  unfold bind at 1.
  destruct (_validate_target_clear _ _ _ _ w Ht) as [l ->].
  destruct (SpecOps.clear _ _); cbn [negb andb];
    [|eexists; split; reflexivity].
  unfold bind at 1. unfold log_connection_success at 1, emit at 1.
  unfold bind at 1.
  unfold SSHRouter._log_connection_event, try_except.
  unfold bind at 1. unfold ret at 1. unfold bind at 1.
  match goal with |- context [Db.log_connection_event ?ev ?w0] =>
    destruct (log_connection_event_world ev w0) as (w' & -> & Hdb) end.
  cbn [database set_logger] in Hdb.
  eexists. split; [reflexivity|]. cbn [database set_logger]. exact Hdb.
Qed.

End RouteFacts.

Section RouteTheorems.

(** X10.  [get_target] returns a target exactly when the binding is
    enabled, its host and user are not empty, its port is between 1 and
    65535, and for every configured restricted network the host parses as
    an address, the entry parses as a network, and the network does not
    contain the address.  The target returned carries the binding's host,
    port and user. *)
Theorem get_target_accepts_iff {parser : Ipaddress.Parser}
    (config : Config.t) (k : SSHKey.t)
    (username source_ip : string) (w : World) (t : Target.t) :
  fst (SSHRouter.get_target config (Some k) username source_ip w) = Ok (Some t) <->
  SSHKey.enabled k = true /\
  t = SpecOps.target_of k /\
  SSHKey.target_host k <> "" /\ SSHKey.target_user k <> "" /\
  1 <= SSHKey.target_port k <= 65535 /\
  SpecOps.clear_of (SSHKey.target_host k) (Config.RESTRICTED_NETWORKS config).
Proof.
  rewrite get_target_route. unfold SpecOps.route.
  destruct (SSHKey.enabled k); [|split; [discriminate|intros ([=] & _)]].
  destruct (Target.init _ _ _) as [t'|e] eqn:Ht.
  - apply Target_init_iff in Ht as (-> & Hh & Hu & Hp). cbn [Target.host].
    destruct (SpecOps.clear _ _) eqn:Hc.
    + apply clear_iff in Hc. split.
      * intros [= <-]. repeat split; auto; lia.
      * intros (_ & -> & _). reflexivity.
    + split; [discriminate|]. intros (_ & _ & _ & _ & _ & Hcl).
      apply clear_iff in Hcl. congruence.
  - split; [discriminate|]. intros (_ & _ & Hh & Hu & Hp).
    assert (Hok : Target.init (SSHKey.target_host k) (SSHKey.target_port k)
                    (SSHKey.target_user k) = Ok (SpecOps.target_of k))
      by (apply Target_init_iff; repeat split; auto; lia).
    congruence.
Qed.

(** X11.  [get_target] never raises, and its answer depends on the
    binding and the configuration only: the state of the catalog (which
    may be unavailable when the event is recorded), the log, the presented
    username and the source address do not change it. *)
Theorem get_target_depends_on_binding_only {parser : Ipaddress.Parser}
    (config : Config.t)
    (ssh_key : option SSHKey.t) (username username' source_ip source_ip' : string)
    (w w' : World) :
  exists answer : option Target.t,
    fst (SSHRouter.get_target config ssh_key username source_ip w) = Ok answer /\
    fst (SSHRouter.get_target config ssh_key username' source_ip' w') = Ok answer.
Proof.
  exists (SpecOps.route config ssh_key). split; apply get_target_route.
Qed.



(** X13.  A binding that [authenticate_key] returns passes the checks of
    its constructor and is enabled.  Routing it never takes the
    exception path: [get_target] returns the binding's target when the
    host is clear of every restricted network and [None] otherwise, and
    any event that it adds to the audit log has the status "success". *)
Theorem authenticated_binding_routes_without_error {parser : Ipaddress.Parser}
    (config : Config.t)
    (username : string) (key : PKey) (source_ip : string) (w w1 : World)
    (k : SSHKey.t) :
  SSHKeyAuth.authenticate_key username key source_ip w = (Ok (true, Some k), w1) ->
  SpecOps.well_formed k /\ SSHKey.enabled k = true /\
  (SpecOps.clear_of (SSHKey.target_host k) (Config.RESTRICTED_NETWORKS config) ->
   fst (SSHRouter.get_target config (Some k) username source_ip w1)
   = Ok (Some (SpecOps.target_of k))) /\
  (~ SpecOps.clear_of (SSHKey.target_host k) (Config.RESTRICTED_NETWORKS config) ->
   fst (SSHRouter.get_target config (Some k) username source_ip w1) = Ok None) /\
  exists new,
    connection_logs (database (snd (SSHRouter.get_target config (Some k) username
                                      source_ip w1)))
    = (connection_logs (database w1) ++ new)%list /\
    Forall (fun ev => ConnectionEvent.status ev = "success") new.
Proof.
  intros Hauth.
  assert (Hd : Spec.decision key (database w) = (true, Some k)).
  { pose proof (authenticate_key_fst username key source_ip w) as H.
    rewrite Hauth in H. cbn [fst] in H. congruence. }
  apply decision_accepts in Hd as (blob & _ & Hf).
  apply find_well_formed in Hf as (Hwf & Hen & _).
  pose proof Hwf as (_ & Hh & Hu & Hp).
  destruct (get_target_world config k username source_ip w1 Hen Hh Hu Hp)
    as (w' & Hg & Hdb).
  cbn zeta in Hg, Hdb. rewrite Hg. cbn [fst snd]. rewrite Hdb.
  split; [exact Hwf|split; [exact Hen|]].
  destruct (SpecOps.clear _ _) eqn:Hc; cbn [andb].
  - split; [reflexivity|]. split; [intros Hn; apply clear_iff in Hc; contradiction|].
    destruct (SpecOps.available (database w1)).
    + eexists [_]. split; [reflexivity|]. repeat constructor.
    + exists []. split; [now rewrite app_nil_r|constructor].
  - split; [intros Hcl; apply clear_iff in Hcl; congruence|].
    split; [reflexivity|]. exists []. split; [now rewrite app_nil_r|constructor].
Qed.

Lemma authenticated_binding_routes_without_error_scenario :
  SpecOps.well_formed (Examples.binding Examples.fp_abc "10.0.0.5").
Proof.
  apply (@authenticated_binding_routes_without_error Ipaddress.ipv4
           Examples.default_config "alice" Examples.key_abc Examples.client_ip
           (Examples.world_of
              (Examples.database_of [Examples.row Examples.fp_abc "10.0.0.5" 1]))
           (snd (SSHKeyAuth.authenticate_key "alice" Examples.key_abc Examples.client_ip
                   (Examples.world_of
                      (Examples.database_of [Examples.row Examples.fp_abc "10.0.0.5" 1]))))
           (Examples.binding Examples.fp_abc "10.0.0.5")).
  vm_compute. reflexivity.
Defined.

(** X14.  [get_target_by_fingerprint] does not apply the network
    restriction: for a binding in the catalog whose host lies inside a
    restricted network it returns the target, where [get_target] on the
    same binding returns [None]. *)
Theorem get_target_by_fingerprint_skips_restrictions {parser : Ipaddress.Parser}
    (config : Config.t)
    (fp username source_ip : string) (w : World) (k : SSHKey.t)
    (a : Ipaddress.address) (host : string) (n : Ipaddress.network) :
  fst (Db.find_ssh_key fp w) = Ok (Some k) ->
  Ipaddress.ip_address (SSHKey.target_host k) = Ok a ->
  In host (Config.RESTRICTED_NETWORKS config) ->
  Ipaddress.ip_network host = Ok n ->
  Ipaddress.contains n a = true ->
  fst (RouterOps.get_target_by_fingerprint fp w) = Ok (Some (SpecOps.target_of k)) /\
  fst (SSHRouter.get_target config (Some k) username source_ip w) = Ok None.
Proof.
  intros Hf Ha Hin Hn Hc. split.
  - unfold RouterOps.get_target_by_fingerprint, try_except.
    destruct (get_target_for_key_spec fp w) as [l ->].
    rewrite find_fst in Hf. injection Hf as ->. reflexivity.
  - apply get_target_of_rejected. intros t w1 Hhost.
    apply (_validate_target_rejects config t a host n w1); [now rewrite Hhost|auto..].
Qed.

Lemma get_target_by_fingerprint_skips_restrictions_scenario :
  let w := Examples.world_of
             (Examples.database_of [Examples.row Examples.fp_abc "10.10.254.42" 1]) in
  fst (RouterOps.get_target_by_fingerprint Examples.fp_abc w)
  = Ok (Some (SpecOps.target_of (Examples.binding Examples.fp_abc "10.10.254.42"))) /\
  fst (@SSHRouter.get_target Ipaddress.ipv4 Examples.default_config
         (Some (Examples.binding Examples.fp_abc "10.10.254.42")) "alice"
         Examples.client_ip w) = Ok None.
Proof.
  apply (@get_target_by_fingerprint_skips_restrictions Ipaddress.ipv4
           Examples.default_config Examples.fp_abc "alice" Examples.client_ip
           (Examples.world_of
              (Examples.database_of [Examples.row Examples.fp_abc "10.10.254.42" 1]))
           (Examples.binding Examples.fp_abc "10.10.254.42")
           {| Ipaddress.version := 4; Ipaddress.ip := 0x0a0afe2a |}
           "10.10.254.0/24"
           {| Ipaddress.net_version := 4; Ipaddress.network_address := 0x0a0afe00;
              Ipaddress.netmask := 0xffffff00 |}).
  - vm_compute. reflexivity.
  - vm_compute. reflexivity.
  - vm_compute. left. reflexivity.
  - vm_compute. reflexivity.
  - vm_compute. reflexivity.
Defined.

End RouteTheorems.

(* ===================================================================== *)
(** * Further properties: the relay                                       *)
(* ===================================================================== *)

Section RelayFacts.

Import SSHProxy.

Variables (s d : Handle) (relay_id : string).
Hypothesis s_ne_d : s <> d.

Lemma get_channel_some (h : Handle) (c : Channel) (w : World) :
  channels w !! h = Some c -> get_channel h w = (Ok c, w).
Proof. unfold get_channel. now intros ->. Qed.

Lemma turn_relation_refl (cs cd : Channel) : SpecOps.turn_relation cs cd cs cd [] [].
Proof. unfold SpecOps.turn_relation. rewrite app_nil_r. repeat split; reflexivity. Qed.

Lemma relay_turn_spec (w : World) (cs cd : Channel) :
  channels w !! s = Some cs -> channels w !! d = Some cd ->
  exists t w' cs' cd' frame delivered,
    relay_turn s d relay_id w = (Ok t, w') /\
    channels w' !! s = Some cs' /\ channels w' !! d = Some cd' /\
    SpecOps.turn_relation cs cd cs' cd' frame delivered.
Proof.
  intros Hs Hd. unfold relay_turn, is_closed, select.
  unfold bind at 1. unfold bind at 1. rewrite (get_channel_some _ _ _ Hs).
  unfold ret at 1. unfold bind at 1. unfold bind at 1.
  rewrite (get_channel_some _ _ _ Hd). unfold ret at 1.
  destruct (closed cs || closed cd) eqn:Hcl.
  { eexists _, _, cs, cd, [], []. split; [reflexivity|].
    split; [exact Hs|split; [exact Hd|apply turn_relation_refl]]. }
  apply orb_false_elim in Hcl as [Hcs Hcd].
  unfold bind at 1. unfold bind at 1. rewrite (get_channel_some _ _ _ Hs).
  unfold ret at 1.
  match goal with |- context [if ?b then _ else _] => destruct b end;
    [|eexists _, _, cs, cd, [], []; (split; [reflexivity|]);
      split; [exact Hs|split; [exact Hd|apply turn_relation_refl]]].
  unfold try_except, recv. unfold bind at 1. unfold bind at 1.
  rewrite (get_channel_some _ _ _ Hs).
  destruct (recv_fault cs) as [e|].
  { eexists _, _, cs, cd, [], []. split; [reflexivity|].
    split; [exact Hs|split; [exact Hd|apply turn_relation_refl]]. }
  unfold bind at 1. unfold set_channel at 1. unfold ret at 1.
  set (cs1 := {| closed := closed cs; in_buffer := skipn buffer_size (in_buffer cs);
                 eof_received := eof_received cs; recv_fault := None;
                 send_window := send_window cs; send_fault := send_fault cs;
                 sent := sent cs |}).
  set (w1 := set_channels (<[s:=cs1]> (channels w)) w).
  assert (Hs1 : channels w1 !! s = Some cs1) by apply lookup_insert_eq.
  assert (Hd1 : channels w1 !! d = Some cd)
    by (subst w1; cbn; rewrite lookup_insert_ne; auto).
  destruct (firstn buffer_size (in_buffer cs)) as [|b data] eqn:Hdata.
  { eexists _, _, cs1, cd, [], []. split; [reflexivity|].
    split; [exact Hs1|split; [exact Hd1|]].
    unfold SpecOps.turn_relation. subst cs1. cbn [in_buffer sent app].
    rewrite app_nil_r. repeat split; try reflexivity.
    rewrite <- (firstn_skipn buffer_size (in_buffer cs)) at 1. now rewrite Hdata. }
  unfold send. unfold bind at 1. unfold bind at 1.
  rewrite (get_channel_some _ _ _ Hd1). rewrite Hcd.
  assert (Hframe : in_buffer cs = ((b :: data) ++ in_buffer cs1)%list).
  { rewrite <- Hdata. subst cs1. cbn. now rewrite firstn_skipn. }
  destruct (send_fault cd) as [e|].
  { eexists _, _, cs1, cd, (b :: data), []. split; [reflexivity|].
    split; [exact Hs1|split; [exact Hd1|]].
    unfold SpecOps.turn_relation. rewrite app_nil_r.
    repeat split; [exact Hframe|apply sublist_nil_l]. }
  unfold bind at 1. unfold set_channel at 1. unfold ret.
  match goal with |- context [<[d:=?c]> (channels w1)] => set (cd1 := c) end.
  eexists _, _, cs1, cd1, (b :: data), _. split; [reflexivity|].
  split; [cbn; rewrite lookup_insert_ne; auto|].
  split; [cbn; apply lookup_insert_eq|].
  unfold SpecOps.turn_relation. subst cd1. cbn [sent in_buffer].
  repeat split; [exact Hframe|apply sublist_take].
Qed.

Lemma turn_relation_trans (c1 c2 c3 e1 e2 e3 : Channel) (f1 f2 d1 d2 : list byte) :
  SpecOps.turn_relation c1 e1 c2 e2 f1 d1 -> SpecOps.turn_relation c2 e2 c3 e3 f2 d2 ->
  SpecOps.turn_relation c1 e1 c3 e3 (f1 ++ f2) (d1 ++ d2).
Proof.
  intros (H1 & H2 & H3 & H4 & H5) (H6 & H7 & H8 & H9 & H10).
  unfold SpecOps.turn_relation. rewrite H1, H6, H7, H2, H9, H4, H10, H5, !app_assoc.
  repeat split. now apply sublist_app.
Qed.

Lemma relay_loop_spec (fuel : nat) (w : World) (cs cd : Channel) :
  channels w !! s = Some cs -> channels w !! d = Some cd ->
  exists r w' cs' cd' consumed delivered,
    relay_loop fuel s d relay_id w = (Ok r, w') /\
    channels w' !! s = Some cs' /\ channels w' !! d = Some cd' /\
    SpecOps.turn_relation cs cd cs' cd' consumed delivered.
Proof.
  revert w cs cd. induction fuel as [|fuel IH]; intros w cs cd Hs Hd.
  - eexists _, _, cs, cd, [], []. split; [reflexivity|].
    split; [exact Hs|split; [exact Hd|apply turn_relation_refl]].
  - cbn [relay_loop]. unfold bind.
    destruct (relay_turn_spec w cs cd Hs Hd)
      as (t & w1 & cs1 & cd1 & f1 & d1 & -> & Hs1 & Hd1 & Hr1).
    destruct t.
    + eexists _, _, cs1, cd1, f1, d1. split; [reflexivity|]. auto.
    + destruct (IH w1 cs1 cd1 Hs1 Hd1)
        as (r & w2 & cs2 & cd2 & f2 & d2 & -> & Hs2 & Hd2 & Hr2).
      eexists _, _, cs2, cd2, _, _. split; [reflexivity|].
      split; [exact Hs2|split; [exact Hd2|]].
      eapply turn_relation_trans; eauto.
Qed.

Lemma buffer_size_pos : (0 < buffer_size)%nat.
Proof. unfold buffer_size. lia. Qed.

(** One turn on a clean path: at the end of the stream the loop leaves;
    otherwise the frame at the front of the buffer moves whole. *)
Lemma relay_turn_clean (w : World) (cs cd : Channel) :
  channels w !! s = Some cs -> channels w !! d = Some cd ->
  SpecOps.clean_path cs cd ->
  exists t w' cs' cd',
    relay_turn s d relay_id w = (Ok t, w') /\
    channels w' !! s = Some cs' /\ channels w' !! d = Some cd' /\
    logger w' = logger w /\
    SpecOps.clean_path cs' cd' /\
    in_buffer cs' = skipn buffer_size (in_buffer cs) /\
    sent cd' = (sent cd ++ firstn buffer_size (in_buffer cs))%list /\
    (t = Break <-> in_buffer cs = []).
Proof.
  intros Hs Hd (Hcs & Hcd & Heof & Hrf & Hsf & Hwin).
  unfold relay_turn, is_closed, select.
  unfold bind at 1. unfold bind at 1. rewrite (get_channel_some _ _ _ Hs).
  unfold ret at 1. unfold bind at 1. unfold bind at 1.
  rewrite (get_channel_some _ _ _ Hd). unfold ret at 1.
  rewrite Hcs, Hcd. cbn [orb].
  unfold bind at 1. unfold bind at 1. rewrite (get_channel_some _ _ _ Hs).
  unfold ret at 1. rewrite Heof, Hcs. cbn [orb].
  assert (Hready : match in_buffer cs with [] => true | _ :: _ => true end = true)
    by (destruct (in_buffer cs); reflexivity).
  rewrite Hready. clear Hready.
  unfold try_except, recv. unfold bind at 1. unfold bind at 1.
  rewrite (get_channel_some _ _ _ Hs). rewrite Hrf.
  unfold bind at 1. unfold set_channel at 1. unfold ret at 1.
  set (cs1 := {| closed := closed cs; in_buffer := skipn buffer_size (in_buffer cs);
                 eof_received := eof_received cs; recv_fault := None;
                 send_window := send_window cs; send_fault := send_fault cs;
                 sent := sent cs |}).
  set (w1 := set_channels (<[s:=cs1]> (channels w)) w).
  assert (Hs1 : channels w1 !! s = Some cs1) by apply lookup_insert_eq.
  assert (Hd1 : channels w1 !! d = Some cd)
    by (subst w1; cbn; rewrite lookup_insert_ne; auto).
  assert (Hclean1 : forall cd', closed cd' = false -> send_fault cd' = None ->
                                send_window cd' = [] -> SpecOps.clean_path cs1 cd')
    by (intros cd' ? ? ?; subst cs1; unfold SpecOps.clean_path; cbn; auto 10).
  destruct (firstn buffer_size (in_buffer cs)) as [|b data] eqn:Hdata.
  { eexists Break, w1, cs1, cd. split; [reflexivity|].
    split; [exact Hs1|split; [exact Hd1|]].
    split; [reflexivity|split; [auto|]].
    split; [reflexivity|split; [now rewrite app_nil_r|]].
    split; [intros _|reflexivity].
    destruct (in_buffer cs) as [|x l]; [reflexivity|].
    pose proof buffer_size_pos. destruct buffer_size; [lia|discriminate]. }
  unfold send. unfold bind at 1. unfold bind at 1.
  rewrite (get_channel_some _ _ _ Hd1). rewrite Hcd, Hsf, Hwin.
  unfold bind at 1. unfold set_channel at 1. unfold ret.
  match goal with |- context [<[d:=?c]> (channels w1)] => set (cd1 := c) end.
  eexists Continue, _, cs1, cd1. split; [reflexivity|].
  split; [cbn; rewrite lookup_insert_ne; auto|].
  split; [cbn; apply lookup_insert_eq|].
  split; [reflexivity|].
  split; [apply Hclean1; subst cd1; cbn; auto|].
  split; [reflexivity|].
  split; [subst cd1; cbn [sent]; now rewrite firstn_all|].
  split; [discriminate|]. intros Hnil. rewrite Hnil in Hdata.
  destruct buffer_size; discriminate.
Qed.

Lemma relay_loop_clean (fuel : nat) (w : World) (cs cd : Channel) :
  channels w !! s = Some cs -> channels w !! d = Some cd ->
  SpecOps.clean_path cs cd ->
  (length (in_buffer cs) < fuel)%nat ->
  exists w' cs' cd',
    relay_loop fuel s d relay_id w = (Ok (Some tt), w') /\
    channels w' !! s = Some cs' /\ channels w' !! d = Some cd' /\
    logger w' = logger w /\
    in_buffer cs' = [] /\
    sent cd' = (sent cd ++ in_buffer cs)%list.
Proof.
  revert w cs cd. induction fuel as [|fuel IH]; intros w cs cd Hs Hd Hc Hlen; [lia|].
  cbn [relay_loop]. unfold bind.
  destruct (relay_turn_clean w cs cd Hs Hd Hc)
    as (t & w1 & cs1 & cd1 & -> & Hs1 & Hd1 & Hl1 & Hc1 & Hb1 & Hsent1 & Hbreak).
  destruct t.
  - assert (Hnil : in_buffer cs = []) by now apply Hbreak.
    exists w1, cs1, cd1. split; [reflexivity|].
    repeat split; auto.
    + rewrite Hb1, Hnil. now destruct buffer_size.
    + rewrite Hsent1, Hnil. now destruct buffer_size.
  - assert (Hne : in_buffer cs <> [])
      by (intros Hnil; apply Hbreak in Hnil; discriminate).
    assert (Hlen1 : (length (in_buffer cs1) < fuel)%nat).
    { rewrite Hb1, length_skipn. pose proof buffer_size_pos.
      destruct (in_buffer cs); [congruence|]. cbn [length] in *. lia. }
    destruct (IH w1 cs1 cd1 Hs1 Hd1 Hc1 Hlen1)
      as (w2 & cs2 & cd2 & -> & Hs2 & Hd2 & Hl2 & Hb2 & Hsent2).
    exists w2, cs2, cd2. split; [reflexivity|].
    repeat split; auto; [congruence|].
    rewrite Hsent2, Hsent1, Hb1, <- app_assoc. now rewrite firstn_skipn.
Qed.

End RelayFacts.

Section RelayTheorems.

Import SSHProxy.

(** X15.  One relay direction never raises, and whatever the channels
    do (faults, closes, short windows), the bytes that it hands to the
    destination are bytes that it took from the front of the source's
    buffer, in their order and each at most once.  It does not touch
    the destination's own incoming bytes nor what the source has been
    sent. *)
Theorem relay_never_reorders_or_duplicates (fuel : nat) (s d : Handle)
    (relay_id : string) (w : World) (cs cd : Channel) :
  s <> d ->
  channels w !! s = Some cs ->
  channels w !! d = Some cd ->
  exists r w' cs' cd' consumed delivered,
    _relay_data fuel s d relay_id w = (Ok r, w') /\
    channels w' !! s = Some cs' /\ channels w' !! d = Some cd' /\
    in_buffer cs = (consumed ++ in_buffer cs')%list /\
    sent cd' = (sent cd ++ delivered)%list /\
    delivered `sublist_of` consumed /\
    in_buffer cd' = in_buffer cd /\ sent cs' = sent cs.
Proof.
  intros Hne Hs Hd. unfold _relay_data, try_except.
  unfold bind at 1.
  destruct (relay_loop_spec s d relay_id Hne fuel w cs cd Hs Hd)
    as (r & w' & cs' & cd' & f & dl & -> & Hs' & Hd' & Hr).
  destruct r as [[]|]; eexists _, _, cs', cd', f, dl; (split; [reflexivity|]); auto.
Qed.

Lemma relay_never_reorders_or_duplicates_scenario :
  let source := Scenarios.source_channel false [x01; x02; x03] in
  let dest := Scenarios.dest_channel [2%nat] [] in
  exists r w' cs' cd' consumed delivered,
    _relay_data 3 1%nat 2%nat "c2t" (Scenarios.relay_world source dest) = (Ok r, w') /\
    channels w' !! 1%nat = Some cs' /\ channels w' !! 2%nat = Some cd' /\
    in_buffer source = (consumed ++ in_buffer cs')%list /\
    sent cd' = (sent dest ++ delivered)%list /\
    delivered `sublist_of` consumed /\
    in_buffer cd' = in_buffer dest /\ sent cs' = sent source.
Proof.
  apply (relay_never_reorders_or_duplicates 3 1%nat 2%nat "c2t"
           (Scenarios.relay_world (Scenarios.source_channel false [x01; x02; x03])
              (Scenarios.dest_channel [2%nat] []))
           (Scenarios.source_channel false [x01; x02; x03])
           (Scenarios.dest_channel [2%nat] [])).
  - discriminate.
  - reflexivity.
  - reflexivity.
Defined.

(** X16.  On a direction where nothing goes wrong (both channels open,
    the source at its end of stream, no fault, a destination window that
    takes every frame whole), the relay leaves by itself within one
    turn per buffered byte plus one, and by then the destination has
    been sent the whole of the source's buffer, in order, after what it
    had before; the source's buffer is empty and the only log line is
    the one of the exit. *)
Theorem relay_delivers_whole_stream_on_clean_path (fuel : nat) (s d : Handle)
    (relay_id : string) (w : World) (cs cd : Channel) :
  s <> d ->
  channels w !! s = Some cs ->
  channels w !! d = Some cd ->
  SpecOps.clean_path cs cd ->
  (length (in_buffer cs) < fuel)%nat ->
  exists w' cs' cd',
    _relay_data fuel s d relay_id w = (Ok (Some tt), w') /\
    channels w' !! s = Some cs' /\ channels w' !! d = Some cd' /\
    in_buffer cs' = [] /\
    sent cd' = (sent cd ++ in_buffer cs)%list /\
    logger w' = (logger w ++ [Message DEBUG ("Relay " +:+ relay_id +:+ " terminated")])%list.
Proof.
  intros Hne Hs Hd Hc Hlen. unfold _relay_data, try_except.
  unfold bind at 1.
  destruct (relay_loop_clean s d relay_id Hne fuel w cs cd Hs Hd Hc Hlen)
    as (w' & cs' & cd' & -> & Hs' & Hd' & Hl & Hb & Hsent).
  eexists _, cs', cd'. split; [reflexivity|].
  cbn. rewrite Hl. auto.
Qed.

Lemma relay_delivers_whole_stream_on_clean_path_scenario :
  let source := Scenarios.source_channel false [x01; x02; x03] in
  let dest := Scenarios.dest_channel [] [x00] in
  let w := Scenarios.relay_world source dest in
  exists w' cs' cd',
    _relay_data 4 1%nat 2%nat "c2t" w = (Ok (Some tt), w') /\
    channels w' !! 1%nat = Some cs' /\ channels w' !! 2%nat = Some cd' /\
    in_buffer cs' = [] /\
    sent cd' = (sent dest ++ in_buffer source)%list /\
    logger w' = (logger w ++ [Message DEBUG ("Relay " +:+ "c2t" +:+ " terminated")])%list.
Proof.
  apply (relay_delivers_whole_stream_on_clean_path 4 1%nat 2%nat "c2t"
           (Scenarios.relay_world (Scenarios.source_channel false [x01; x02; x03])
              (Scenarios.dest_channel [] [x00]))
           (Scenarios.source_channel false [x01; x02; x03])
           (Scenarios.dest_channel [] [x00])).
  - discriminate.
  - reflexivity.
  - reflexivity.
  - repeat split.
  - cbn. lia.
Defined.

(** X17.  When the source or the destination is already closed the
    relay leaves at once: it reads nothing and sends nothing, so that
    bytes still waiting in the source's buffer are not relayed. *)
Theorem relay_on_closed_channel_moves_nothing (fuel : nat) (s d : Handle)
    (relay_id : string) (w : World) (cs cd : Channel) :
  channels w !! s = Some cs ->
  channels w !! d = Some cd ->
  closed cs || closed cd = true ->
  _relay_data (S fuel) s d relay_id w
  = (Ok (Some tt),
     set_logger (logger w ++ [Message DEBUG ("Relay " +:+ relay_id +:+ " terminated")]) w).
Proof.
  intros Hs Hd Hcl. unfold _relay_data, try_except. cbn [relay_loop].
  unfold relay_turn, is_closed.
  unfold bind at 1. unfold bind at 1. unfold bind at 1. unfold bind at 1.
  rewrite (get_channel_some _ _ _ Hs). unfold ret at 1.
  unfold bind at 1. unfold bind at 1. rewrite (get_channel_some _ _ _ Hd).
  unfold ret at 1. rewrite Hcl. reflexivity.
Qed.

Lemma relay_on_closed_channel_moves_nothing_scenario :
  let w := Scenarios.relay_world (Scenarios.source_channel true [x01; x02; x03])
             (Scenarios.dest_channel [] []) in
  _relay_data 1 1%nat 2%nat "c2t" w
  = (Ok (Some tt),
     set_logger (logger w ++ [Message DEBUG ("Relay " +:+ "c2t" +:+ " terminated")]) w).
Proof.
  apply (relay_on_closed_channel_moves_nothing 0 1%nat 2%nat "c2t"
           (Scenarios.relay_world (Scenarios.source_channel true [x01; x02; x03])
              (Scenarios.dest_channel [] []))
           (Scenarios.source_channel true [x01; x02; x03])
           (Scenarios.dest_channel [] [])).
  - reflexivity.
  - reflexivity.
  - reflexivity.
Defined.

End RelayTheorems.

(* ===================================================================== *)
(** * Further properties: sessions and fingerprints                       *)
(* ===================================================================== *)

Section SessionFacts.

Import SSHProxy ProxyOps.

(** What [close_handle] does to the parts of the world other than the
    channels. *)
Lemma close_handle_world (h : Handle) (w : World) :
  exists r w', close_handle h w = (r, w') /\
               close_calls w' = (close_calls w ++ [h])%list /\
               active_connections w' = active_connections w /\
               logger w' = logger w /\ database w' = database w.
Proof.
  unfold close_handle. destruct (close_fault w !! h); [eexists _, _; repeat split|].
  destruct (channels w !! h); eexists _, _; repeat split.
Qed.

(** [setup_proxy_session], by the answers of the target side. *)
Lemma setup_proxy_session_spec (out : Outbound) (cc : Handle) (target : Target.t)
    (ip fp : string) (w : World) :
  exists ok w',
    setup_proxy_session out cc target ip fp w = (Ok ok, w') /\
    database w' = database w /\
    match connect out with
    | Raise _ =>
        ok = false /\ active_connections w' = active_connections w /\
        close_calls w' = close_calls w
    | Ok ssh =>
        if has_transport out then
          match open_channel out with
          | Ok (Some tc) =>
              ok = true /\
              active_connections w'
              = <[connection_id ip fp := conn_info cc ssh tc target ip fp]>
                  (active_connections w) /\
              close_calls w' = close_calls w
          | Ok None =>
              ok = false /\ active_connections w' = active_connections w /\
              close_calls w' = (close_calls w ++ [ssh])%list
          | Raise _ =>
              ok = false /\ active_connections w' = active_connections w /\
              close_calls w' = close_calls w
          end
        else
          ok = false /\ active_connections w' = active_connections w /\
          close_calls w' = (close_calls w ++ [ssh])%list
    end.
Proof.
  unfold setup_proxy_session, create_outbound_connection, try_except.
  unfold bind at 1. unfold bind at 1. unfold lift at 1.
  destruct (connect out) as [ssh|e]; [|eexists _, _; repeat split].
  unfold bind at 1. unfold logger_info at 1, emit at 1. unfold ret at 1.
  destruct (has_transport out); cbn [negb].
  - unfold bind at 1. unfold lift at 1.
    destruct (open_channel out) as [[tc|]|e].
    + eexists _, _. split; [reflexivity|]. repeat split.
    + unfold bind at 1. unfold logger_error at 1, emit at 1. unfold bind at 1.
      match goal with |- context [close_handle ssh ?w0] =>
        destruct (close_handle_world ssh w0) as ([[]|e] & w' & -> & Hc & Ha & Hl & Hd) end;
        eexists _, _; (split; [reflexivity|]); cbn [database set_logger] in *;
        repeat split; auto.
    + eexists _, _. split; [reflexivity|]. repeat split.
  - unfold bind at 1. unfold logger_error at 1, emit at 1. unfold bind at 1.
    match goal with |- context [close_handle ssh ?w0] =>
      destruct (close_handle_world ssh w0) as ([[]|e] & w' & -> & Hc & Ha & Hl & Hd) end;
      eexists _, _; (split; [reflexivity|]); cbn [database set_logger] in *;
      repeat split; auto.
Qed.

End SessionFacts.

Section SessionTheorems.

Import SSHProxy ProxyOps.

(** X18.  [setup_proxy_session] never raises.  It returns [True] exactly
    when the outbound connection is made, has a transport and opens a
    session channel, and then the registry has the session under its
    connection id with the three handles.  In every other case the
    registry is as before; the outbound client is closed when the
    transport is missing or no channel was given, and left open when
    opening the channel raised. *)
Theorem setup_proxy_session_registers_iff_dialled (out : Outbound) (client_channel : Handle)
    (target : Target.t) (source_ip fingerprint : string) (w : World) :
  exists (ok : bool) (w' : World),
    setup_proxy_session out client_channel target source_ip fingerprint w = (Ok ok, w') /\
    (ok = true <->
     exists ssh tc, connect out = Ok ssh /\ has_transport out = true /\
                    open_channel out = Ok (Some tc)) /\
    (forall ssh tc, connect out = Ok ssh -> has_transport out = true ->
                    open_channel out = Ok (Some tc) ->
       active_connections w'
       = <[connection_id source_ip fingerprint :=
             conn_info client_channel ssh tc target source_ip fingerprint]>
           (active_connections w)) /\
    (ok = false -> active_connections w' = active_connections w) /\
    (forall ssh, connect out = Ok ssh ->
       close_calls w'
       = (close_calls w
          ++ match has_transport out, open_channel out with
             | false, _ | true, Ok None => [ssh]
             | true, _ => []
             end)%list).
Proof.
  destruct (setup_proxy_session_spec out client_channel target source_ip fingerprint w)
    as (ok & w' & -> & _ & H).
  exists ok, w'. split; [reflexivity|].
  destruct (connect out) as [ssh|e].
  - destruct (has_transport out).
    + destruct (open_channel out) as [[tc|]|e]; destruct H as (-> & Ha & Hc).
      * repeat split; eauto.
        -- intros ? ? [= <-] _ [= <-]. exact Ha.
        -- discriminate.
        -- intros ? [= <-]. now rewrite app_nil_r.
      * repeat split; try discriminate; auto.
        -- intros (? & ? & _ & _ & [=]).
        -- intros ? [= <-]. exact Hc.
      * repeat split; try discriminate; auto.
        -- intros (? & ? & _ & _ & [=]).
        -- intros ? [= <-]. now rewrite app_nil_r.
    + destruct H as (-> & Ha & Hc).
      repeat split; try discriminate; auto.
      * intros (? & ? & _ & [=] & _).
      * intros ? [= <-]. exact Hc.
  - destruct H as (-> & Ha & Hc). repeat split; try discriminate; auto.
    intros (? & ? & [=] & _).
Qed.

(** X19.  The connection id keeps the source address and the first
    eight characters of the fingerprint.  Two sessions registered on one
    proxy from the same address with fingerprints that agree on these
    characters (the same key connecting twice, for one) share one entry:
    the second replaces the first, and a teardown of the id closes the
    handles of the second session only. *)
Theorem sessions_with_one_id_share_an_entry (c1 s1 t1 c2 s2 t2 : Handle)
    (target1 target2 : Target.t) (ip fp1 fp2 : string) (w : World) :
  Py.slice_to 8 fp1 = Py.slice_to 8 fp2 ->
  let w1 := snd (register c1 s1 t1 target1 ip fp1 w) in
  let w2 := snd (register c2 s2 t2 target2 ip fp2 w1) in
  let w3 := snd (_cleanup_connection (connection_id ip fp1) w2) in
  active_connections w2
  = <[connection_id ip fp2 := conn_info c2 s2 t2 target2 ip fp2]> (active_connections w) /\
  close_calls w3 = (close_calls w ++ [c2; t2; s2])%list.
Proof.
  intros Hpre w1 w2 w3.
  assert (Hid : connection_id ip fp1 = connection_id ip fp2)
    by (unfold connection_id; now rewrite Hpre).
  assert (Hreg : active_connections w2
                 = <[connection_id ip fp2 := conn_info c2 s2 t2 target2 ip fp2]>
                     (active_connections w)).
  { subst w2 w1. unfold register. cbn. rewrite Hid. apply insert_insert_eq. }
  split; [exact Hreg|].
  assert (Hl : active_connections w2 !! connection_id ip fp1
               = Some (conn_info c2 s2 t2 target2 ip fp2))
    by (rewrite Hreg, Hid; apply lookup_insert_eq).
  destruct (_cleanup_connection_registered _ _ _ _ _ _ _ _ Hl)
    as (w' & Hc & Hcalls & _).
  subst w3. rewrite Hc. cbn [snd]. rewrite Hcalls. reflexivity.
Qed.

Lemma sessions_with_one_id_share_an_entry_same_key :
  let target := Target.Build "10.0.0.5" 22 "ubuntu" in
  let w := Examples.world_of Examples.empty_database in
  let w1 := snd (register 1%nat 2%nat 3%nat target Examples.client_ip Examples.fp_abc w) in
  let w2 := snd (register 4%nat 5%nat 6%nat target Examples.client_ip Examples.fp_abc w1) in
  let w3 := snd (_cleanup_connection (connection_id Examples.client_ip Examples.fp_abc) w2) in
  active_connections w2
  = <[connection_id Examples.client_ip Examples.fp_abc :=
        conn_info 4%nat 5%nat 6%nat target Examples.client_ip Examples.fp_abc]>
      (active_connections w) /\
  close_calls w3 = (close_calls w ++ [4%nat; 6%nat; 5%nat])%list.
Proof.
  apply (sessions_with_one_id_share_an_entry 1%nat 2%nat 3%nat 4%nat 5%nat 6%nat
           (Target.Build "10.0.0.5" 22 "ubuntu") (Target.Build "10.0.0.5" 22 "ubuntu")
           Examples.client_ip Examples.fp_abc Examples.fp_abc
           (Examples.world_of Examples.empty_database)).
  reflexivity.
Defined.

End SessionTheorems.

Section FingerprintShape.

Import Hashlib.








End FingerprintShape.

Section FingerprintTheorems.



End FingerprintTheorems.

(* ===================================================================== *)
(** * Further properties: the connection handler                          *)
(* ===================================================================== *)

Section HandlerFacts.

Import SSHProxy ProxyOps ServerOps.

Context {parser : Ipaddress.Parser}.
Variable config : Config.t.
Variable MAX_CONNECTIONS_PER_IP : Z.
Variable decode : list byte -> string.

Lemma session_target_spec (key : option SSHKey.t) (u ip : string) (w : World) :
  exists l db',
    BastionSSHServer.session_target config key u ip w
    = (Ok (SpecOps.route config key), SpecOps.with_log_db l db' w) /\
    SpecOps.extends (database w) db'.
Proof.
  unfold BastionSSHServer.session_target.
  destruct key as [k|];
    [|eexists _, (database w); split; [reflexivity|apply extends_refl]].
  unfold bind at 1.
  destruct (get_target_extends config (Some k) u ip w) as (r & l & db' & Hg & He).
  pose proof (get_target_route config (Some k) u ip w) as Hr.
  rewrite Hg in Hr |- *. cbn [fst] in Hr.
  assert (Hrt : r = SpecOps.route config (Some k)) by congruence.
  rewrite <- Hrt. clear Hr Hrt Hg.
  destruct r; eexists _, db'; (split; [reflexivity|exact He]).
Qed.

Lemma close_quietly_spec (h : Handle) (w : World) :
  exists w', close_quietly h w = (Ok tt, w') /\
             close_calls w' = (close_calls w ++ [h])%list /\
             active_connections w' = active_connections w /\
             database w' = database w.
Proof.
  unfold close_quietly, try_except.
  destruct (close_handle_world h w) as ([[]|e] & w' & -> & Hc & Ha & _ & Hd);
    eexists; repeat split; auto.
Qed.

Lemma ProxySession_start_spec (out : Outbound) (ch : Handle) (t : Target.t)
    (ip fp : string) (w : World) :
  exists ok w',
    ProxySession_start out ch t ip fp w = (Ok ok, w') /\
    database w' = database w /\
    (exists mid, close_calls w' = (close_calls w ++ mid)%list) /\
    (ok = true ->
     exists ssh tc, connect out = Ok ssh /\ has_transport out = true /\
                    open_channel out = Ok (Some tc) /\
                    active_connections w'
                    = <[connection_id ip fp := conn_info ch ssh tc t ip fp]> ∅).
Proof.
  unfold ProxySession_start. unfold bind at 1. unfold try_except.
  destruct (setup_proxy_session_spec out ch t ip fp (set_active_connections ∅ w))
    as (ok & w' & -> & Hd & H).
  exists ok, w'. split; [reflexivity|]. split; [exact Hd|].
  destruct (connect out) as [ssh|e].
  - destruct (has_transport out).
    + destruct (open_channel out) as [[tc|]|e]; destruct H as (-> & Ha & Hc).
      * split; [exists []; now rewrite app_nil_r|]. intros _. eauto 6.
      * split; [eauto|discriminate].
      * split; [exists []; now rewrite app_nil_r|discriminate].
    + destruct H as (-> & Ha & Hc). split; [eauto|discriminate].
  - destruct H as (-> & Ha & Hc).
    split; [exists []; now rewrite app_nil_r|discriminate].
Qed.

Lemma serve_transport_spec (client : Client) (ip : string) (w : World) :
  exists r w',
    serve_transport config decode client ip w = (r, w') /\
    (exists mid, close_calls w' = (close_calls w ++ mid)%list) /\
    (r = Ok true -> SpecOps.session_evidence config client ip (database w) (active_connections w')).
Proof.
  unfold serve_transport.
  destruct (handshake_fault client) as [e|] eqn:Hhs.
  { eexists _, _. split; [reflexivity|].
    split; [exists []; now rewrite app_nil_r|discriminate]. }
  unfold bind at 1.
  destruct (serve_spec decode (requests client) (BastionSSHServerInterface.init ip) w)
    as (self & l & -> & Hself).
  destruct (channel client) as [ch|] eqn:Hch.
  2:{ eexists _, _. split; [reflexivity|].
      split; [exists []; now rewrite app_nil_r|discriminate]. }
  unfold bind at 1.
  destruct (session_target_spec (BastionSSHServerInterface.authenticated_key self)
              (BastionSSHServerInterface.format_opt (BastionSSHServerInterface.username self))
              ip (set_logger l w)) as (l2 & db2 & -> & He).
  destruct (SpecOps.route config (BastionSSHServerInterface.authenticated_key self))
    as [t|] eqn:Hroute.
  2:{ eexists _, _. split; [reflexivity|].
      split; [exists []; now rewrite app_nil_r|discriminate]. }
  destruct (BastionSSHServerInterface.authenticated_key self) as [k|] eqn:Hkey.
  2:{ eexists _, _. split; [reflexivity|].
      split; [exists []; now rewrite app_nil_r|discriminate]. }
  unfold bind at 1.
  match goal with |- context [ProxySession_start ?o ?c ?t ?i ?f ?w0] =>
    destruct (ProxySession_start_spec o c t i f w0) as (ok & w3 & -> & Hd3 & [mid Hc3] & Hok)
  end.
  destruct ok.
  - eexists _, _. split; [reflexivity|].
    split; [exists mid; exact Hc3|]. intros _.
    destruct (Hok eq_refl) as (ssh & tc & H1 & H2 & H3 & H4).
    split; [exact Hhs|].
    destruct Hself as [->|(u & key & k' & Hin & Hdec & ->)]; [discriminate|].
    cbn in Hkey. injection Hkey as ->.
    exists ch, u, key, k, t, ssh, tc. repeat split; auto.
  - eexists _, _. split; [reflexivity|].
    split; [exists mid; cbn; exact Hc3|discriminate].
Qed.

(** The handler, whole. *)
Lemma _handle_connection_spec (connection_count : Z) (sock tr : Handle)
    (client : Client) (ip : string) (w : World) :
  exists started w' mid,
    _handle_connection config MAX_CONNECTIONS_PER_IP decode connection_count sock tr
      client ip w = (Ok (connection_count, started), w') /\
    close_calls w' = (close_calls w ++ mid ++ [sock])%list /\
    (connection_count + 1 < MAX_CONNECTIONS_PER_IP * 10 -> In tr mid) /\
    (started = true ->
     connection_count + 1 < MAX_CONNECTIONS_PER_IP * 10 /\
     SpecOps.session_evidence config client ip (database w) (active_connections w')).
Proof.
  unfold _handle_connection. cbn zeta. unfold bind at 1. unfold try_except at 1.
  unfold bind at 1. unfold logger_info at 1, emit at 1.
  unfold bind at 1. unfold _check_connection_limits.
  replace (connection_count + 1 - 1) with connection_count by lia.
  destruct (connection_count + 1 >=? MAX_CONNECTIONS_PER_IP * 10) eqn:Hlim.
  - assert (Hge : ~ connection_count + 1 < MAX_CONNECTIONS_PER_IP * 10)
      by (rewrite Z.geb_leb in Hlim; apply Z.leb_le in Hlim; lia).
    unfold bind at 1. unfold logger_warning at 1, emit at 1. unfold ret at 1.
    cbn [negb]. unfold bind at 1.
    match goal with |- context [close_handle sock ?w0] =>
      destruct (close_handle_world sock w0) as (r & w1 & -> & Hc1 & Ha1 & _ & Hd1) end.
    cbn [close_calls set_logger] in Hc1.
    destruct r as [[]|e].
    + unfold ret at 1. unfold bind at 1.
      destruct (close_quietly_spec sock w1) as (w2 & -> & Hc2 & Ha2 & Hd2).
      eexists false, _, [sock]. split; [reflexivity|].
      cbn [close_calls set_logger]. rewrite Hc2, Hc1, <- app_assoc.
      split; [reflexivity|]. split; [intros; contradiction|discriminate].
    + unfold bind at 1. unfold logger_error at 1, emit at 1. unfold ret at 1.
      unfold bind at 1.
      match goal with |- context [close_quietly sock ?w0] =>
        destruct (close_quietly_spec sock w0) as (w2 & -> & Hc2 & Ha2 & Hd2) end.
      cbn [close_calls set_logger] in Hc2.
      eexists false, _, [sock]. split; [reflexivity|].
      cbn [close_calls set_logger]. rewrite Hc2, Hc1, <- app_assoc.
      split; [reflexivity|]. split; [intros; contradiction|discriminate].
  - assert (Hlt : connection_count + 1 < MAX_CONNECTIONS_PER_IP * 10)
      by (rewrite Z.geb_leb in Hlim; apply Z.leb_gt in Hlim; lia).
    unfold ret at 1. cbn [negb]. unfold bind at 1. unfold try_except at 1.
    match goal with |- context [serve_transport config decode client ip ?w0] =>
      destruct (serve_transport_spec client ip w0) as (r & w1 & -> & [mid Hc1] & Hev) end.
    cbn [close_calls set_logger database] in Hc1, Hev.
    assert (Hstep : exists started w2,
               (match r with
                | Ok a => (Ok a, w1)
                | Raise e =>
                    (logger_error ("SSH transport error for " +:+ ip +:+ ": " +:+ Py.str e) ;;
                     ret false) w1
                end) = (Ok started, w2) /\
               close_calls w2 = close_calls w1 /\
               active_connections w2 = active_connections w1 /\
               (started = true -> r = Ok true)).
    { destruct r as [b|e]; eexists _, _; (split; [reflexivity|]); repeat split; auto;
        [congruence|discriminate]. }
    destruct Hstep as (started & w2 & -> & Hc2 & Ha2 & Hst).
    unfold bind at 1.
    destruct (close_quietly_spec tr w2) as (w3 & -> & Hc3 & Ha3 & Hd3).
    unfold ret at 1. unfold bind at 1.
    destruct (close_quietly_spec sock w3) as (w4 & -> & Hc4 & Ha4 & Hd4).
    eexists started, _, (mid ++ [tr])%list. split; [reflexivity|].
    cbn [close_calls active_connections set_logger].
    rewrite Hc4, Hc3, Hc2, Hc1, Ha4, Ha3, Ha2, <- !app_assoc.
    split; [reflexivity|].
    split; [intros _; apply in_or_app; right; now left|].
    intros Hs. split; [exact Hlt|]. apply Hev, Hst, Hs.
Qed.

End HandlerFacts.

Section HandlerTheorems.

Import SSHProxy ProxyOps ServerOps.

(** X21.  A connection that arrives when the counter of live
    connections, this one included, has reached ten times
    [MAX_CONNECTIONS_PER_IP] is refused before any handshake: nothing
    that the client would send has any effect, the socket is closed, the
    counter comes back to its value, and the database and the registry
    are as before. *)
Theorem refused_connection_serves_nothing {parser : Ipaddress.Parser}
    (config : Config.t) (MAX_CONNECTIONS_PER_IP : Z) (decode : list byte -> string)
    (connection_count : Z) (sock tr : Handle) (client client' : Client) (ip : string)
    (w : World) :
  connection_count + 1 >= MAX_CONNECTIONS_PER_IP * 10 ->
  _handle_connection config MAX_CONNECTIONS_PER_IP decode connection_count sock tr
    client ip w
  = _handle_connection config MAX_CONNECTIONS_PER_IP decode connection_count sock tr
      client' ip w /\
  exists w',
    _handle_connection config MAX_CONNECTIONS_PER_IP decode connection_count sock tr
      client ip w = (Ok (connection_count, false), w') /\
    close_calls w' = (close_calls w ++ [sock; sock])%list /\
    database w' = database w /\
    active_connections w' = active_connections w.
Proof.
  intros Hge.
  assert (Hlim : (connection_count + 1 >=? MAX_CONNECTIONS_PER_IP * 10) = true)
    by (rewrite Z.geb_leb; apply Z.leb_le; lia).
  split.
  { unfold _handle_connection, _check_connection_limits. cbn zeta.
    unfold bind, try_except, logger_info, emit. rewrite Hlim. reflexivity. }
  unfold _handle_connection. cbn zeta. unfold bind at 1. unfold try_except at 1.
  unfold bind at 1. unfold logger_info at 1, emit at 1.
  unfold bind at 1. unfold _check_connection_limits. rewrite Hlim.
  replace (connection_count + 1 - 1) with connection_count by lia.
  unfold bind at 1. unfold logger_warning at 1, emit at 1. unfold ret at 1.
  cbn [negb]. unfold bind at 1.
  match goal with |- context [close_handle sock ?w0] =>
    destruct (close_handle_world sock w0) as (r & w1 & -> & Hc1 & Ha1 & _ & Hd1) end.
  cbn [close_calls active_connections database set_logger] in Hc1, Ha1, Hd1.
  destruct r as [[]|e].
  - unfold ret at 1. unfold bind at 1.
    destruct (close_quietly_spec sock w1) as (w2 & -> & Hc2 & Ha2 & Hd2).
    eexists. split; [reflexivity|].
    cbn [close_calls active_connections database set_logger].
    rewrite Hc2, Hc1, Ha2, Ha1, Hd2, Hd1, <- app_assoc. repeat split.
  - unfold bind at 1. unfold logger_error at 1, emit at 1. unfold ret at 1.
    unfold bind at 1.
    match goal with |- context [close_quietly sock ?w0] =>
      destruct (close_quietly_spec sock w0) as (w2 & -> & Hc2 & Ha2 & Hd2) end.
    cbn [close_calls active_connections database set_logger] in Hc2, Ha2, Hd2.
    eexists. split; [reflexivity|].
    cbn [close_calls active_connections database set_logger].
    rewrite Hc2, Hc1, Ha2, Ha1, Hd2, Hd1, <- app_assoc. repeat split.
Qed.

Lemma refused_connection_serves_nothing_at_cap :
  let w := Scenarios.world_abc in
  exists w',
    @_handle_connection Ipaddress.ipv4 Examples.default_config 5 Scenarios.no_decode 49
      1%nat 2%nat Scenarios.client_abc Examples.client_ip w = (Ok (49, false), w') /\
    close_calls w' = (close_calls w ++ [1%nat; 1%nat])%list /\
    database w' = database w /\
    active_connections w' = active_connections w.
Proof.
  apply (@refused_connection_serves_nothing Ipaddress.ipv4 Examples.default_config 5
           Scenarios.no_decode 49 1%nat 2%nat Scenarios.client_abc Scenarios.client_abc
           Examples.client_ip Scenarios.world_abc).
  lia.
Defined.


(** X23.  A proxy session is started only for a connection that was
    admitted under the limit, whose handshake did not fail, that opened a
    channel, that presented a public key which the authenticator accepts,
    whose binding the router gives a target, and for which the outbound
    session could be opened.  The registry of the session's proxy then
    holds that session, with the client's channel and the outbound
    handles, under the id made of the source address and the binding's
    fingerprint. *)
Theorem started_session_has_accepted_key_and_route {parser : Ipaddress.Parser}
    (config : Config.t) (MAX_CONNECTIONS_PER_IP : Z) (decode : list byte -> string)
    (connection_count count' : Z) (sock tr : Handle) (client : Client) (ip : string)
    (w w' : World) :
  _handle_connection config MAX_CONNECTIONS_PER_IP decode connection_count sock tr
    client ip w = (Ok (count', true), w') ->
  connection_count + 1 < MAX_CONNECTIONS_PER_IP * 10 /\
  handshake_fault client = None /\
  exists ch u key k t ssh tc,
    channel client = Some ch /\
    In (BastionSSHServerInterface.AuthPublickey u key) (requests client) /\
    fst (SSHKeyAuth.authenticate_key u key ip w) = Ok (true, Some k) /\
    fst (SSHRouter.get_target config (Some k) u ip w) = Ok (Some t) /\
    connect (outbound client) = Ok ssh /\
    has_transport (outbound client) = true /\
    open_channel (outbound client) = Ok (Some tc) /\
    active_connections w'
    = <[connection_id ip (SSHKey.fingerprint k) :=
          conn_info ch ssh tc t ip (SSHKey.fingerprint k)]> ∅.
Proof.
  intros Hrun.
  destruct (_handle_connection_spec config MAX_CONNECTIONS_PER_IP decode connection_count
              sock tr client ip w) as (started & w1 & mid & Hh & _ & _ & Hev).
  rewrite Hh in Hrun. injection Hrun as _ -> ->.
  destruct (Hev eq_refl) as (Hlt & Hhs & ch & u & key & k & t & ssh & tc &
                             H1 & H2 & H3 & H4 & H5 & H6 & H7 & H8).
  split; [exact Hlt|split; [exact Hhs|]].
  exists ch, u, key, k, t, ssh, tc.
  rewrite authenticate_key_fst, get_target_route, H3, H4. repeat split; auto.
Qed.

Lemma started_session_has_accepted_key_and_route_scenario :
  0 + 1 < 5 * 10.
Proof.
  apply (@started_session_has_accepted_key_and_route Ipaddress.ipv4
           Examples.default_config 5 Scenarios.no_decode 0 0 1%nat 2%nat
           Scenarios.client_abc Examples.client_ip Scenarios.world_abc
           (snd (@_handle_connection Ipaddress.ipv4 Examples.default_config 5
                   Scenarios.no_decode 0 1%nat 2%nat Scenarios.client_abc
                   Examples.client_ip Scenarios.world_abc))).
  vm_compute. reflexivity.
Defined.

(** The happy path of the specification, run: the key "abc" is bound to
    10.0.0.5, the handler starts a session and closes the transport and
    the socket at the end. *)
Example handler_happy_path :
  let r := @_handle_connection Ipaddress.ipv4 Examples.default_config 5
             Scenarios.no_decode 0 1%nat 2%nat Scenarios.client_abc
             Examples.client_ip Scenarios.world_abc in
  fst r = Ok (0, true) /\
  close_calls (snd r) = [2%nat; 1%nat] /\
  size (active_connections (snd r)) = 1%nat /\
  connection_logs (database (snd r))
  = [ConnectionEvent.Build Examples.fp_abc Examples.client_ip "10.0.0.5" "ubuntu"
       "alice" "success" None None].
Proof. vm_compute. repeat split; reflexivity. Qed.

End HandlerTheorems.

(* ===================================================================== *)
(** * Further properties: the add-key command and the configuration       *)
(* ===================================================================== *)

Section CommandTheorems.

(** X24.  A key registered with the add-key command is accepted
    afterwards: when the command returns [True] for a fingerprint, any
    key that [get_key_fingerprint] gives this fingerprint authenticates,
    whatever the username and the source address, and the binding
    returned carries the host, port and users that were entered and is
    enabled. *)
Theorem add_key_command_then_authenticate (fp username target_host target_user : string)
    (target_port : Z) (key : PKey) (username' source_ip : string) (w w1 : World) :
  BastionMain.add_ssh_key fp username target_host target_user target_port w
  = (Ok true, w1) ->
  fst (SSHKeyAuth.get_key_fingerprint key w1) = Ok fp ->
  exists id : Z,
    fst (SSHKeyAuth.authenticate_key username' key source_ip w1)
    = Ok (true, Some (SSHKey.Build (Some id) fp username target_host target_port
                        target_user true)).
Proof.
  intros Hadd Hfp. exists (DbOps.next_id (ssh_keys (database w))). revert Hadd.
  unfold BastionMain.add_ssh_key, try_except. unfold bind at 1.
  unfold DbOps.Database_init.
  destruct (if String.prefix "sqlite" (db_url (database w))
            then match db_fault (database w) with
                 | Some e => (Raise e, w)
                 | None => (Ok tt, w)
                 end
            else (Ok tt, w)) as [[[]|e] w0] eqn:Hdb.
  2:{ unfold bind, logger_error, emit, ret. discriminate. }
  assert (w0 = w) as ->.
  { destruct (String.prefix _ _); [destruct (db_fault _)|]; congruence. }
  unfold bind at 1. unfold lift at 1.
  destruct (SSHKey.init None fp username target_host target_port target_user true)
    as [k|e] eqn:Hk; [|unfold bind, logger_error, emit, ret; discriminate].
  apply init_well_formed in Hk as (-> & Hf & Hh & Hu & Hp).
  unfold bind at 1.
  destruct (DbOps.add_ssh_key _ w) as [[[|]|e] w2] eqn:Hins;
    [|unfold bind, logger_error, emit, ret; discriminate
     |unfold bind, logger_error, emit, ret; discriminate].
  unfold bind, logger_info, emit, ret. intros [= <-].
  assert (Hwf : SpecOps.well_formed
                  (SSHKey.Build None fp username target_host target_port target_user true))
    by (repeat split; auto; cbn; lia).
  pose proof (find_after_add _ _ _ Hwf Hins) as Hfind. cbn in Hfind.
  rewrite authenticate_key_fst. cbn [database set_logger].
  unfold Spec.decision.
  destruct (asbytes key) as [blob|e] eqn:Hb.
  - rewrite (get_key_fingerprint_ok _ _ _ Hb) in Hfp. injection Hfp as ->.
    now rewrite Hfind.
  - rewrite (get_key_fingerprint_raise _ _ _ Hb) in Hfp. injection Hfp as <-.
    contradiction.
Qed.

Lemma add_key_command_then_authenticate_abc :
  let w := Examples.world_of Examples.empty_database in
  exists id : Z,
    fst (SSHKeyAuth.authenticate_key "bob" Examples.key_abc "203.0.113.9"
           (snd (BastionMain.add_ssh_key Examples.fp_abc "alice" "10.0.0.5" "ubuntu" 22 w)))
    = Ok (true, Some (SSHKey.Build (Some id) Examples.fp_abc "alice" "10.0.0.5" 22
                        "ubuntu" true)).
Proof.
  apply (add_key_command_then_authenticate Examples.fp_abc "alice" "10.0.0.5" "ubuntu" 22
           Examples.key_abc "bob" "203.0.113.9"
           (Examples.world_of Examples.empty_database)).
  - vm_compute. reflexivity.
  - vm_compute. reflexivity.
Defined.

Lemma split_head_no_sep (sep : ascii) (s : string) :
  match Py.split sep s with
  | [] => False
  | hd :: tl =>
      SpecOps.join sep (hd :: tl) = s /\
      Forall (fun part => Forall (fun c => c <> sep) (list_ascii_of_string part)) (hd :: tl)
  end.
Proof.
  induction s as [|c s IH]; cbn [Py.split].
  - split; [reflexivity|]. repeat constructor.
  - destruct (Py.split sep s) as [|hd tl]; [contradiction|].
    destruct IH as [Hj HF].
    destruct (Ascii.eqb_spec c sep) as [->|Hne].
    + split.
      * cbn [SpecOps.join]. cbn [SpecOps.join] in Hj. now rewrite Hj.
      * constructor; [constructor|exact HF].
    + split.
      * cbn [SpecOps.join] in Hj |- *. destruct tl as [|x tl].
        -- now rewrite Hj.
        -- change (String c hd +:+ String sep (SpecOps.join sep (x :: tl)))
             with (String c (hd +:+ String sep (SpecOps.join sep (x :: tl)))).
           now rewrite Hj.
      * inversion HF as [|? ? Hhd Htl]. constructor; [|exact Htl].
        cbn. constructor; auto.
Qed.

(** X25.  The list of restricted networks read from the environment is
    never empty (an empty or unset-to-empty value gives one empty entry),
    none of its entries holds a comma, and joining the entries with
    commas gives back the value of the variable, or the default
    10.10.254.0/24 when the variable is not set. *)
Theorem restricted_networks_split_faithfully (env : option string) :
  let networks := Config.RESTRICTED_NETWORKS (Config.from_env env) in
  networks <> [] /\
  SpecOps.join ","%char networks = default "10.10.254.0/24" env /\
  Forall (fun part => Forall (fun c => c <> ","%char) (list_ascii_of_string part)) networks.
Proof.
  cbn zeta. unfold Config.from_env. cbn [Config.RESTRICTED_NETWORKS].
  pose proof (split_head_no_sep ","%char (default "10.10.254.0/24" env)) as H.
  destruct (Py.split ","%char (default "10.10.254.0/24" env)); [contradiction|].
  destruct H as [Hj HF]. repeat split; [discriminate|exact Hj|exact HF].
Qed.

End CommandTheorems.
